(** * Browser sandbox provider (computesdk, packages/browser)

    A shallow embedding of the browser provider: the Pyodide worker
    (python.worker), the provider's RPC helper, registry and result
    normalisation (index.ts and its sibling variant), and the OPFS
    filesystem facade (filesystem/filesystem.ts).

    JavaScript values that cross a boundary untyped are modelled by a small
    value type; thrown values by [fault]; an asynchronous computation by the
    way it ends: it returns, it throws (or its promise rejects), or the
    promise it awaits never settles. External collaborators (importScripts,
    loadPyodide, the interpreter, the OPFS service, the random UUID source,
    Worker.terminate) are oracles that answer from the history of calls.

    [Provider] and [Filesystem] take the platform's own calls (new Worker,
    crypto.randomUUID, postMessage, createWorker) to return;
    [ProviderPlatform] and [FilesystemPlatform] let them throw, and give
    Date its range and the watcher its BroadcastChannel. *)

From Stdlib Require Import ZArith String Ascii List Bool Lia.
From stdpp Require Import gmap strings list pretty.

Local Open Scope string_scope.

(** ** JavaScript primitives *)

Module JS.

Inductive value :=
| VUndefined
| VNull
| VBool (b : bool)
| VNumber (n : Z)
| VString (s : string).

(** [v ?? d] falls back on [d] for undefined and null only. *)
Definition nullish (v : value) : bool :=
  match v with VUndefined | VNull => true | _ => false end.

Definition coalesce (v d : value) : value := if nullish v then d else v.

(** [a === b] on primitives. *)
Definition strict_eq (a b : value) : bool :=
  match a, b with
  | VUndefined, VUndefined => true
  | VNull, VNull => true
  | VBool x, VBool y => Bool.eqb x y
  | VNumber x, VNumber y => Z.eqb x y
  | VString x, VString y => String.eqb x y
  | _, _ => false
  end.

(** [String(v)]. A number is printed digit for digit, which is what
    [String] does for the safe integers. *)
Definition to_string (v : value) : string :=
  match v with
  | VUndefined => "undefined"
  | VNull => "null"
  | VBool true => "true"
  | VBool false => "false"
  | VNumber n => pretty n
  | VString s => s
  end.

(** Truthiness of an optional string field: absent and [''] are falsy. *)
Definition truthy (s : option string) : bool :=
  match s with
  | Some s => negb (String.eqb s "")
  | None => false
  end.

(** The double quote character, for the template literals that contain it. *)
Definition dquote : string := String (ascii_of_nat 34) EmptyString.

(** [s.startsWith(p)] and [s.endsWith(p)]. *)
Fixpoint startsWith (s p : string) {struct p} : bool :=
  match p with
  | EmptyString => true
  | String b p' =>
      match s with
      | EmptyString => false
      | String a s' => Ascii.eqb a b && startsWith s' p'
      end
  end.

Definition endsWith (s p : string) : bool :=
  if Nat.leb (String.length p) (String.length s)
  then String.eqb (substring (String.length s - String.length p) (String.length p) s) p
  else false.

(** A thrown value: an [Error] instance with its name and message, or any
    other value. *)
Inductive fault :=
| ErrorObject (name message : string)
| Thrown (v : value).

(** [String(e?.message ?? e)]: the message of an [Error] (a string, never
    nullish), the thrown value itself otherwise. *)
Definition message_or_self (e : fault) : string :=
  match e with
  | ErrorObject _ m => m
  | Thrown v => to_string v
  end.

(** [String(e)]: Error.prototype.toString for an [Error]. *)
Definition fault_to_string (e : fault) : string :=
  match e with
  | ErrorObject n m =>
      if String.eqb n "" then m
      else if String.eqb m "" then n
      else n ++ ": " ++ m
  | Thrown v => to_string v
  end.

(** How a (possibly asynchronous) computation ends. *)
Inductive outcome (A : Type) :=
| Returned (a : A)
| Threw (e : fault)
| Suspended.
Arguments Returned {A} a.
Arguments Threw {A} e.
Arguments Suspended {A}.

(** Computations over a mutable state [S]. *)
Definition M (S A : Type) : Type := S -> S * outcome A.

Definition ret {S A} (a : A) : M S A := fun s => (s, Returned a).
Definition throw {S A} (e : fault) : M S A := fun s => (s, Threw e).
Definition suspend {S A} : M S A := fun s => (s, Suspended).

Definition bind {S A B} (m : M S A) (k : A -> M S B) : M S B :=
  fun s =>
    match m s with
    | (s', Returned a) => k a s'
    | (s', Threw e) => (s', Threw e)
    | (s', Suspended) => (s', Suspended)
    end.

(** [try { m } catch (e) { h e }]. *)
Definition try_catch {S A} (m : M S A) (h : fault -> M S A) : M S A :=
  fun s =>
    match m s with
    | (s', Threw e) => h e s'
    | r => r
    end.

(** [try { m } finally { f }]: [f] runs when [m] returns or throws, and the
    outcome of [m] is kept unless [f] itself does not return. *)
Definition try_finally {S A} (m : M S A) (f : M S unit) : M S A :=
  fun s =>
    match m s with
    | (s', Suspended) => (s', Suspended)
    | (s', r) =>
        match f s' with
        | (s'', Returned _) => (s'', r)
        | (s'', Threw e) => (s'', Threw e)
        | (s'', Suspended) => (s'', Suspended)
        end
    end.

Definition get {S} : M S S := fun s => (s, Returned s).
Definition modify {S} (f : S -> S) : M S unit := fun s => (f s, Returned tt).

(** [await] of something whose settlement is known. *)
Definition settle {S A} (o : outcome A) : M S A := fun s => (s, o).

End JS.

Import JS.

Declare Scope js_scope.
Delimit Scope js_scope with js.
Notation "'let*' x ':=' m 'in' k" := (JS.bind m (fun x => k))
  (at level 10, x name, m at level 100, k at level 200) : js_scope.
Local Open Scope js_scope.


(** ** The Pyodide worker (python.worker) *)

Module PythonWorker.

(** [ExecResult]: every field but [ok] is optional. *)
Record ExecResult := {
  ok : bool;
  stdout : option string;
  stderr : option string;
  exitCode : option Z;
  error : option string;
}.

(** An outbound message [{ id, ...result }]. *)
Record Reply := {
  id : value;
  body : ExecResult;
}.

(** The fields the dispatcher reads off an inbound [ev.data]. The payload is
    untyped ([Msg | any]), so every field may be missing. *)
Record Msg := {
  msg_id : value;
  type : value;
  indexURL : option string;
  code : option string;
}.

(** The promise [loadPyodide] returned: told apart by the order of creation,
    it remembers the index URL it was asked to load from. *)
Record LoadPromise := {
  load_no : nat;
  load_indexURL : string;
}.

(** A loaded interpreter. *)
Record Pyodide := {
  instance : nat;
}.

(** What the worker does to the outside world, in order. *)
Inductive Event :=
| ImportScripts (url : string)
| LoadPyodide (url : string)
| RunPythonAsync (py : Pyodide) (source : option string)
| PostMessage (r : Reply).

(** The collaborators of the worker. [importScripts] throws or not;
    [loadPyodide] returns a promise, as it is declared to, and that promise
    resolves, rejects or stays pending, once and for all; [runPythonAsync]
    on the capture wrapper around [source] resolves with the triple
    [(_exit_code, _out.getvalue(), _err.getvalue())], rejects, or never
    settles. The exit code is the number the source takes it for (it casts
    the triple to a number and two strings); a Python int beyond the safe
    integers comes over as a BigInt instead. *)
Record Env := {
  importScripts_throws : list Event -> string -> option fault;
  loadPyodide_settles : LoadPromise -> outcome Pyodide;
  runPythonAsync_settles : list Event -> Pyodide -> option string -> outcome (Z * string * string);
}.

(** Module-level variables, and the trace of effects so far. *)
Record State := {
  pyPromise : option LoadPromise;
  PYODIDE_INDEX_URL : string;
  trace : list Event;
}.

Definition initial : State := {|
  pyPromise := None;
  PYODIDE_INDEX_URL := "https://cdn.jsdelivr.net/pyodide/v0.29.0/";
  trace := [];
|}.

Definition emit (ev : Event) : M State unit :=
  modify (fun st => {| pyPromise := pyPromise st;
                       PYODIDE_INDEX_URL := PYODIDE_INDEX_URL st;
                       trace := trace st ++ [ev] |}).

Definition set_PYODIDE_INDEX_URL (u : string) : M State unit :=
  modify (fun st => {| pyPromise := pyPromise st;
                       PYODIDE_INDEX_URL := u;
                       trace := trace st |}).

Definition set_pyPromise (p : LoadPromise) : M State unit :=
  modify (fun st => {| pyPromise := Some p;
                       PYODIDE_INDEX_URL := PYODIDE_INDEX_URL st;
                       trace := trace st |}).

Definition loads (tr : list Event) : nat :=
  length (List.filter (fun ev => match ev with LoadPyodide _ => true | _ => false end) tr).

Definition imports (tr : list Event) : nat :=
  length (List.filter (fun ev => match ev with ImportScripts _ => true | _ => false end) tr).

Arguments loads : simpl never.
Arguments imports : simpl never.

Definition posted (tr : list Event) : list Reply :=
  omap (fun ev => match ev with PostMessage r => Some r | _ => None end) tr.

Section WithEnv.

Variable env : Env.

Definition importScripts (url : string) : M State unit :=
  let* st := get in
  let* _ := emit (ImportScripts url) in
  match importScripts_throws env (trace st) url with
  | Some e => throw e
  | None => ret tt
  end.

Definition loadPyodide (url : string) : M State LoadPromise :=
  let* st := get in
  let* _ := emit (LoadPyodide url) in
  ret {| load_no := loads (trace st); load_indexURL := url |}.

Definition ensurePyodide (indexURL : option string) : M State LoadPromise :=
  let* st := get in
  match pyPromise st with
  | Some p => ret p
  | None =>
      let* _ :=
        match indexURL with
        | Some u =>
            if negb (String.eqb u "")
            then set_PYODIDE_INDEX_URL (if endsWith u "/" then u else u ++ "/")
            else ret tt
        | None => ret tt
        end in
      let* _ :=
        try_catch
          (let* st1 := get in importScripts (PYODIDE_INDEX_URL st1 ++ "pyodide.js"))
          (fun _ => let* st1 := get in importScripts (PYODIDE_INDEX_URL st1 ++ "full/pyodide.js")) in
      let* st2 := get in
      let* p := loadPyodide (PYODIDE_INDEX_URL st2) in
      let* _ := set_pyPromise p in
      ret p
  end.

Definition runPythonAsync (py : Pyodide) (source : option string) : M State (Z * string * string) :=
  let* st := get in
  let* _ := emit (RunPythonAsync py source) in
  settle (runPythonAsync_settles env (trace st) py source).

Definition execWithCapture (py : Pyodide) (source : option string) : M State ExecResult :=
  try_catch
    (let* r := runPythonAsync py source in
     let '(exitCode, stdout, stderr) := r in
     ret {| ok := Z.eqb exitCode 0; exitCode := Some exitCode;
            stdout := Some stdout; stderr := Some stderr; error := None |})
    (fun e =>
       ret {| ok := false; exitCode := Some 1%Z; stdout := None;
              stderr := Some (message_or_self e);
              error := Some (fault_to_string e) |}).

Definition postMessage (r : Reply) : M State unit := emit (PostMessage r).

(** Reading [msg.type] off a null or undefined [ev.data] throws a
    TypeError. Its message is the engine's own: V8's for an undefined
    payload stands for it. *)
Definition null_dereference : fault :=
  ErrorObject "TypeError" "Cannot read properties of undefined (reading 'type')".

(** The message handler. [data] is [None] for a null or undefined payload.
    The handler is followed to its end, or to an [await] that never
    resumes; the module variables are only touched by [ensurePyodide], which
    runs synchronously when the handler starts. *)
Definition onmessage (data : option Msg) : M State unit :=
  let id := coalesce (from_option msg_id VUndefined data) (VString "") in
  try_catch
    (match data with
     | None => throw null_dereference
     | Some msg =>
         if strict_eq (type msg) (VString "init") then
           let* p := ensurePyodide (indexURL msg) in
           let* py := settle (loadPyodide_settles env p) in
           let* probe := execWithCapture py (Some ("print(" ++ dquote ++ "pyodide ready" ++ dquote ++ ")")) in
           postMessage {| id := id; body := probe |}
         else if strict_eq (type msg) (VString "runCode") then
           let* p := ensurePyodide None in
           let* py := settle (loadPyodide_settles env p) in
           let* result := execWithCapture py (code msg) in
           postMessage {| id := id; body := result |}
         else
           postMessage {| id := id;
                          body := {| ok := false; exitCode := Some 1%Z;
                                     stdout := None; stderr := None;
                                     error := Some ("Unknown message type: " ++ to_string (type msg)) |} |}
     end)
    (fun e =>
       postMessage {| id := id;
                      body := {| ok := false; exitCode := Some 1%Z; stdout := None;
                                 error := Some (message_or_self e);
                                 stderr := Some (fault_to_string e) |} |}).

(** The events one message adds to the trace, and the replies among them. *)
Definition emitted (data : option Msg) (st : State) : list Event :=
  drop (length (trace st)) (trace (fst (onmessage data st))).

Definition replies (data : option Msg) (st : State) : list Reply :=
  posted (emitted data st).

(** The worker's message loop over a list of inbound payloads, one handler
    after the other. Handlers that wait overlap in the worker; the module
    variables, the imports and the loads are the same either way, since only
    [ensurePyodide] touches them and it runs when a handler starts. *)
Definition handle_all (inbox : list (option Msg)) (st : State) : State :=
  fold_left (fun s data => fst (onmessage data s)) inbox st.


End WithEnv.

(** The id a reply carries: [msg?.id ?? '']. *)
Definition reply_id (data : option Msg) : value :=
  coalesce (from_option msg_id VUndefined data) (VString "").

(** The reply of the dispatcher's [catch] block for the fault [e]. *)
Definition fault_reply (id : value) (e : fault) : Reply :=
  {| id := id;
     body := {| ok := false; exitCode := Some 1%Z; stdout := None;
                error := Some (message_or_self e);
                stderr := Some (fault_to_string e) |} |}.

(** The reply to a message of unknown type. *)
Definition unknown_reply (id : value) (t : value) : Reply :=
  {| id := id;
     body := {| ok := false; exitCode := Some 1%Z; stdout := None; stderr := None;
                error := Some ("Unknown message type: " ++ to_string t) |} |}.

(** What [execWithCapture] returns for a settled interpreter run. *)
Definition captured (r : outcome (Z * string * string)) : option ExecResult :=
  match r with
  | Returned (c, o, e) =>
      Some {| ok := Z.eqb c 0; exitCode := Some c; stdout := Some o;
              stderr := Some e; error := None |}
  | Threw e =>
      Some {| ok := false; exitCode := Some 1%Z; stdout := None;
              stderr := Some (message_or_self e); error := Some (fault_to_string e) |}
  | Suspended => None
  end.

(** A message that needs the runtime, the argument it passes to
    [ensurePyodide] and the source it runs. *)
Definition needs_runtime (m : Msg) : bool :=
  strict_eq (type m) (VString "init") || strict_eq (type m) (VString "runCode").

Definition ensure_argument (m : Msg) : option string :=
  if strict_eq (type m) (VString "init") then indexURL m else None.

Definition source_of (m : Msg) : option string :=
  if strict_eq (type m) (VString "init")
  then Some ("print(" ++ dquote ++ "pyodide ready" ++ dquote ++ ")")
  else code m.

(** The dispatcher awaits something that never settles. *)
Definition pending (env : Env) (data : option Msg) (st : State) : bool :=
  match data with
  | Some m =>
      if needs_runtime m then
        match ensurePyodide env (ensure_argument m) st with
        | (st1, Returned p) =>
            match loadPyodide_settles env p with
            | Returned py =>
                match runPythonAsync_settles env (trace st1) py (source_of m) with
                | Suspended => true
                | _ => false
                end
            | Threw _ => false
            | Suspended => true
            end
        | (_, Threw _) => false
        | (_, Suspended) => true
        end
      else false
  | None => false
  end.

(** One [loadPyodide] call in the trace exactly when a promise is stored. *)
Definition consistent (st : State) : Prop :=
  loads (trace st) = match pyPromise st with Some _ => 1 | None => 0 end.

(** The state whose variables the dispatcher leaves behind: only
    [ensurePyodide] writes them. *)
Definition after_ensure (env : Env) (data : option Msg) (st : State) : State :=
  match data with
  | Some m => if needs_runtime m then fst (ensurePyodide env (ensure_argument m) st) else st
  | None => st
  end.

(** The index URL a first [ensurePyodide] settles on. *)
Definition chosen_indexURL (indexURL : option string) (current : string) : string :=
  match indexURL with
  | Some u =>
      if String.eqb u "" then current
      else if endsWith u "/" then u else u ++ "/"
  | None => current
  end.

End PythonWorker.


(** ** The provider (index.ts) *)

Module Provider.

(** A request the provider sends: [{ type: 'init', indexURL }] or
    [{ type: 'runCode', code }]. *)
Inductive Request :=
| Init (indexURL : option string)
| RunCode (code : string).

(** [{ id, ...msg }] as the worker will read it. *)
Definition outbound (id : string) (msg : Request) : PythonWorker.Msg :=
  match msg with
  | Init u => {| PythonWorker.msg_id := VString id; PythonWorker.type := VString "init";
                 PythonWorker.indexURL := u; PythonWorker.code := None |}
  | RunCode c => {| PythonWorker.msg_id := VString id; PythonWorker.type := VString "runCode";
                    PythonWorker.indexURL := None; PythonWorker.code := Some c |}
  end.

(** The closure [listener] of one [callWorker] call: the correlation id it
    compares against and the promise it resolves. *)
Record Listener := {
  listens_for : string;
  resolves : nat;
}.

Definition Listener_eqb (a b : Listener) : bool :=
  String.eqb (listens_for a) (listens_for b) && Nat.eqb (resolves a) (resolves b).

(** The main thread's side of one [Worker] object. *)
Record Port := {
  listeners : list Listener;
  outbox : list PythonWorker.Msg;
  terminated : bool;
}.

Definition fresh_port : Port := {| listeners := []; outbox := []; terminated := false |}.

Record BrowserSandbox := {
  id : string;
  runtime : string;
  worker : nat;
}.

Record BrowserConfig := {
  config_runtime : option string;
  pyodideIndexURL : option string;
}.

Record CreateSandboxOptions := {
  options_runtime : option string;
  options_sandboxId : option string;
}.

Record ExecutionResult := {
  exitCode : Z;
  stdout : string;
  stderr : string;
  sandboxId : option string;
  provider : option string;
  executionTime : option Z;
}.

(** The main thread: the module-level [registry], the workers spawned so far,
    the promises of [callWorker] and how many UUIDs were drawn. *)
Record Main := {
  registry : gmap string BrowserSandbox;
  ports : gmap nat Port;
  spawned : nat;
  promises : gmap nat PythonWorker.Reply;
  promises_made : nat;
  uuids_drawn : nat;
}.

Definition start : Main := {|
  registry := ∅; ports := ∅; spawned := 0; promises := ∅;
  promises_made := 0; uuids_drawn := 0;
|}.

Definition port (w : nat) (st : Main) : Port := default fresh_port (ports st !! w).

Definition set_port (w : nat) (p : Port) (st : Main) : Main :=
  {| registry := registry st; ports := <[w := p]> (ports st); spawned := spawned st;
     promises := promises st; promises_made := promises_made st;
     uuids_drawn := uuids_drawn st |}.

Definition set_registry (r : gmap string BrowserSandbox) (st : Main) : Main :=
  {| registry := r; ports := ports st; spawned := spawned st;
     promises := promises st; promises_made := promises_made st;
     uuids_drawn := uuids_drawn st |}.

(** The collaborators of the main thread. [new Worker],
    [crypto.randomUUID] and [worker.postMessage] are taken to return. *)
Record Env := {
  randomUUID_value : nat -> string;
  terminate_throws : nat -> option fault;
  worker_messages : nat -> list (option PythonWorker.Reply);
}.

Section WithEnv.

Variable env : Env.

Definition randomUUID : M Main string :=
  fun st =>
    ({| registry := registry st; ports := ports st; spawned := spawned st;
        promises := promises st; promises_made := promises_made st;
        uuids_drawn := S (uuids_drawn st) |},
     Returned (randomUUID_value env (uuids_drawn st))).

Definition spawnPythonWorker : M Main nat :=
  fun st =>
    ({| registry := registry st; ports := ports st; spawned := S (spawned st);
        promises := promises st; promises_made := promises_made st;
        uuids_drawn := uuids_drawn st |},
     Returned (spawned st)).

Definition new_Promise : M Main nat :=
  fun st =>
    ({| registry := registry st; ports := ports st; spawned := spawned st;
        promises := promises st; promises_made := S (promises_made st);
        uuids_drawn := uuids_drawn st |},
     Returned (promises_made st)).

(** A promise settles once: a second [resolve] is ignored. *)
Definition resolve (h : nat) (r : PythonWorker.Reply) (st : Main) : Main :=
  match promises st !! h with
  | Some _ => st
  | None =>
      {| registry := registry st; ports := ports st; spawned := spawned st;
         promises := <[h := r]> (promises st); promises_made := promises_made st;
         uuids_drawn := uuids_drawn st |}
  end.

Definition addEventListener (w : nat) (l : Listener) (st : Main) : Main :=
  let p := port w st in
  set_port w {| listeners := listeners p ++ [l]; outbox := outbox p;
                terminated := terminated p |} st.

Definition removeEventListener (w : nat) (l : Listener) (st : Main) : Main :=
  let p := port w st in
  set_port w {| listeners := List.filter (fun l' => negb (Listener_eqb l' l)) (listeners p);
                outbox := outbox p; terminated := terminated p |} st.

Definition postMessage (w : nat) (m : PythonWorker.Msg) (st : Main) : Main :=
  let p := port w st in
  set_port w {| listeners := listeners p; outbox := outbox p ++ [m];
                terminated := terminated p |} st.

(** The body of [listener]: [e.data?.id !== id] returns at once, also when
    [e.data] is null or undefined. *)
Definition listener (w : nat) (l : Listener) (data : option PythonWorker.Reply) (st : Main) : Main :=
  match data with
  | Some r =>
      if negb (strict_eq (PythonWorker.id r) (VString (listens_for l))) then st
      else resolve (resolves l) r (removeEventListener w l st)
  | None => st
  end.

(** A message event on worker [w]: every listener registered when the event
    is dispatched runs once, in registration order. *)
Definition deliver (w : nat) (data : option PythonWorker.Reply) (st : Main) : Main :=
  fold_left (fun s l => listener w l data s) (listeners (port w st)) st.

Definition callWorker (w : nat) (msg : Request) : M Main nat :=
  let* h := new_Promise in
  let* id := randomUUID in
  let l := {| listens_for := id; resolves := h |} in
  let* _ := modify (addEventListener w l) in
  let* _ := modify (postMessage w (outbound id msg)) in
  ret h.

(** [await] of a [callWorker] promise while the worker delivers [incoming]. *)
Fixpoint await (w h : nat) (incoming : list (option PythonWorker.Reply)) : M Main PythonWorker.Reply :=
  fun st =>
    match promises st !! h with
    | Some r => (st, Returned r)
    | None =>
        match incoming with
        | [] => (st, Suspended)
        | d :: rest => await w h rest (deliver w d st)
        end
    end.

Definition makeExecutionResult (sandboxId : string) (response : PythonWorker.ExecResult) : ExecutionResult :=
  {| exitCode :=
       match PythonWorker.exitCode response with
       | Some n => n
       | None => if PythonWorker.ok response then 0%Z else 1%Z
       end;
     stdout := default "" (PythonWorker.stdout response);
     stderr :=
       match PythonWorker.stderr response with
       | Some s => s
       | None => if PythonWorker.ok response then "" else default "" (PythonWorker.error response)
       end;
     sandboxId := Some sandboxId;
     provider := Some "@computesdk/browser";
     executionTime := Some 0%Z |}.

(** [options?.runtime ?? config.runtime ?? 'python']. *)
Definition requested_runtime (config : BrowserConfig) (options : option CreateSandboxOptions) : string :=
  match options ≫= options_runtime with
  | Some r => r
  | None => default "python" (config_runtime config)
  end.

Definition create (config : BrowserConfig) (options : option CreateSandboxOptions)
  : M Main (BrowserSandbox * string) :=
  let runtime := requested_runtime config options in
  if negb (String.eqb runtime "python") then
    throw (ErrorObject "Error"
             ("Unsupported runtime " ++ dquote ++ runtime ++ dquote ++ ". Only "
                ++ dquote ++ "python" ++ dquote ++ " is supported."))
  else
    let* worker := spawnPythonWorker in
    let* sandboxId :=
      match options ≫= options_sandboxId with
      | Some s => ret s
      | None => let* u := randomUUID in ret ("browser-sb-" ++ u)
      end in
    let* h := callWorker worker (Init (pyodideIndexURL config)) in
    let* _ := await worker h (worker_messages env worker) in
    let sandbox := {| id := sandboxId; runtime := "python"; worker := worker |} in
    let* _ := modify (fun st => set_registry (<[sandboxId := sandbox]> (registry st)) st) in
    ret (sandbox, sandboxId).

Definition getById (sandboxId : string) : M Main (option (BrowserSandbox * string)) :=
  let* st := get in
  match registry st !! sandboxId with
  | Some sb => ret (Some (sb, sandboxId))
  | None => ret None
  end.

Definition terminate (w : nat) : M Main unit :=
  match terminate_throws env w with
  | Some e => throw e
  | None =>
      modify (fun st =>
                let p := port w st in
                set_port w {| listeners := listeners p; outbox := outbox p;
                              terminated := true |} st)
  end.

Definition destroy (sandboxId : string) : M Main unit :=
  let* st := get in
  match registry st !! sandboxId with
  | Some sb =>
      try_finally
        (terminate (worker sb))
        (modify (fun st => set_registry (delete sandboxId (registry st)) st))
  | None => ret tt
  end.

Definition runCode (sandbox : BrowserSandbox) (code : string) : M Main ExecutionResult :=
  if negb (String.eqb (runtime sandbox) "python") then
    ret (makeExecutionResult (id sandbox)
           {| PythonWorker.ok := false; PythonWorker.exitCode := Some 127%Z;
              PythonWorker.stdout := None;
              PythonWorker.stderr :=
                Some ("Unsupported runtime " ++ dquote ++ runtime sandbox ++ dquote);
              PythonWorker.error := None |})
  else
    let* h := callWorker (worker sandbox) (RunCode code) in
    let* res := await (worker sandbox) h (worker_messages env (worker sandbox)) in
    ret (makeExecutionResult (id sandbox) (PythonWorker.body res)).

Definition runCommand (sandbox : BrowserSandbox) (command : string) : M Main ExecutionResult :=
  ret (makeExecutionResult (id sandbox)
         {| PythonWorker.ok := false; PythonWorker.exitCode := Some 127%Z;
            PythonWorker.stdout := None;
            PythonWorker.stderr :=
              Some ("runCommand(" ++ dquote ++ command ++ dquote ++ ") not supported in browser");
            PythonWorker.error := None |}).

(** What the main thread does on one worker, one step at a time: a call of
    [callWorker], or the delivery of a message event. *)
Inductive Action :=
| Call (w : nat) (msg : Request)
| Deliver (w : nat) (data : option PythonWorker.Reply).

Definition step (a : Action) (st : Main) : Main :=
  match a with
  | Call w msg => fst (callWorker w msg st)
  | Deliver w data => deliver w data st
  end.

Definition run (actions : list Action) (st : Main) : Main :=
  fold_left (fun s a => step a s) actions st.

End WithEnv.

(** The messages of [actions] delivered on worker [w], in order. *)
Definition delivered (w : nat) (actions : list Action) : list (option PythonWorker.Reply) :=
  omap (fun a => match a with
                 | Deliver w' d => if Nat.eqb w' w then Some d else None
                 | Call _ _ => None
                 end) actions.

(** The first of [ds] whose [id] is strictly equal to the string [id]. *)
Definition first_match (id : string) (ds : list (option PythonWorker.Reply)) : option PythonWorker.Reply :=
  mjoin (List.find (fun d => match d with
                        | Some r => strict_eq (PythonWorker.id r) (VString id)
                        | None => false
                        end) ds).

(** [e.data?.id === id] for the listener [l]. *)
Definition answers (data : option PythonWorker.Reply) (l : Listener) : bool :=
  match data with
  | Some r => strict_eq (PythonWorker.id r) (VString (listens_for l))
  | None => false
  end.

(** Promise handles are handed out in order: every listener resolves, and
    every settled promise is, one already made. *)
Definition handles_made (st : Main) : Prop :=
  (forall w l, In l (listeners (port w st)) -> resolves l < promises_made st)
  /\ (forall h r, promises st !! h = Some r -> h < promises_made st).

(** The call behind listener [l] on worker [w], after the deliveries [ds]:
    its promise holds the first answer among [ds], the listener is
    registered exactly while there is none, and no other listener resolves
    its promise. *)
Definition tracked (w : nat) (l : Listener) (ds : list (option PythonWorker.Reply)) (st : Main) : Prop :=
  handles_made st
  /\ resolves l < promises_made st
  /\ (forall w' l', In l' (listeners (port w' st)) -> resolves l' = resolves l ->
                    w' = w /\ l' = l)
  /\ promises st !! resolves l = first_match (listens_for l) ds
  /\ (In l (listeners (port w st)) <-> first_match (listens_for l) ds = None).

End Provider.


(** ** The sibling provider variant (second half of filesystem/filesystem.ts)

    Its [callWorker], [getById] and [destroy] are the text of index.ts again
    and are shared with [Provider]; what differs is below. *)

Module ProviderVariant.

Import Provider.

Definition callWorker := Provider.callWorker.
Definition destroy := Provider.destroy.

(** This variant leaves [sandboxId], [provider] and [executionTime] out. *)
Definition toExecutionResult (res : PythonWorker.ExecResult) : ExecutionResult :=
  {| exitCode :=
       match PythonWorker.exitCode res with
       | Some n => n
       | None => if PythonWorker.ok res then 0%Z else 1%Z
       end;
     stdout := default "" (PythonWorker.stdout res);
     stderr :=
       match PythonWorker.stderr res with
       | Some s => s
       | None => if PythonWorker.ok res then "" else default "" (PythonWorker.error res)
       end;
     sandboxId := None;
     provider := None;
     executionTime := None |}.

Section WithEnv.

Variable env : Env.

Definition create (config : BrowserConfig) (options : option CreateSandboxOptions)
  : M Main (BrowserSandbox * string) :=
  let desired := requested_runtime config options in
  if negb (String.eqb desired "python") then
    throw (ErrorObject "Error"
             ("Unsupported runtime " ++ dquote ++ desired ++ dquote
                ++ " for browser provider. Only " ++ dquote ++ "python" ++ dquote
                ++ " is available."))
  else
    let* worker := spawnPythonWorker in
    let* sandboxId :=
      match options ≫= options_sandboxId with
      | Some s => ret s
      | None => let* u := randomUUID env in ret ("browser-sb-" ++ u)
      end in
    let* h := callWorker env worker (Init (pyodideIndexURL config)) in
    let* _ := await worker h (worker_messages env worker) in
    let sandbox := {| id := sandboxId; runtime := "python"; worker := worker |} in
    let* _ := modify (fun st => set_registry (<[sandboxId := sandbox]> (registry st)) st) in
    ret (sandbox, sandboxId).

Definition runCode (sandbox : BrowserSandbox) (code : string) : M Main ExecutionResult :=
  if negb (String.eqb (runtime sandbox) "python") then
    ret {| exitCode := 127; stdout := "";
           stderr := "Unsupported runtime " ++ dquote ++ runtime sandbox ++ dquote
                       ++ " in browser provider";
           sandboxId := None; provider := None; executionTime := None |}
  else
    let* h := callWorker env (worker sandbox) (RunCode code) in
    let* res := await (worker sandbox) h (worker_messages env (worker sandbox)) in
    ret (toExecutionResult (PythonWorker.body res)).

Definition runCommand (sandbox : BrowserSandbox) (command : string) : M Main ExecutionResult :=
  ret {| exitCode := 127; stdout := "";
         stderr := "runCommand(" ++ dquote ++ command ++ dquote
                     ++ ") is not supported in the browser provider";
         sandboxId := None; provider := None; executionTime := None |}.

End WithEnv.

End ProviderVariant.


(** ** The filesystem facade (filesystem/filesystem.ts) *)

Module Filesystem.

Definition ROOT : string := "/workspace".
Definition NAMESPACE : string := "compute-sdk:fs".

(** [p && p.startsWith('/') ? p : `/${p || ''}`]. *)
Definition normalizePath (p : string) : string :=
  if negb (String.eqb p "") && startsWith p "/" then p
  else "/" ++ (if negb (String.eqb p "") then p else "").

(** What [readFile] may hand back and [writeFile] accepts. *)
Inductive FileData :=
| Text (s : string)
| Binary (bytes : list Byte.byte).

(** A loosely typed record of [readDir]. *)
Record DirRecord := {
  rec_name : option string;
  rec_path : option string;
  rec_isFile : option bool;
  rec_isDirectory : option bool;
  rec_kind : option string;
  rec_size : option Z;
  rec_mtime : option Z;
}.

Record FileEntry := {
  name : string;
  path : string;
  isDirectory : bool;
  size : Z;
  lastModified : Z;
}.

(** The calls the facade makes on the OPFS service. *)
Inductive Call :=
| ReadFile (path : string) (encoding : string)
| WriteFile (path : string) (data : FileData)
| Mkdir (path : string) (recursive : bool)
| ReadDir (path : string)
| Stat (path : string)
| Remove (path : string) (recursive : bool)
| Watch (path : string) (recursive : bool).

(** The path a call addresses. *)
Definition addressed (c : Call) : string :=
  match c with
  | ReadFile p _ | WriteFile p _ | Mkdir p _ | ReadDir p | Stat p
  | Remove p _ | Watch p _ => p
  end.

(** The OPFS service, the text decoder and the clock. Each operation answers
    from the calls made before it: it returns, throws (or its promise
    rejects), or its promise never settles. *)
Record OPFSService := {
  readFile_ends : list Call -> string -> string -> outcome FileData;
  writeFile_ends : list Call -> string -> FileData -> outcome unit;
  mkdir_ends : list Call -> string -> bool -> outcome unit;
  readDir_ends : list Call -> string -> outcome (list DirRecord);
  stat_ends : list Call -> string -> outcome unit;
  remove_ends : list Call -> string -> bool -> outcome unit;
  watch_ends : list Call -> string -> bool -> outcome unit;
  TextDecoder_decode : list Byte.byte -> string;
  Date_now : Z;
}.

(** The module-level [__fs] singleton (set once [createWorker] has run) and
    the calls the service has received. *)
Record State := {
  __fs : option (string * string);
  calls : list Call;
}.

Definition unset : State := {| __fs := None; calls := [] |}.

Section WithService.

Variable service : OPFSService.

(** [toFileEntry]: [lastModified] is the time given to [new Date], with one
    reading of the clock for a whole listing; [FilesystemPlatform.toFileEntry]
    has the range of a [Date] and a clock that moves. *)
Definition toFileEntry (d : DirRecord) : FileEntry :=
  {| name := default "" (rec_name d);
     path := default (normalizePath (default "" (rec_name d))) (rec_path d);
     isDirectory :=
       default (negb (default false (rec_isFile d))
                  && from_option (fun k => String.eqb k "directory") false (rec_kind d))
               (rec_isDirectory d);
     size := default 0%Z (rec_size d);
     lastModified := default (Date_now service) (rec_mtime d) |}.

Definition toUtf8String (data : FileData) : string :=
  match data with
  | Text s => s
  | Binary b => TextDecoder_decode service b
  end.

(** [getFS()]: creates the service handle on first use. [createWorker] is
    taken to return; [FilesystemPlatform.getFS] lets it throw. *)
Definition getFS : M State unit :=
  modify (fun st =>
            match __fs st with
            | Some _ => st
            | None => {| __fs := Some (ROOT, NAMESPACE); calls := calls st |}
            end).

(** One call on the service, awaited. *)
Definition invoke {A} (c : Call) (ends : list Call -> outcome A) : M State A :=
  fun st => ({| __fs := __fs st; calls := calls st ++ [c] |}, ends (calls st)).

Definition readFile (path : string) : M State string :=
  let* _ := getFS in
  let* out := invoke (ReadFile (normalizePath path) "utf8")
                (fun h => readFile_ends service h (normalizePath path) "utf8") in
  ret (toUtf8String out).

Definition writeFile (path content : string) : M State unit :=
  let* _ := getFS in
  invoke (WriteFile (normalizePath path) (Text content))
    (fun h => writeFile_ends service h (normalizePath path) (Text content)).

Definition mkdir (path : string) : M State unit :=
  let* _ := getFS in
  invoke (Mkdir (normalizePath path) true)
    (fun h => mkdir_ends service h (normalizePath path) true).

Definition readdir (path : string) : M State (list FileEntry) :=
  let* _ := getFS in
  let* items := invoke (ReadDir (normalizePath path))
                  (fun h => readDir_ends service h (normalizePath path)) in
  ret (map toFileEntry items).

Definition exists_ (path : string) : M State bool :=
  let* _ := getFS in
  try_catch
    (let* _ := invoke (Stat (normalizePath path))
                 (fun h => stat_ends service h (normalizePath path)) in
     ret true)
    (fun _ => ret false).

Definition remove (path : string) : M State unit :=
  let* _ := getFS in
  invoke (Remove (normalizePath path) true)
    (fun h => remove_ends service h (normalizePath path) true).

(** The six operations of [browserFs], by name. *)
Inductive Operation :=
| OpReadFile
| OpWriteFile (content : string)
| OpMkdir
| OpReaddir
| OpExists
| OpRemove.

(** Runs one operation and keeps the state it leaves. *)
Definition perform (op : Operation) (p : string) (st : State) : State :=
  match op with
  | OpReadFile => fst (readFile p st)
  | OpWriteFile c => fst (writeFile p c st)
  | OpMkdir => fst (mkdir p st)
  | OpReaddir => fst (readdir p st)
  | OpExists => fst (exists_ p st)
  | OpRemove => fst (remove p st)
  end.

End WithService.

(** An event record on the broadcast channel: every field may be missing. *)
Record WatchMsg := {
  msg_type : option string;
  msg_path : option string;
  msg_from : option string;
  msg_to : option string;
}.

(** What [onChange] is called with. *)
Record ChangeEvent := {
  event : string;
  event_path : option string;
  event_from : option string;
  event_to : option string;
}.

(** The [handler] of [watchFS]: the list of [onChange] invocations it makes
    for one message event. [data] is [None] for a falsy [e.data];
    [onChange] tells whether the caller passed a callback. *)
Definition handler (onChange : bool) (data : option WatchMsg) : list ChangeEvent :=
  match data with
  | None => []
  | Some msg =>
      if negb onChange then []
      else if from_option (fun t => String.eqb t "rename") false (msg_type msg)
              && truthy (msg_from msg) && truthy (msg_to msg)
      then [{| event := "rename"; event_path := None;
               event_from := msg_from msg; event_to := msg_to msg |}]
      else if from_option (fun t => String.eqb t "create" || String.eqb t "modify") false (msg_type msg)
              && truthy (msg_path msg)
      then [{| event := default "" (msg_type msg); event_path := msg_path msg;
               event_from := None; event_to := None |}]
      else if from_option (fun t => String.eqb t "remove") false (msg_type msg)
              && truthy (msg_path msg)
      then [{| event := "remove"; event_path := msg_path msg;
               event_from := None; event_to := None |}]
      else []
  end.

(** A record that carries its paths: a kind among the four and the paths
    that kind needs, present. *)
Definition carries_paths (m : WatchMsg) : bool :=
  match msg_type m with
  | Some t =>
      (String.eqb t "rename" && bool_decide (is_Some (msg_from m))
         && bool_decide (is_Some (msg_to m)))
      || ((String.eqb t "create" || String.eqb t "modify" || String.eqb t "remove")
            && bool_decide (is_Some (msg_path m)))
  | None => false
  end.

(** The same with every required path non-empty. *)
Definition well_formed (m : WatchMsg) : bool :=
  match msg_type m with
  | Some t =>
      (String.eqb t "rename" && truthy (msg_from m) && truthy (msg_to m))
      || ((String.eqb t "create" || String.eqb t "modify" || String.eqb t "remove")
            && truthy (msg_path m))
  | None => false
  end.

(** The event a well-formed record is forwarded as. *)
Definition forwarded (m : WatchMsg) : ChangeEvent :=
  if from_option (fun t => String.eqb t "rename") false (msg_type m)
  then {| event := "rename"; event_path := None;
          event_from := msg_from m; event_to := msg_to m |}
  else {| event := default "" (msg_type m); event_path := msg_path m;
          event_from := None; event_to := None |}.

End Filesystem.


(** ** The rest of the worker, the provider and the facade *)

Module WorkerTrace.

Import PythonWorker.

(** The interpreter runs in a trace, and whether each comes after a
    [loadPyodide] call; [loaded] tells whether one came before the trace. *)
Definition runs (tr : list Event) : nat :=
  length (List.filter (fun ev => match ev with RunPythonAsync _ _ => true | _ => false end) tr).

Fixpoint runs_follow_load (loaded : bool) (tr : list Event) : bool :=
  match tr with
  | [] => true
  | LoadPyodide _ :: rest => runs_follow_load true rest
  | RunPythonAsync _ _ :: rest => loaded && runs_follow_load loaded rest
  | _ :: rest => runs_follow_load loaded rest
  end.

(** [Number.isSafeInteger]: the whole numbers a Python int comes over as a
    number for, and that [String] prints digit for digit; beyond them the
    interpreter hands over a BigInt. *)
Definition safe_integer (n : Z) : Prop := (Z.abs n <= 9007199254740991)%Z.

(** An interpreter whose runs end with exit codes that are safe integers. *)
Definition exits_with_numbers (env : Env) : Prop :=
  forall tr py source c o e,
    runPythonAsync_settles env tr py source = Returned (c, o, e) -> safe_integer c.

(** The values [to_string] prints as [String] does. *)
Definition prints_exactly (v : value) : Prop :=
  match v with
  | VNumber n => safe_integer n
  | _ => True
  end.

(** The script URLs imported in a trace. *)
Definition imported (tr : list Event) : list string :=
  omap (fun ev => match ev with ImportScripts u => Some u | _ => None end) tr.

(** A script URL made of an index URL that ends with a slash and one of the
    two file names the loader tries. *)
Definition script_of_index (u : string) : Prop :=
  exists base, endsWith base "/" = true
               /\ (u = base ++ "pyodide.js" \/ u = base ++ "full/pyodide.js").

(** The index URL ends with a slash and every import was built from such a
    URL. *)
Definition urls_well_formed (st : State) : Prop :=
  endsWith (PYODIDE_INDEX_URL st) "/" = true
  /\ Forall script_of_index (imported (trace st)).

End WorkerTrace.

Module ProviderApi.

Import Provider.

(** [SandboxInfo] as [getInfo] fills it. *)
Record SandboxInfo := {
  info_id : string;
  info_provider : string;
  info_runtime : string;
  status : string;
  createdAt : option Z;
  timeout : option Z;
}.

(** The method [list], [[...registry.entries()].map(...)]: one pair per
    entry. The order of a [Map] is that of insertion, which the registry
    here does not keep: the pairs come in the order of the keys. *)
Definition list_sandboxes : M Main (list (BrowserSandbox * string)) :=
  let* st := get in
  ret (map (fun kv => (snd kv, fst kv)) (map_to_list (registry st))).

(** [getInfo]: [now] is what [new Date()] reads. *)
Definition getInfo (now : Z) (sandbox : BrowserSandbox) : M Main SandboxInfo :=
  ret {| info_id := id sandbox; info_provider := "@computesdk/browser";
         info_runtime := runtime sandbox; status := "running";
         createdAt := Some now; timeout := Some 0%Z |}.

(** [getInfo] of the sibling variant. *)
Definition getInfo_variant (sandbox : BrowserSandbox) : M Main SandboxInfo :=
  ret {| info_id := id sandbox; info_provider := "browser";
         info_runtime := runtime sandbox; status := "running";
         createdAt := None; timeout := None |}.

Definition getUrl : M Main string := ret "".

Definition getSupportedRuntimes : list string := ["python"].

Record Capabilities := {
  filesystem : bool;
  commandExecution : bool;
  terminal : bool;
}.

Definition getCapabilities : Capabilities :=
  {| filesystem := true; commandExecution := false; terminal := false |}.

(** The calls a host makes on the provider's sandbox methods. *)
Inductive Operation :=
| DoCreate (config : BrowserConfig) (options : option CreateSandboxOptions)
| DoDestroy (sandboxId : string)
| DoRunCode (sandbox : BrowserSandbox) (code : string)
| DoRunCommand (sandbox : BrowserSandbox) (command : string).

Definition apply (env : Env) (op : Operation) (st : Main) : Main :=
  match op with
  | DoCreate config options => fst (create env config options st)
  | DoDestroy sandboxId => fst (destroy env sandboxId st)
  | DoRunCode sandbox code => fst (runCode env sandbox code st)
  | DoRunCommand sandbox command => fst (runCommand sandbox command st)
  end.

Definition apply_all (env : Env) (ops : list Operation) (st : Main) : Main :=
  fold_left (fun s op => apply env op s) ops st.

(** The sandbox [create] builds and the id it registers it under. *)
Definition created_id (env : Env) (options : option CreateSandboxOptions) (st : Main) : string :=
  match options ≫= options_sandboxId with
  | Some s => s
  | None => "browser-sb-" ++ randomUUID_value env (uuids_drawn st)
  end.

Definition created_sandbox (env : Env) (options : option CreateSandboxOptions) (st : Main)
  : BrowserSandbox :=
  {| id := created_id env options st; runtime := "python"; worker := spawned st |}.

(** The correlation id of the init call of [create]: the UUID drawn after
    the one the sandbox id may have taken. *)
Definition init_call_id (env : Env) (options : option CreateSandboxOptions) (st : Main) : string :=
  match options ≫= options_sandboxId with
  | Some _ => randomUUID_value env (uuids_drawn st)
  | None => randomUUID_value env (S (uuids_drawn st))
  end.

(** What an event, a call or a wait never touches on the main thread. *)
Definition untouched (st st' : Main) : Prop :=
  registry st' = registry st
  /\ spawned st' = spawned st
  /\ uuids_drawn st' = uuids_drawn st
  /\ forall w, outbox (port w st') = outbox (port w st)
               /\ terminated (port w st') = terminated (port w st).

(** The main thread when [create] sends init: a worker spawned, and a UUID
    drawn if the sandbox id needed one. *)
Definition before_init (env : Env) (options : option CreateSandboxOptions) (st : Main) : Main :=
  match options ≫= options_sandboxId with
  | Some _ => fst (spawnPythonWorker st)
  | None => fst (randomUUID env (fst (spawnPythonWorker st)))
  end.

(** The registry as [create] and [destroy] keep it: every sandbox is filed
    under its own id, runs python, and sits on a worker that was spawned;
    no two sandboxes share a worker. *)
Definition well_kept (st : Main) : Prop :=
  (forall k sb, registry st !! k = Some sb ->
                id sb = k /\ runtime sb = "python" /\ worker sb < spawned st)
  /\ (forall k1 k2 sb1 sb2,
        registry st !! k1 = Some sb1 -> registry st !! k2 = Some sb2 ->
        worker sb1 = worker sb2 -> k1 = k2).

End ProviderApi.

(** The provider on a platform that may refuse: [Provider] takes
    [new Worker], [crypto.randomUUID] and [worker.postMessage] to return;
    here each may throw. A throw inside the executor of [new Promise]
    rejects the promise, and awaiting a rejected promise throws. *)
Module ProviderPlatform.

Import Provider.

(** The fault each call ends with, if any: [new Worker] by the number of
    workers spawned before, [crypto.randomUUID] by the number of UUIDs
    drawn before, [worker.postMessage] by the worker and the message. *)
Record Platform := {
  new_Worker_throws : nat -> option fault;
  randomUUID_throws : nat -> option fault;
  postMessage_throws : nat -> PythonWorker.Msg -> option fault;
}.

(** The main thread, and the promises that were rejected. *)
Record Thread := {
  main : Main;
  rejected : gmap nat fault;
}.

Definition on_main {A} (m : M Main A) : M Thread A :=
  fun t =>
    match m (main t) with
    | (s, o) => ({| main := s; rejected := rejected t |}, o)
    end.

Definition reject (h : nat) (e : fault) : M Thread unit :=
  modify (fun t => {| main := main t; rejected := <[h := e]> (rejected t) |}).

Section WithPlatform.

Variable platform : Platform.
Variable env : Env.

Definition spawnPythonWorker : M Thread nat :=
  fun t =>
    match new_Worker_throws platform (spawned (main t)) with
    | Some e => (t, Threw e)
    | None => on_main Provider.spawnPythonWorker t
    end.

Definition randomUUID : M Thread string :=
  fun t =>
    match randomUUID_throws platform (uuids_drawn (main t)) with
    | Some e => (t, Threw e)
    | None => on_main (Provider.randomUUID env) t
    end.

Definition postMessage (w : nat) (m : PythonWorker.Msg) : M Thread unit :=
  match postMessage_throws platform w m with
  | Some e => throw e
  | None => on_main (modify (Provider.postMessage w m))
  end.

(** [callWorker]: the executor runs at once, and what it throws rejects
    the promise; the call itself returns the promise. *)
Definition callWorker (w : nat) (msg : Request) : M Thread nat :=
  let* h := on_main new_Promise in
  let* _ :=
    try_catch
      (let* id := randomUUID in
       let l := {| listens_for := id; resolves := h |} in
       let* _ := on_main (modify (addEventListener w l)) in
       postMessage w (outbound id msg))
      (fun e => reject h e) in
  ret h.

(** [await] of a [callWorker] promise while the worker delivers
    [incoming]: a rejected promise throws. *)
Fixpoint await (w h : nat) (incoming : list (option PythonWorker.Reply))
  : M Thread PythonWorker.Reply :=
  fun t =>
    match rejected t !! h with
    | Some e => (t, Threw e)
    | None =>
        match promises (main t) !! h with
        | Some r => (t, Returned r)
        | None =>
            match incoming with
            | [] => (t, Suspended)
            | d :: rest =>
                await w h rest {| main := deliver w d (main t); rejected := rejected t |}
            end
        end
    end.

Definition create (config : BrowserConfig) (options : option CreateSandboxOptions)
  : M Thread (BrowserSandbox * string) :=
  let runtime := requested_runtime config options in
  if negb (String.eqb runtime "python") then
    throw (ErrorObject "Error"
             ("Unsupported runtime " ++ dquote ++ runtime ++ dquote ++ ". Only "
                ++ dquote ++ "python" ++ dquote ++ " is supported."))
  else
    let* worker := spawnPythonWorker in
    let* sandboxId :=
      match options ≫= options_sandboxId with
      | Some s => ret s
      | None => let* u := randomUUID in ret ("browser-sb-" ++ u)
      end in
    let* h := callWorker worker (Init (pyodideIndexURL config)) in
    let* _ := await worker h (worker_messages env worker) in
    let sandbox := {| id := sandboxId; runtime := "python"; worker := worker |} in
    let* _ := on_main (modify (fun st => set_registry (<[sandboxId := sandbox]> (registry st)) st)) in
    ret (sandbox, sandboxId).

End WithPlatform.

Definition fresh_thread : Thread := {| main := start; rejected := ∅ |}.

(** A thread whose promises, settled either way, were all made. *)
Definition well_settled (t : Thread) : Prop :=
  handles_made (main t)
  /\ forall h e, rejected t !! h = Some e -> h < promises_made (main t).

(** The fault of the UUID [create] draws for the sandbox id, when it draws
    one. *)
Definition sandboxId_fault (platform : Platform) (options : option CreateSandboxOptions)
           (st : Main) : option fault :=
  match options ≫= options_sandboxId with
  | Some _ => None
  | None => randomUUID_throws platform (uuids_drawn st)
  end.

End ProviderPlatform.

Module FilesystemBytes.

Import Filesystem.

(** What [writeFileBytes] accepts: an [ArrayBuffer], or a view on one. *)
Inductive BufferSource :=
| ArrayBuffer (bytes : list Byte.byte)
| ArrayBufferView (buffer : list Byte.byte) (byteOffset byteLength : nat).

(** [new Uint8Array(data)] and
    [new Uint8Array(data.buffer, data.byteOffset, data.byteLength)]. *)
Definition to_Uint8Array (data : BufferSource) : list Byte.byte :=
  match data with
  | ArrayBuffer b => b
  | ArrayBufferView b off len => take len (drop off b)
  end.

Section WithService.

Variable service : OPFSService.

Definition readFileBytes (path : string) : M State (list Byte.byte) :=
  let* _ := getFS in
  let* res := invoke (ReadFile (normalizePath path) "binary")
                (fun h => readFile_ends service h (normalizePath path) "binary") in
  ret (match res with Binary b => b | Text _ => [] end).

Definition writeFileBytes (path : string) (data : BufferSource) : M State unit :=
  let* _ := getFS in
  let u8 := to_Uint8Array data in
  invoke (WriteFile (normalizePath path) (Binary u8))
    (fun h => writeFile_ends service h (normalizePath path) (Binary u8)).

(** The [filesystem] methods of the provider: the sandbox is not looked at. *)
Definition sandbox_readFile (_sb : Provider.BrowserSandbox) (path : string) : M State string :=
  readFile service path.

Definition sandbox_writeFile (_sb : Provider.BrowserSandbox) (path c : string) : M State unit :=
  writeFile service path c.

Definition sandbox_mkdir (_sb : Provider.BrowserSandbox) (path : string) : M State unit :=
  mkdir service path.

Definition sandbox_readdir (_sb : Provider.BrowserSandbox) (path : string) : M State (list FileEntry) :=
  readdir service path.

Definition sandbox_exists (_sb : Provider.BrowserSandbox) (path : string) : M State bool :=
  exists_ service path.

Definition sandbox_remove (_sb : Provider.BrowserSandbox) (path : string) : M State unit :=
  remove service path.


End WithService.


(** An event as [onChange] may receive it: a rename with both paths and
    nothing else, or one of the three other kinds with its path and nothing
    else; every path it carries is non-empty. *)
Definition canonical (e : ChangeEvent) : bool :=
  (String.eqb (event e) "rename"
     && truthy (event_from e) && truthy (event_to e)
     && negb (bool_decide (is_Some (event_path e))))
  || ((String.eqb (event e) "create" || String.eqb (event e) "modify"
         || String.eqb (event e) "remove")
        && truthy (event_path e)
        && negb (bool_decide (is_Some (event_from e)))
        && negb (bool_decide (is_Some (event_to e)))).

End FilesystemBytes.


(** ** The facade on the platform

    [Filesystem] takes [createWorker] to return. Here what the facade draws
    from the platform is spelled out: [createWorker] is the call into
    opfs-worker that it is and may throw; [Date] has its range and a clock
    that moves; the watcher listens on a [BroadcastChannel]. *)

Module FilesystemPlatform.

Import Filesystem.

(** [createWorker({ root, namespace })]: [throws] is the fault the call
    ends with, if it is made now and throws. *)
Definition createWorker (throws : option fault) (root namespace : string)
  : M State (string * string) :=
  match throws with
  | Some e => throw e
  | None => ret (root, namespace)
  end.

(** [getFS()]: [__fs] is assigned once [createWorker] has returned. *)
Definition getFS (createWorker_throws : option fault) : M State (string * string) :=
  let* st := get in
  match __fs st with
  | Some fs => ret fs
  | None =>
      let* fs := createWorker createWorker_throws ROOT NAMESPACE in
      let* _ := modify (fun st => {| __fs := Some fs; calls := calls st |}) in
      ret fs
  end.

(** [browserFs.exists]: [getFS()] runs before the [try]. *)
Definition exists_ (createWorker_throws : option fault) (service : OPFSService)
           (path : string) : M State bool :=
  let* _ := getFS createWorker_throws in
  try_catch
    (let* _ := invoke (Stat (normalizePath path))
                 (fun h => stat_ends service h (normalizePath path)) in
     ret true)
    (fun _ => ret false).

(** [new Date(t)] for a whole number of milliseconds: a date holds a time
    value within 8.64e15 ms of the epoch, and is an Invalid Date ([None])
    beyond. *)
Definition new_Date (t : Z) : option Z :=
  if (Z.abs t <=? 8640000000000000)%Z then Some t else None.

(** [FileEntry], its [lastModified] a [Date]. *)
Record FileEntry := {
  name : string;
  path : string;
  isDirectory : bool;
  size : Z;
  lastModified : option Z;
}.

(** [toFileEntry]: [now] is what [Date.now()] reads in this call. *)
Definition toFileEntry (now : Z) (d : DirRecord) : FileEntry :=
  {| name := default "" (rec_name d);
     path := default (normalizePath (default "" (rec_name d))) (rec_path d);
     isDirectory :=
       default (negb (default false (rec_isFile d))
                  && from_option (fun k => String.eqb k "directory") false (rec_kind d))
               (rec_isDirectory d);
     size := default 0%Z (rec_size d);
     lastModified := new_Date (default now (rec_mtime d)) |}.

(** [browserFs.readdir]: [items.map(toFileEntry)] converts the records in
    order, and [clock i] is what [Date.now()] reads while record [i] is
    converted. *)
Definition readdir (createWorker_throws : option fault) (service : OPFSService)
           (clock : nat -> Z) (path : string) : M State (list FileEntry) :=
  let* _ := getFS createWorker_throws in
  let* items := invoke (ReadDir (normalizePath path))
                  (fun h => readDir_ends service h (normalizePath path)) in
  ret (imap (fun i d => toFileEntry (clock i) d) items).

(** *** The watcher *)

(** The closure [handler] of one [watchFS] call, told apart by the channel
    it was made for; it remembers whether the caller gave a callback. *)
Record Handler := {
  closure : nat;
  onChange_given : bool;
}.

Definition Handler_eqb (a b : Handler) : bool :=
  Nat.eqb (closure a) (closure b) && Bool.eqb (onChange_given a) (onChange_given b).

(** A [BroadcastChannel] object of this page: its name, its listeners for
    'message' in the order they were added, and whether it was closed. *)
Record Channel := {
  channel_name : string;
  channel_listeners : list Handler;
  closed : bool;
}.

(** The page: the facade's state, the channels made so far in the order of
    creation, and the calls of [onChange] made so far, each with the channel
    whose listener made it. *)
Record Page := {
  fs : State;
  channels : list Channel;
  notified : list (nat * ChangeEvent);
}.

Definition fresh_page : Page := {| fs := unset; channels := []; notified := [] |}.

(** A facade computation, run on the page. *)
Definition on_fs {A} (m : M State A) : M Page A :=
  fun pg =>
    match m (fs pg) with
    | (s, o) => ({| fs := s; channels := channels pg; notified := notified pg |}, o)
    end.

Definition new_BroadcastChannel (name : string) : M Page nat :=
  fun pg =>
    ({| fs := fs pg;
        channels := channels pg
                    ++ [{| channel_name := name; channel_listeners := []; closed := false |}];
        notified := notified pg |},
     Returned (length (channels pg))).

Definition update_channel (bc : nat) (f : Channel -> Channel) : M Page unit :=
  modify (fun pg => {| fs := fs pg; channels := alter f bc (channels pg);
                       notified := notified pg |}).

(** [bc.addEventListener('message', h)]: a listener already there is not
    added again. *)
Definition addEventListener (bc : nat) (h : Handler) : M Page unit :=
  update_channel bc (fun c =>
    {| channel_name := channel_name c;
       channel_listeners :=
         if existsb (Handler_eqb h) (channel_listeners c) then channel_listeners c
         else channel_listeners c ++ [h];
       closed := closed c |}).

Definition removeEventListener (bc : nat) (h : Handler) : M Page unit :=
  update_channel bc (fun c =>
    {| channel_name := channel_name c;
       channel_listeners :=
         List.filter (fun h' => negb (Handler_eqb h' h)) (channel_listeners c);
       closed := closed c |}).

Definition close (bc : nat) : M Page unit :=
  update_channel bc (fun c =>
    {| channel_name := channel_name c; channel_listeners := channel_listeners c;
       closed := true |}).

(** The function [watchFS] returns: it holds on to [bc] and [handler]. *)
Record Unsubscribe := {
  bc : nat;
  registered : Handler;
}.

Definition watchFS (createWorker_throws : option fault) (service : OPFSService)
           (path : option string) (onChange : bool) : M Page Unsubscribe :=
  let* _ := on_fs (getFS createWorker_throws) in
  let p := normalizePath (default "/" path) in
  let* _ := on_fs (invoke (Watch p true) (fun h => watch_ends service h p true)) in
  let* bc := new_BroadcastChannel NAMESPACE in
  let handler := {| closure := bc; onChange_given := onChange |} in
  let* _ := addEventListener bc handler in
  ret {| bc := bc; registered := handler |}.

(** [() => { bc.removeEventListener('message', handler); bc.close(); }]. *)
Definition unsubscribe (u : Unsubscribe) : M Page unit :=
  let* _ := removeEventListener (bc u) (registered u) in
  close (bc u).

(** A message event for the channels named [name], posted from another
    context: every open channel of that name on this page runs its
    listeners, and each listener is the watcher's [handler]. Channel [i] is
    the first of [cs]. *)
Definition passed_on (c : Channel) (name : string) (data : option WatchMsg)
  : list ChangeEvent :=
  if String.eqb (channel_name c) name && negb (closed c)
  then flat_map (fun h => handler (onChange_given h) data) (channel_listeners c)
  else [].

Fixpoint heard_from (i : nat) (cs : list Channel) (name : string) (data : option WatchMsg)
  : list (nat * ChangeEvent) :=
  match cs with
  | [] => []
  | c :: cs' => map (pair i) (passed_on c name data) ++ heard_from (S i) cs' name data
  end.

Definition message (name : string) (data : option WatchMsg) (pg : Page) : Page :=
  {| fs := fs pg; channels := channels pg;
     notified := notified pg ++ heard_from 0 (channels pg) name data |}.

(** What happens on the page, one step at a time. *)
Inductive Action :=
| Message (name : string) (data : option WatchMsg)
| CallWatchFS (createWorker_throws : option fault) (path : option string) (onChange : bool)
| CallUnsubscribe (u : Unsubscribe).

Definition step (service : OPFSService) (a : Action) (pg : Page) : Page :=
  match a with
  | Message name data => message name data pg
  | CallWatchFS boot path onChange => fst (watchFS boot service path onChange pg)
  | CallUnsubscribe u => fst (unsubscribe u pg)
  end.

Definition run (service : OPFSService) (actions : list Action) (pg : Page) : Page :=
  fold_left (fun s a => step service a s) actions pg.

(** The events the listener of channel [i] has passed to its callback. *)
Definition notifications_of (i : nat) (log : list (nat * ChangeEvent)) : list ChangeEvent :=
  omap (fun n => if Nat.eqb (fst n) i then Some (snd n) else None) log.

(** The messages among [actions] for the channels named [name]. *)
Definition broadcasts (name : string) (actions : list Action) : list (option WatchMsg) :=
  omap (fun a => match a with
                 | Message n d => if String.eqb n name then Some d else None
                 | _ => None
                 end) actions.

(** No call among [actions] of the function returned for channel [i]. *)
Definition keeps_subscribed (i : nat) (actions : list Action) : Prop :=
  forall u, In (CallUnsubscribe u) actions -> bc u <> i.

End FilesystemPlatform.


(** ** Sample environments and inputs *)

Module Samples.

Import PythonWorker.

(** Everything loads, and the interpreter prints what the probe prints. *)
Definition online : Env := {|
  importScripts_throws := fun _ _ => None;
  loadPyodide_settles := fun p => Returned {| instance := load_no p |};
  runPythonAsync_settles := fun _ _ _ => Returned (0%Z, "pyodide ready", "");
|}.

(** No script can be fetched. *)
Definition offline : Env := {|
  importScripts_throws := fun _ _ => Some (ErrorObject "NetworkError" "Failed to load script");
  loadPyodide_settles := fun p => Returned {| instance := load_no p |};
  runPythonAsync_settles := fun _ _ _ => Returned (0%Z, "", "");
|}.

(** The runtime rejects its load with an [Error] that has no message. *)
Definition broken_runtime : Env := {|
  importScripts_throws := fun _ _ => None;
  loadPyodide_settles := fun _ => Threw (ErrorObject "Error" "");
  runPythonAsync_settles := fun _ _ _ => Returned (0%Z, "", "");
|}.


(** The submitted code loops for ever. *)
Definition busy : Env := {|
  importScripts_throws := fun _ _ => None;
  loadPyodide_settles := fun p => Returned {| instance := load_no p |};
  runPythonAsync_settles := fun _ _ _ => Suspended;
|}.

Definition init_msg (id : string) (url : option string) : Msg :=
  {| msg_id := VString id; type := VString "init"; indexURL := url; code := None |}.

Definition run_msg (id : string) (source : string) : Msg :=
  {| msg_id := VString id; type := VString "runCode"; indexURL := None;
     code := Some source |}.

End Samples.

Module ProviderSamples.

Import Provider.

(** A registry with one sandbox whose worker refuses to terminate. *)
Definition stubborn : Env := {|
  randomUUID_value := fun n => pretty n;
  terminate_throws := fun _ => Some (ErrorObject "InvalidStateError" "worker is gone");
  worker_messages := fun _ => [];
|}.

Definition one_sandbox : Main :=
  set_registry {[ "sb-1" := {| id := "sb-1"; runtime := "python"; worker := 0 |} ]} start.

(** Two calls outstanding on one worker, answered in the reverse order, with
    a stray message in between. *)
Definition two_calls : Main :=
  run stubborn [Call 0 (Init None); Call 0 (RunCode "1+1")] start.

Definition answer (id : string) (out : string) : option PythonWorker.Reply :=
  Some {| PythonWorker.id := VString id;
          PythonWorker.body :=
            {| PythonWorker.ok := true; PythonWorker.stdout := Some out;
               PythonWorker.stderr := Some ""; PythonWorker.exitCode := Some 0%Z;
               PythonWorker.error := None |} |}.

End ProviderSamples.

Module FilesystemSamples.

Import Filesystem.

(** A service that holds the root directory and nothing else. *)
Definition empty_disk : OPFSService := {|
  readFile_ends := fun _ _ _ => Threw (ErrorObject "NotFoundError" "no such file");
  writeFile_ends := fun _ _ _ => Returned tt;
  mkdir_ends := fun _ _ _ => Returned tt;
  readDir_ends := fun _ _ => Returned [];
  stat_ends := fun _ p =>
    if String.eqb p "/" then Returned tt
    else Threw (ErrorObject "NotFoundError" "no such file");
  remove_ends := fun _ _ _ => Returned tt;
  watch_ends := fun _ _ _ => Returned tt;
  TextDecoder_decode := fun _ => "";
  Date_now := 0%Z;
|}.

End FilesystemSamples.


Module MoreSamples.

Import Filesystem.

(** A service that remembers the last data written at a path. *)
Definition last_write (p : string) (h : list Call) : option FileData :=
  fold_left (fun acc c =>
               match c with
               | WriteFile q d => if String.eqb q p then Some d else acc
               | Remove q _ => if String.eqb q p then None else acc
               | _ => acc
               end) h None.

Definition memory_disk : OPFSService := {|
  readFile_ends := fun h p _ =>
    match last_write p h with
    | Some d => Returned d
    | None => Threw (ErrorObject "NotFoundError" "no such file")
    end;
  writeFile_ends := fun _ _ _ => Returned tt;
  mkdir_ends := fun _ _ _ => Returned tt;
  readDir_ends := fun _ _ => Returned [];
  stat_ends := fun h p =>
    match last_write p h with
    | Some _ => Returned tt
    | None => Threw (ErrorObject "NotFoundError" "no such file")
    end;
  remove_ends := fun _ _ _ => Returned tt;
  watch_ends := fun _ _ _ => Returned tt;
  TextDecoder_decode := fun _ => "";
  Date_now := 0%Z;
|}.

(** A service whose every directory lists a file, a directory known by its
    kind alone, and a record that has nothing but a time, one beyond the
    range of dates. *)
Definition listing_disk : OPFSService := {|
  readFile_ends := fun _ _ _ => Threw (ErrorObject "NotFoundError" "no such file");
  writeFile_ends := fun _ _ _ => Returned tt;
  mkdir_ends := fun _ _ _ => Returned tt;
  readDir_ends := fun _ _ =>
    Returned [{| rec_name := Some "a.txt"; rec_path := Some "/a.txt";
                 rec_isFile := Some true; rec_isDirectory := Some false;
                 rec_kind := None; rec_size := Some 5%Z; rec_mtime := Some 1000%Z |};
              {| rec_name := Some "src"; rec_path := None;
                 rec_isFile := None; rec_isDirectory := None;
                 rec_kind := Some "directory"; rec_size := None; rec_mtime := None |};
              {| rec_name := None; rec_path := None;
                 rec_isFile := None; rec_isDirectory := None;
                 rec_kind := None; rec_size := None;
                 rec_mtime := Some 10000000000000000%Z |}];
  stat_ends := fun _ _ => Returned tt;
  remove_ends := fun _ _ _ => Returned tt;
  watch_ends := fun _ _ _ => Returned tt;
  TextDecoder_decode := fun _ => "";
  Date_now := 0%Z;
|}.

(** A create record, and a rename record that lacks its target. *)
Definition created (p : string) : option WatchMsg :=
  Some {| msg_type := Some "create"; msg_path := Some p;
          msg_from := None; msg_to := None |}.

Definition half_rename (p : string) : option WatchMsg :=
  Some {| msg_type := Some "rename"; msg_path := None;
          msg_from := Some p; msg_to := None |}.

(** A page whose policy lets no worker start, and a platform that cannot
    post a message. *)
Definition no_workers : ProviderPlatform.Platform := {|
  ProviderPlatform.new_Worker_throws := fun _ =>
    Some (ErrorObject "SecurityError" "worker script blocked");
  ProviderPlatform.randomUUID_throws := fun _ => None;
  ProviderPlatform.postMessage_throws := fun _ _ => None;
|}.

Definition no_posting : ProviderPlatform.Platform := {|
  ProviderPlatform.new_Worker_throws := fun _ => None;
  ProviderPlatform.randomUUID_throws := fun _ => None;
  ProviderPlatform.postMessage_throws := fun _ _ =>
    Some (ErrorObject "DataCloneError" "could not be cloned");
|}.

(** A main-thread environment whose worker 0 answers the first call with
    what the worker posts for it. *)
Definition linked (code : string) : Provider.Env := {|
  Provider.randomUUID_value := fun n => pretty n;
  Provider.terminate_throws := fun _ => None;
  Provider.worker_messages := fun _ =>
    map Some (PythonWorker.replies Samples.online
                (Some (Provider.outbound (pretty 0) (Provider.RunCode code)))
                PythonWorker.initial);
|}.

(** A main-thread environment whose workers answer init with a failed
    probe. *)
Definition failing_probe : Provider.Env := {|
  Provider.randomUUID_value := fun n => pretty n;
  Provider.terminate_throws := fun _ => None;
  Provider.worker_messages := fun _ =>
    [Some (PythonWorker.fault_reply (VString (pretty 1))
             (ErrorObject "NetworkError" "Failed to load script"))];
|}.

End MoreSamples.


(** * Properties *)

(** Splits the conjunctions of the goal, and nothing else. *)
Ltac split_ands :=
  repeat match goal with |- _ /\ _ => split end.

(** Case analysis on the innermost scrutinee of the goal. *)
Ltac case_scrutinee :=
  match goal with
  | |- context [match ?x with _ => _ end] =>
      lazymatch x with
      | context [match _ with _ => _ end] => fail
      | _ => destruct x eqn:?
      end
  end.

(** ** Result normalisation *)

Section Normalisation.

Import Provider.

(** C9: the two provider variants normalise a worker response to the same
    exit code, stdout and stderr: the exit code is the response's when it is
    a number, else 0 when [ok] and 1 otherwise; stdout defaults to the empty
    string; stderr is the response's, else empty when [ok], else the error
    string, else empty. *)
Theorem makeExecutionResult_agrees_with_toExecutionResult :
  forall (sandboxId : string) (response : PythonWorker.ExecResult),
    let a := makeExecutionResult sandboxId response in
    let b := ProviderVariant.toExecutionResult response in
    exitCode a = exitCode b
    /\ stdout a = stdout b
    /\ stderr a = stderr b
    /\ exitCode b =
         match PythonWorker.exitCode response with
         | Some n => n
         | None => if PythonWorker.ok response then 0%Z else 1%Z
         end
    /\ stdout b =
         match PythonWorker.stdout response with Some s => s | None => "" end
    /\ stderr b =
         match PythonWorker.stderr response, PythonWorker.ok response,
               PythonWorker.error response with
         | Some s, _, _ => s
         | None, true, _ => ""
         | None, false, Some e => e
         | None, false, None => ""
         end.
Proof.
  intros sandboxId [ok out err code e]; cbn.
  repeat split; destruct out, err, ok, e; reflexivity.
Qed.

End Normalisation.


(** ** The filesystem facade *)

Section FilesystemFacts.

Import Filesystem FilesystemSamples.

Example normalizePath_relative : normalizePath "foo.txt" = "/foo.txt".
Proof. reflexivity. Qed.

Example normalizePath_absolute : normalizePath "/foo.txt" = "/foo.txt".
Proof. reflexivity. Qed.

Example normalizePath_empty : normalizePath "" = "/".
Proof. reflexivity. Qed.

Example exists_root_on_empty_disk :
  exists_ empty_disk "" unset
  = ({| __fs := Some (ROOT, NAMESPACE); calls := [Stat "/"] |}, Returned true).
Proof. reflexivity. Qed.

Lemma startsWith_slash_cons (s : string) : startsWith ("/" ++ s) "/" = true.
Proof. reflexivity. Qed.

Lemma normalizePath_unfold (p : string) :
  normalizePath p = if negb (String.eqb p "") && startsWith p "/" then p else "/" ++ p.
Proof.
  unfold normalizePath.
  destruct p as [|c p']; [reflexivity|].
  cbn [String.eqb negb andb]. reflexivity.
Qed.

Lemma normalizePath_startsWith (p : string) : startsWith (normalizePath p) "/" = true.
Proof.
  rewrite normalizePath_unfold.
  destruct (negb (String.eqb p "") && startsWith p "/") eqn:E.
  - apply andb_prop in E. tauto.
  - apply startsWith_slash_cons.
Qed.

Lemma normalizePath_fixed (p : string) :
  startsWith p "/" = true -> normalizePath p = p.
Proof.
  intros H. rewrite normalizePath_unfold.
  destruct p as [|c p']; [discriminate H|].
  cbn [String.eqb negb andb]. now rewrite H.
Qed.

Lemma perform_calls (service : OPFSService) (op : Operation) (p : string) (st : State) :
  exists c, calls (perform service op p st) = (calls st ++ [c])%list
            /\ addressed c = normalizePath p.
Proof.
  destruct op; cbn;
    unfold readFile, writeFile, mkdir, readdir, exists_, remove, getFS, invoke,
      JS.try_catch, JS.bind, JS.modify, JS.ret; cbn;
    [ exists (ReadFile (normalizePath p) "utf8")
    | exists (WriteFile (normalizePath p) (Text content))
    | exists (Mkdir (normalizePath p) true)
    | exists (ReadDir (normalizePath p))
    | exists (Stat (normalizePath p))
    | exists (Remove (normalizePath p) true) ];
    destruct (__fs st); cbn; try case_scrutinee; cbn; auto.
Qed.

(** C6: every filesystem operation addresses the service at the normalised
    path, which is [p] itself when [p] is non-empty and starts with a slash
    and the slash followed by [p] otherwise; the normalised path begins with a
    slash, normalisation is idempotent, and [readFile] of foo.txt and of
    /foo.txt are the same call. *)
Theorem filesystem_paths_are_normalized :
  forall (service : OPFSService) (op : Operation) (p : string) (st : State),
    (exists c, calls (perform service op p st) = (calls st ++ [c])%list
               /\ addressed c = normalizePath p)
    /\ normalizePath p =
         (if negb (String.eqb p "") && startsWith p "/" then p else "/" ++ p)
    /\ startsWith (normalizePath p) "/" = true
    /\ normalizePath (normalizePath p) = normalizePath p
    /\ readFile service "foo.txt" st = readFile service "/foo.txt" st.
Proof.
  intros service op p st.
  split; [apply perform_calls|].
  split; [apply normalizePath_unfold|].
  split; [apply normalizePath_startsWith|].
  split; [apply normalizePath_fixed, normalizePath_startsWith|].
  reflexivity.
Qed.

(** C7 as worded does not hold: [getFS()] stands before the [try], so a
    [createWorker] that throws when the service handle is first made (no
    Worker on this platform, say) makes [exists] throw, with no lookup
    made. *)
Lemma exists_throws_without_service :
  let no_worker := ErrorObject "ReferenceError" "Worker is not defined" in
  FilesystemPlatform.exists_ (Some no_worker) empty_disk "a.txt" unset
  = (unset, Threw no_worker).
Proof. reflexivity. Qed.

(** C7, amended: with the service handle there, or made on this call,
    [exists] returns true exactly when the service's [stat] on the
    normalised path completes without fault, false exactly when that lookup
    faults, waits as long as the lookup does, and does not throw; it makes
    the one [stat] call, as [Filesystem.exists_] does. The one fault
    [exists] throws is the one [createWorker] throws when the handle has
    yet to be made: no lookup is made then and the state is as it was. *)
Theorem exists_reports_stat :
  forall (createWorker_throws : option fault) (service : OPFSService)
         (p : string) (st : State),
    let lookup := stat_ends service (calls st) (normalizePath p) in
    let result := FilesystemPlatform.exists_ createWorker_throws service p st in
    ((__fs st <> None \/ createWorker_throws = None) ->
     (snd result = Returned true <-> exists u, lookup = Returned u)
     /\ (snd result = Returned false <-> exists e, lookup = Threw e)
     /\ (snd result = Suspended <-> lookup = Suspended)
     /\ (forall e, snd result <> Threw e)
     /\ calls (fst result) = (calls st ++ [Stat (normalizePath p)])%list
     /\ result = exists_ service p st)
    /\ (forall e,
          __fs st = None -> createWorker_throws = Some e -> result = (st, Threw e))
    /\ (forall e,
          snd result = Threw e -> __fs st = None /\ createWorker_throws = Some e).
Proof.
  intros boot service p [[h|] cs]; cbv zeta;
    unfold FilesystemPlatform.exists_, FilesystemPlatform.getFS,
      FilesystemPlatform.createWorker, exists_, getFS, invoke,
      JS.try_catch, JS.bind, JS.modify, JS.get, JS.ret, JS.throw;
    cbn [__fs calls fst snd].
  - split_ands.
    + intros _.
      destruct (stat_ends service cs (normalizePath p)) as [u|e|] eqn:E;
        cbn; split_ands; try (split; intros H); try congruence; eauto;
        try (destruct H as [x H]; congruence); try (intros e'; congruence).
    + intros e H. discriminate H.
    + intros e.
      destruct (stat_ends service cs (normalizePath p)) as [u|e'|]; cbn; congruence.
  - destruct boot as [e0|]; cbn.
    + split_ands.
      * intros [H|H]; congruence.
      * intros e _ [= ->]. reflexivity.
      * intros e [= ->]. auto.
    + split_ands.
      * intros _.
        destruct (stat_ends service cs (normalizePath p)) as [u|e|] eqn:E;
          cbn; split_ands; try (split; intros H); try congruence; eauto;
          try (destruct H as [x H]; congruence); try (intros e'; congruence).
      * intros e _ H. discriminate H.
      * intros e.
        destruct (stat_ends service cs (normalizePath p)) as [u|e'|]; cbn; congruence.
Qed.

Lemma exists_reports_stat_witness :
  snd (FilesystemPlatform.exists_ None empty_disk "a.txt" unset) = Returned false.
Proof.
  apply (proj1 (proj2 (proj1 (exists_reports_stat None empty_disk "a.txt" unset)
                         (or_intror eq_refl)))).
  exists (ErrorObject "NotFoundError" "no such file"). reflexivity.
Defined.

Example handler_forwards_rename :
  handler true (Some {| msg_type := Some "rename"; msg_path := None;
                        msg_from := Some "/a"; msg_to := Some "/b" |})
  = [{| event := "rename"; event_path := None;
        event_from := Some "/a"; event_to := Some "/b" |}].
Proof. reflexivity. Qed.

Example handler_drops_rename_without_target :
  handler true (Some {| msg_type := Some "rename"; msg_path := Some "/a";
                        msg_from := Some "/a"; msg_to := None |}) = [].
Proof. reflexivity. Qed.

(** C8 as worded does not hold: a create record whose path is the empty
    string carries a path, and the handler drops it. *)
Lemma handler_drops_empty_path :
  let m := {| msg_type := Some "create"; msg_path := Some "";
              msg_from := None; msg_to := None |} in
  carries_paths m = true /\ handler true (Some m) = [].
Proof. split; reflexivity. Qed.

(** C8, amended: the handler calls the callback exactly when the record is a
    rename with non-empty from and to paths, or a create, modify or remove
    with a non-empty path, and forwards the kind and the paths unchanged;
    every other record, absent data included, is dropped without a call. *)
Theorem handler_forwards_well_formed :
  forall (data : option WatchMsg),
    handler true data =
      match data with
      | Some m => if well_formed m then [forwarded m] else []
      | None => []
      end
    /\ handler false data = [].
Proof.
  intros [m|]; [|split; reflexivity].
  split; [|reflexivity].
  destruct m as [[t|] p f o]; [|reflexivity].
  unfold handler, well_formed, forwarded; cbn.
  destruct (String.eqb_spec t "rename") as [->|Hr]; cbn.
  { destruct (truthy f), (truthy o); reflexivity. }
  destruct (String.eqb_spec t "create") as [->|Hc]; cbn.
  { destruct (truthy p); reflexivity. }
  destruct (String.eqb_spec t "modify") as [->|Hm]; cbn.
  { destruct (truthy p); reflexivity. }
  destruct (String.eqb_spec t "remove") as [->|Hv]; cbn; [|reflexivity].
  destruct (truthy p); reflexivity.
Qed.

End FilesystemFacts.


(** ** Registry and lifecycle *)

Section Lifecycle.

Import Provider ProviderSamples.

Lemma registry_set_registry (r : gmap string BrowserSandbox) (st : Main) :
  registry (set_registry r st) = r.
Proof. reflexivity. Qed.

Lemma set_registry_same (st : Main) : set_registry (registry st) st = st.
Proof. now destruct st. Qed.

Lemma registry_terminate (env : Env) (w : nat) (st : Main) :
  registry (fst (terminate env w st)) = registry st.
Proof.
  unfold terminate. now destruct (terminate_throws env w).
Qed.

Lemma terminate_not_suspended (env : Env) (w : nat) (st : Main) :
  snd (terminate env w st) <> Suspended.
Proof.
  unfold terminate. now destruct (terminate_throws env w).
Qed.

Lemma destroy_registry (env : Env) (sandboxId : string) (st : Main) :
  registry (fst (destroy env sandboxId st)) = delete sandboxId (registry st).
Proof.
  unfold destroy, JS.bind, JS.get, JS.try_finally, JS.modify, JS.ret.
  destruct (registry st !! sandboxId) as [sb|] eqn:E.
  - pose proof (registry_terminate env (worker sb) st) as Hr.
    pose proof (terminate_not_suspended env (worker sb) st) as Hs.
    destruct (terminate env (worker sb) st) as [st1 [u|e|]]; cbn in *;
      [now rewrite Hr | now rewrite Hr | contradiction].
  - cbn. symmetry. now apply delete_id.
Qed.

(** C4: after [destroy], the registry has no entry for the identifier,
    also when terminating the worker throws (the fault is passed on, the
    entry is gone all the same); for an identifier that is not registered,
    [destroy] changes nothing and does not fail. *)
Theorem destroy_removes_entry :
  forall (env : Env) (sandboxId : string) (st : Main),
    registry (fst (destroy env sandboxId st)) !! sandboxId = None
    /\ (forall sb e,
          registry st !! sandboxId = Some sb ->
          terminate_throws env (worker sb) = Some e ->
          destroy env sandboxId st
            = (set_registry (delete sandboxId (registry st)) st, Threw e))
    /\ (registry st !! sandboxId = None ->
          destroy env sandboxId st = (st, Returned tt)).
Proof.
  intros env sandboxId st. split; [|split].
  - rewrite destroy_registry. apply lookup_delete_eq.
  - intros sb e Hsb He.
    unfold destroy, JS.bind, JS.get, JS.try_finally, JS.modify, terminate, JS.throw.
    now rewrite Hsb, He.
  - intros Hnone. unfold destroy, JS.bind, JS.get, JS.ret. now rewrite Hnone.
Qed.

Lemma destroy_removes_entry_witness :
  registry (fst (destroy stubborn "sb-1" one_sandbox)) !! "sb-1" = None
  /\ snd (destroy stubborn "sb-1" one_sandbox)
       = Threw (ErrorObject "InvalidStateError" "worker is gone")
  /\ destroy stubborn "sb-2" one_sandbox = (one_sandbox, Returned tt).
Proof.
  destruct (destroy_removes_entry stubborn "sb-1" one_sandbox) as [H1 [H2 _]].
  destruct (destroy_removes_entry stubborn "sb-2" one_sandbox) as [_ [_ H3]].
  split; [exact H1|]. split.
  - rewrite (H2 {| id := "sb-1"; runtime := "python"; worker := 0 |}
               (ErrorObject "InvalidStateError" "worker is gone"));
      reflexivity.
  - apply H3. reflexivity.
Defined.

(** C5: [create] throws for every requested runtime other than python (the
    runtime of the options when present, else that of the config, else
    python) and leaves the main thread as it was: no worker spawned, the
    registry untouched; [runCommand] returns, for every sandbox and command,
    a result with exit code 127, empty stdout and non-empty stderr. *)
Theorem unsupported_capabilities_fail_cleanly :
  forall (env : Env) (config : BrowserConfig) (options : option CreateSandboxOptions)
         (sandbox : BrowserSandbox) (command : string) (st : Main),
    (requested_runtime config options <> "python" ->
       (exists e, create env config options st = (st, Threw e))
       /\ (exists e, ProviderVariant.create env config options st = (st, Threw e)))
    /\ requested_runtime config options =
         match options with
         | Some {| options_runtime := Some r |} => r
         | _ => match config_runtime config with Some r => r | None => "python" end
         end
    /\ (exists r, runCommand sandbox command st = (st, Returned r)
                  /\ exitCode r = 127%Z /\ stdout r = "" /\ stderr r <> "")
    /\ (exists r, ProviderVariant.runCommand sandbox command st = (st, Returned r)
                  /\ exitCode r = 127%Z /\ stdout r = "" /\ stderr r <> "").
Proof.
  intros env config options sandbox command st.
  split; [|split; [|split]].
  - intros Hne. apply String.eqb_neq in Hne.
    unfold create, ProviderVariant.create. rewrite Hne. cbn.
    split; eexists; reflexivity.
  - unfold requested_runtime.
    destruct options as [[[r|] sid]|]; reflexivity.
  - eexists. split; [reflexivity|]. cbn. repeat split. discriminate.
  - eexists. split; [reflexivity|]. cbn. repeat split. discriminate.
Qed.

Lemma unsupported_capabilities_fail_cleanly_witness :
  (exists e, create stubborn {| config_runtime := Some "node"; pyodideIndexURL := None |}
               None one_sandbox = (one_sandbox, Threw e))
  /\ (exists e, ProviderVariant.create stubborn
                  {| config_runtime := Some "node"; pyodideIndexURL := None |}
                  None one_sandbox = (one_sandbox, Threw e)).
Proof.
  apply (unsupported_capabilities_fail_cleanly stubborn
           {| config_runtime := Some "node"; pyodideIndexURL := None |} None
           {| id := "sb-1"; runtime := "python"; worker := 0 |} "ls" one_sandbox).
  discriminate.
Defined.

End Lifecycle.


(** ** The worker *)

Section WorkerFacts.

Import PythonWorker.

Variable env : Env.

Ltac worker_unfold :=
  unfold execWithCapture, runPythonAsync, loadPyodide, importScripts, postMessage,
    emit, set_pyPromise, set_PYODIDE_INDEX_URL,
    JS.try_catch, JS.bind, JS.ret, JS.throw, JS.get, JS.modify, JS.settle in *.

Lemma loads_app (l k : list Event) : loads (l ++ k) = loads l + loads k.
Proof. unfold loads. now rewrite List.filter_app, length_app. Qed.

Lemma imports_app (l k : list Event) : imports (l ++ k) = imports l + imports k.
Proof. unfold imports. now rewrite List.filter_app, length_app. Qed.

Lemma posted_app (l k : list Event) : posted (l ++ k) = (posted l ++ posted k)%list.
Proof. apply omap_app. Qed.

(** Memoisation: with a promise stored, [ensurePyodide] is a lookup. *)
Lemma ensurePyodide_stored (a : option string) (st : State) (p : LoadPromise) :
  pyPromise st = Some p -> ensurePyodide env a st = (st, Returned p).
Proof.
  intros H. unfold ensurePyodide, JS.bind, JS.get, JS.ret. now rewrite H.
Qed.

(** What one call of [ensurePyodide] does when no promise is stored yet. *)
Lemma ensurePyodide_first (a : option string) (st : State) :
  pyPromise st = None ->
  let url := chosen_indexURL a (PYODIDE_INDEX_URL st) in
  let p := {| load_no := loads (trace st); load_indexURL := url |} in
  let primary := ImportScripts (url ++ "pyodide.js") in
  let fallback := ImportScripts (url ++ "full/pyodide.js") in
  ensurePyodide env a st =
    match importScripts_throws env (trace st) (url ++ "pyodide.js") with
    | None =>
        ({| pyPromise := Some p; PYODIDE_INDEX_URL := url;
            trace := trace st ++ [primary; LoadPyodide url] |}, Returned p)
    | Some _ =>
        match importScripts_throws env (trace st ++ [primary]) (url ++ "full/pyodide.js") with
        | None =>
            ({| pyPromise := Some p; PYODIDE_INDEX_URL := url;
                trace := trace st ++ [primary; fallback; LoadPyodide url] |}, Returned p)
        | Some e =>
            ({| pyPromise := None; PYODIDE_INDEX_URL := url;
                trace := trace st ++ [primary; fallback] |}, Threw e)
        end
    end.
Proof.
  intros H url p primary fallback. subst url p primary fallback.
  unfold ensurePyodide, chosen_indexURL.
  worker_unfold. rewrite H.
  destruct a as [u|]; cbn.
  - destruct (String.eqb u ""); cbn.
    + repeat (case_scrutinee; cbn); rewrite <- ?app_assoc; cbn;
        rewrite ?loads_app; cbn; rewrite ?Nat.add_0_r; congruence.
    + repeat (case_scrutinee; cbn); rewrite <- ?app_assoc; cbn;
        rewrite ?loads_app; cbn; rewrite ?Nat.add_0_r; congruence.
  - repeat (case_scrutinee; cbn); rewrite <- ?app_assoc; cbn;
      rewrite ?loads_app; cbn; rewrite ?Nat.add_0_r; congruence.
Qed.

(** [ensurePyodide] only adds to the trace, posts nothing, never waits, and
    stores the promise it returns. *)
Lemma ensurePyodide_effects (a : option string) (st : State) :
  exists evs,
    trace (fst (ensurePyodide env a st)) = (trace st ++ evs)%list
    /\ posted evs = []
    /\ snd (ensurePyodide env a st) <> Suspended
    /\ (forall p, snd (ensurePyodide env a st) = Returned p ->
                  pyPromise (fst (ensurePyodide env a st)) = Some p).
Proof.
  destruct (pyPromise st) as [p|] eqn:Hp.
  - rewrite (ensurePyodide_stored a st p Hp); cbn.
    exists []. rewrite app_nil_r. repeat split; congruence.
  - rewrite (ensurePyodide_first a st Hp).
    destruct (importScripts_throws env (trace st) _);
      [destruct (importScripts_throws env (trace st ++ _) _)|];
      cbn; eexists; repeat split; try congruence; reflexivity.
Qed.

Lemma ensurePyodide_consistent (a : option string) (st : State) :
  consistent st -> consistent (fst (ensurePyodide env a st)).
Proof.
  unfold consistent. intros H.
  destruct (pyPromise st) as [p|] eqn:Hp.
  - rewrite (ensurePyodide_stored a st p Hp); cbn. now rewrite Hp.
  - rewrite (ensurePyodide_first a st Hp).
    destruct (importScripts_throws env (trace st) _);
      [destruct (importScripts_throws env (trace st ++ _) _)|];
      cbn; rewrite loads_app, H; reflexivity.
Qed.

(** The replies of the dispatcher, case by case. *)
Lemma onmessage_cases (data : option Msg) (st : State) :
  exists evs,
    trace (fst (onmessage env data st)) = (trace st ++ evs)%list
    /\ posted evs =
      match data with
      | None => [fault_reply (VString "") null_dereference]
      | Some m =>
          if needs_runtime m then
            match ensurePyodide env (ensure_argument m) st with
            | (st1, Returned p) =>
                match loadPyodide_settles env p with
                | Returned py =>
                    match captured (runPythonAsync_settles env (trace st1) py (source_of m)) with
                    | Some b => [{| id := reply_id data; body := b |}]
                    | None => []
                    end
                | Threw e => [fault_reply (reply_id data) e]
                | Suspended => []
                end
            | (_, Threw e) => [fault_reply (reply_id data) e]
            | (_, Suspended) => []
            end
          else [unknown_reply (reply_id data) (type m)]
      end.
Proof.
  destruct data as [m|].
  - unfold onmessage, needs_runtime, ensure_argument, source_of.
    destruct (strict_eq (type m) (VString "init")) eqn:Hi;
      [|destruct (strict_eq (type m) (VString "runCode")) eqn:Hr].
    1,2: match goal with
         | |- context [ensurePyodide _ ?a ?s] =>
             destruct (ensurePyodide_effects a s) as (evs & Ht & Hp & Hs & _);
             unfold JS.try_catch, JS.bind; cbv beta;
             destruct (ensurePyodide env a s) as [st1 [p|e|]]
         end.
    all: cbn [orb fst snd from_option] in *.
    all: worker_unfold; cbn.
    1,4: destruct (loadPyodide_settles env p) as [py|e|]; cbn;
         [ match goal with
           | |- context [runPythonAsync_settles _ ?t ?y ?c] =>
               destruct (runPythonAsync_settles env t y c) as [[[c' o'] e']|e'|]
           end | | ]; cbn.
    all: try contradiction.
    all: eexists; rewrite ?Ht, <- ?app_assoc; (split; [reflexivity|]);
         rewrite ?posted_app, ?Hp; reflexivity.
  - cbn. eexists. split; reflexivity.
Qed.

Lemma replies_cases (data : option Msg) (st : State) :
  replies env data st =
    match data with
    | None => [fault_reply (VString "") null_dereference]
    | Some m =>
        if needs_runtime m then
          match ensurePyodide env (ensure_argument m) st with
          | (st1, Returned p) =>
              match loadPyodide_settles env p with
              | Returned py =>
                  match captured (runPythonAsync_settles env (trace st1) py (source_of m)) with
                  | Some b => [{| id := reply_id data; body := b |}]
                  | None => []
                  end
              | Threw e => [fault_reply (reply_id data) e]
              | Suspended => []
              end
          | (_, Threw e) => [fault_reply (reply_id data) e]
          | (_, Suspended) => []
          end
        else [unknown_reply (reply_id data) (type m)]
    end.
Proof.
  destruct (onmessage_cases data st) as (evs & Ht & Hp).
  unfold replies, emitted. rewrite Ht, drop_app_length. exact Hp.
Qed.

(** The dispatcher returns unless it waits for ever; no fault escapes it. *)
Lemma onmessage_outcome (data : option Msg) (st : State) :
  snd (onmessage env data st) = if pending env data st then Suspended else Returned tt.
Proof.
  destruct data as [m|]; [|reflexivity].
  unfold onmessage, pending, needs_runtime, ensure_argument, source_of.
  destruct (strict_eq (type m) (VString "init")) eqn:Hi;
    [|destruct (strict_eq (type m) (VString "runCode")) eqn:Hr].
  1,2: match goal with
       | |- context [ensurePyodide _ ?a ?s] =>
           destruct (ensurePyodide_effects a s) as (evs & Ht & Hp & Hs & _);
           unfold JS.try_catch, JS.bind; cbv beta;
           destruct (ensurePyodide env a s) as [st1 [p|e|]]
       end.
  all: cbn [orb fst snd from_option] in *.
  all: worker_unfold; cbn.
  1,4: destruct (loadPyodide_settles env p) as [py|e|]; cbn;
       [ match goal with
         | |- context [runPythonAsync_settles _ ?t ?y ?c] =>
             destruct (runPythonAsync_settles env t y c) as [[[c' o'] e']|e'|]
         end | | ]; cbn.
  all: try contradiction; reflexivity.
Qed.

(** Only [ensurePyodide] writes the module variables, imports and loads. *)
Lemma onmessage_variables (data : option Msg) (st : State) :
  let st' := fst (onmessage env data st) in
  let st0 := after_ensure env data st in
  pyPromise st' = pyPromise st0
  /\ PYODIDE_INDEX_URL st' = PYODIDE_INDEX_URL st0
  /\ loads (trace st') = loads (trace st0)
  /\ imports (trace st') = imports (trace st0).
Proof.
  destruct data as [m|];
    [|cbn; repeat split; unfold loads, imports;
      rewrite ?List.filter_app, ?length_app; cbn; lia].
  unfold onmessage, after_ensure, needs_runtime, ensure_argument.
  destruct (strict_eq (type m) (VString "init")) eqn:Hi;
    [|destruct (strict_eq (type m) (VString "runCode")) eqn:Hr].
  1,2: match goal with
       | |- context [ensurePyodide _ ?a ?s] =>
           unfold JS.try_catch, JS.bind; cbv beta;
           destruct (ensurePyodide env a s) as [st1 [p|e|]]
       end.
  all: cbn [orb fst snd from_option] in *.
  all: worker_unfold; cbn.
  1,4: destruct (loadPyodide_settles env p) as [py|e|]; cbn;
       [ match goal with
         | |- context [runPythonAsync_settles _ ?t ?y ?c] =>
             destruct (runPythonAsync_settles env t y c) as [[[c' o'] e']|e'|]
         end | | ]; cbn.
  all: repeat split; try reflexivity;
       unfold loads, imports; rewrite ?List.filter_app, ?length_app; cbn; lia.
Qed.

Lemma handle_all_cons (data : option Msg) (inbox : list (option Msg)) (st : State) :
  handle_all env (data :: inbox) st = handle_all env inbox (fst (onmessage env data st)).
Proof. reflexivity. Qed.

Lemma after_ensure_consistent (data : option Msg) (st : State) :
  consistent st -> consistent (after_ensure env data st).
Proof.
  intros H. unfold after_ensure.
  destruct data as [m|]; [|exact H].
  destruct (needs_runtime m); [|exact H].
  now apply ensurePyodide_consistent.
Qed.

Lemma onmessage_consistent (data : option Msg) (st : State) :
  consistent st -> consistent (fst (onmessage env data st)).
Proof.
  intros H. apply (after_ensure_consistent data) in H.
  destruct (onmessage_variables data st) as (Hp & _ & Hl & _).
  unfold consistent in *. now rewrite Hp, Hl.
Qed.









Lemma Forall_singleton_reply (P : Reply -> Prop) (r : Reply) : P r -> Forall P [r].
Proof. intros H. constructor; [exact H|constructor]. Qed.

Lemma fault_reply_fails (i : value) (e : fault) :
  ok (body (fault_reply i e)) = true <-> exitCode (body (fault_reply i e)) = Some 0%Z.
Proof. cbn. split; discriminate. Qed.

Lemma captured_ok_iff (r : outcome (Z * string * string)) (b : ExecResult) :
  captured r = Some b -> (ok b = true <-> exitCode b = Some 0%Z).
Proof.
  destruct r as [[[c o] e]|e|]; cbn; intros H; inversion H; subst; cbn.
  - rewrite Z.eqb_eq. split; [now intros ->|now intros [= ->]].
  - split; discriminate.
Qed.

Lemma replies_null (st : State) :
  replies env None st = [fault_reply (VString "") null_dereference].
Proof. now rewrite replies_cases. Qed.

Lemma replies_load_throws (m : Msg) (st : State) (e : fault) :
  needs_runtime m = true ->
  snd (ensurePyodide env (ensure_argument m) st) = Threw e ->
  replies env (Some m) st = [fault_reply (reply_id (Some m)) e].
Proof.
  intros Hn H. rewrite replies_cases, Hn.
  destruct (ensurePyodide env (ensure_argument m) st) as [st1 o]; cbn in H.
  now subst o.
Qed.

Lemma replies_load_rejects (m : Msg) (st : State) (p : LoadPromise) (e : fault) :
  needs_runtime m = true ->
  snd (ensurePyodide env (ensure_argument m) st) = Returned p ->
  loadPyodide_settles env p = Threw e ->
  replies env (Some m) st = [fault_reply (reply_id (Some m)) e].
Proof.
  intros Hn H He. rewrite replies_cases, Hn.
  destruct (ensurePyodide env (ensure_argument m) st) as [st1 o]; cbn in H.
  subst o. now rewrite He.
Qed.

Lemma replies_run_rejects (m : Msg) (st st1 : State) (p : LoadPromise) (py : Pyodide)
      (e : fault) :
  needs_runtime m = true ->
  ensurePyodide env (ensure_argument m) st = (st1, Returned p) ->
  loadPyodide_settles env p = Returned py ->
  runPythonAsync_settles env (trace st1) py (source_of m) = Threw e ->
  replies env (Some m) st =
    [{| id := reply_id (Some m);
        body := {| ok := false; exitCode := Some 1%Z; stdout := None;
                   stderr := Some (message_or_self e);
                   error := Some (fault_to_string e) |} |}].
Proof.
  intros Hn H Hl He. now rewrite replies_cases, Hn, H, Hl, He.
Qed.

(** C2, amended: in every reply the dispatcher posts, [ok] is true exactly
    when the exit code is 0; a fault while handling the message (a null
    payload, script imports that throw, a load promise that rejects) yields
    the reply with [ok] false, exit code 1 and the error string
    [String(e?.message ?? e)], which is the fault's own message and is empty
    when that is; an interpreter call that rejects is answered likewise,
    with [String(e)] as the error string. *)
Theorem replies_ok_iff_exit_zero :
  forall (data : option Msg) (st : State),
    Forall (fun r => ok (body r) = true <-> exitCode (body r) = Some 0%Z)
           (replies env data st)
    /\ (forall i e,
          ok (body (fault_reply i e)) = false
          /\ exitCode (body (fault_reply i e)) = Some 1%Z
          /\ error (body (fault_reply i e)) = Some (message_or_self e))
    /\ (data = None ->
          replies env data st = [fault_reply (VString "") null_dereference])
    /\ (forall m e,
          data = Some m -> needs_runtime m = true ->
          snd (ensurePyodide env (ensure_argument m) st) = Threw e ->
          replies env data st = [fault_reply (reply_id data) e])
    /\ (forall m p e,
          data = Some m -> needs_runtime m = true ->
          snd (ensurePyodide env (ensure_argument m) st) = Returned p ->
          loadPyodide_settles env p = Threw e ->
          replies env data st = [fault_reply (reply_id data) e])
    /\ (forall m st1 p py e,
          data = Some m -> needs_runtime m = true ->
          ensurePyodide env (ensure_argument m) st = (st1, Returned p) ->
          loadPyodide_settles env p = Returned py ->
          runPythonAsync_settles env (trace st1) py (source_of m) = Threw e ->
          replies env data st =
            [{| id := reply_id data;
                body := {| ok := false; exitCode := Some 1%Z; stdout := None;
                           stderr := Some (message_or_self e);
                           error := Some (fault_to_string e) |} |}]).
Proof.
  intros data st. split_ands.
  - rewrite replies_cases.
    destruct data as [m|]; [|apply Forall_singleton_reply, fault_reply_fails].
    destruct (needs_runtime m);
      [|apply Forall_singleton_reply; cbn; split; discriminate].
    destruct (ensurePyodide env (ensure_argument m) st) as [st1 [p|e|]];
      [ |apply Forall_singleton_reply, fault_reply_fails|constructor].
    destruct (loadPyodide_settles env p) as [py|e|];
      [ |apply Forall_singleton_reply, fault_reply_fails|constructor].
    destruct (captured _) as [b|] eqn:Hb; [|constructor].
    apply Forall_singleton_reply; cbn. now apply captured_ok_iff in Hb.
  - intros i e. repeat split.
  - intros ->. apply replies_null.
  - intros m e -> Hn H. now apply replies_load_throws.
  - intros m p e -> Hn H He. now apply replies_load_rejects with p.
  - intros m st1 p py e -> Hn H Hl He. now apply replies_run_rejects with st1 p py.
Qed.

(** C10, amended: the dispatcher posts at most one reply per message, with
    the id of the message echoed as it came (the empty string when absent);
    it posts exactly one unless the load promise or the interpreter run it
    awaits never settles, in which case it posts none; no fault escapes it:
    a fault while handling the message becomes the posted failure reply. *)
Theorem dispatcher_replies_once_when_settled :
  forall (data : option Msg) (st : State),
    length (replies env data st) <= 1
    /\ Forall (fun r => id r = reply_id data) (replies env data st)
    /\ reply_id data =
         match data with
         | Some m => if nullish (msg_id m) then VString "" else msg_id m
         | None => VString ""
         end
    /\ (length (replies env data st) = 1 <-> pending env data st = false)
    /\ (replies env data st = [] <-> snd (onmessage env data st) = Suspended)
    /\ (forall e, snd (onmessage env data st) <> Threw e)
    /\ (data = None ->
          replies env data st = [fault_reply (VString "") null_dereference])
    /\ (forall m e,
          data = Some m -> needs_runtime m = true ->
          snd (ensurePyodide env (ensure_argument m) st) = Threw e ->
          replies env data st = [fault_reply (reply_id data) e])
    /\ (forall m p e,
          data = Some m -> needs_runtime m = true ->
          snd (ensurePyodide env (ensure_argument m) st) = Returned p ->
          loadPyodide_settles env p = Threw e ->
          replies env data st = [fault_reply (reply_id data) e]).
Proof.
  intros data st.
  assert (Hcases :
    (pending env data st = true /\ replies env data st = [])
    \/ (pending env data st = false
        /\ exists b, replies env data st = [{| id := reply_id data; body := b |}])).
  { rewrite replies_cases. unfold pending.
    destruct data as [m|]; [|right; split; [reflexivity|eexists; reflexivity]].
    destruct (needs_runtime m); [|right; split; [reflexivity|eexists; reflexivity]].
    destruct (ensurePyodide_effects (ensure_argument m) st) as (_ & _ & _ & Hs & _).
    destruct (ensurePyodide env (ensure_argument m) st) as [st1 [p|e|]]; cbn in Hs;
      [ |right; split; [reflexivity|eexists; reflexivity]|contradiction].
    destruct (loadPyodide_settles env p) as [py|e|];
      [ |right; split; [reflexivity|eexists; reflexivity]|left; split; reflexivity].
    destruct (runPythonAsync_settles env (trace st1) py (source_of m)) as [[[c o] e]|e|];
      cbn; [right|right|left]; split; try reflexivity; eexists; reflexivity. }
  pose proof (onmessage_outcome data st) as Hout.
  split_ands.
  - destruct Hcases as [[_ ->]|[_ [b ->]]]; cbn; lia.
  - destruct Hcases as [[_ ->]|[_ [b ->]]]; repeat constructor.
  - destruct data as [m|]; reflexivity.
  - destruct Hcases as [[Hp ->]|[Hp [b ->]]]; cbn; rewrite Hp; split; intros H;
      first [discriminate H | reflexivity].
  - destruct Hcases as [[Hp ->]|[Hp [b ->]]]; rewrite Hout, Hp; split; intros H;
      first [discriminate H | reflexivity].
  - intros e. rewrite Hout. destruct (pending env data st); discriminate.
  - intros ->. apply replies_null.
  - intros m e -> Hn H. now apply replies_load_throws.
  - intros m p e -> Hn H He. now apply replies_load_rejects with p.
Qed.

End WorkerFacts.

Section WorkerExamples.

Import PythonWorker Samples.

Example init_probe_reply :
  replies online (Some (init_msg "a" (Some "http://x"))) initial
  = [{| id := VString "a";
        body := {| ok := true; stdout := Some "pyodide ready"; stderr := Some "";
                   exitCode := Some 0%Z; error := None |} |}].
Proof. reflexivity. Qed.

Example init_fixes_indexURL :
  PYODIDE_INDEX_URL (fst (onmessage online (Some (init_msg "a" (Some "http://x"))) initial))
  = "http://x/".
Proof. reflexivity. Qed.

Example unknown_type_reply :
  replies online (Some {| msg_id := VNumber 7; type := VString "ping";
                          indexURL := None; code := None |}) initial
  = [{| id := VNumber 7;
        body := {| ok := false; stdout := None; stderr := None;
                   exitCode := Some 1%Z;
                   error := Some "Unknown message type: ping" |} |}].
Proof. reflexivity. Qed.

(** C2 as worded does not hold: a load promise rejected with an [Error]
    that has no message is answered with [ok] false, exit code 1 and an
    empty error string. *)
Lemma empty_message_gives_empty_error :
  exists r,
    replies broken_runtime (Some (init_msg "1" None)) initial = [r]
    /\ ok (body r) = false
    /\ exitCode (body r) = Some 1%Z
    /\ error (body r) = Some "".
Proof. eexists. repeat split. Qed.

Lemma replies_ok_iff_exit_zero_witness :
  replies offline (Some (init_msg "1" None)) initial
  = [fault_reply (VString "1") (ErrorObject "NetworkError" "Failed to load script")].
Proof.
  apply (proj1 (proj2 (proj2 (proj2
           (replies_ok_iff_exit_zero offline (Some (init_msg "1" None)) initial))))
           (init_msg "1" None) (ErrorObject "NetworkError" "Failed to load script"));
    reflexivity.
Defined.



(** C10 as worded does not hold: code that never finishes gets no reply. *)
Lemma endless_run_gets_no_reply :
  replies busy (Some (run_msg "7" "while True: pass")) initial = []
  /\ snd (onmessage busy (Some (run_msg "7" "while True: pass")) initial) = Suspended.
Proof. split; reflexivity. Qed.

Lemma dispatcher_replies_once_when_settled_witness :
  replies online None initial = [fault_reply (VString "") null_dereference].
Proof.
  apply (proj1 (proj2 (proj2 (proj2 (proj2 (proj2 (proj2
           (dispatcher_replies_once_when_settled online None initial)))))))).
  reflexivity.
Defined.

End WorkerExamples.


(** ** The RPC helper *)

Section CallWorkerFacts.

Import Provider.

Variable env : Env.

Lemma Listener_eqb_eq (a b : Listener) : Listener_eqb a b = true <-> a = b.
Proof.
  unfold Listener_eqb. rewrite andb_true_iff, String.eqb_eq, Nat.eqb_eq.
  destruct a, b; cbn. split; [intros [-> ->]; reflexivity|intros [= -> ->]; auto].
Qed.

Lemma port_set_port (w w' : nat) (p : Port) (st : Main) :
  port w' (set_port w p st) = if Nat.eqb w' w then p else port w' st.
Proof.
  unfold port, set_port; cbn.
  destruct (Nat.eqb_spec w' w) as [->|Hne].
  - now rewrite lookup_insert_eq.
  - now rewrite lookup_insert_ne by congruence.
Qed.

Lemma port_resolve (w h : nat) (r : PythonWorker.Reply) (st : Main) :
  port w (resolve h r st) = port w st.
Proof. unfold resolve. now destruct (promises st !! h). Qed.

Lemma promises_made_resolve (h : nat) (r : PythonWorker.Reply) (st : Main) :
  promises_made (resolve h r st) = promises_made st.
Proof. unfold resolve. now destruct (promises st !! h). Qed.

Lemma promises_resolve (h h' : nat) (r : PythonWorker.Reply) (st : Main) :
  promises (resolve h r st) !! h' =
    match promises st !! h' with
    | Some r' => Some r'
    | None => if Nat.eqb h' h then Some r else None
    end.
Proof.
  unfold resolve.
  destruct (Nat.eqb_spec h' h) as [->|Hne].
  - destruct (promises st !! h) eqn:E; cbn; rewrite ?lookup_insert_eq, ?E; reflexivity.
  - destruct (promises st !! h) eqn:E; cbn;
      rewrite ?lookup_insert_ne by congruence; now destruct (promises st !! h').
Qed.

(** One listener on one event. *)
Lemma listener_ignores (w : nat) (l : Listener) (data : option PythonWorker.Reply) (st : Main) :
  answers data l = false -> listener w l data st = st.
Proof.
  unfold listener, answers. destruct data as [r|]; [|reflexivity].
  now intros ->.
Qed.

Lemma listener_answers (w : nat) (l : Listener) (r : PythonWorker.Reply) (st : Main) :
  answers (Some r) l = true ->
  listener w l (Some r) st = resolve (resolves l) r (removeEventListener w l st).
Proof. unfold listener, answers. now intros ->. Qed.

Lemma listeners_removeEventListener (w w' : nat) (l l' : Listener) (st : Main) :
  In l' (listeners (port w' (removeEventListener w l st)))
  <-> In l' (listeners (port w' st)) /\ (w' = w -> l' <> l).
Proof.
  unfold removeEventListener. rewrite port_set_port.
  destruct (Nat.eqb_spec w' w) as [->|Hne]; cbn.
  - rewrite List.filter_In, negb_true_iff.
    split.
    + intros [Hin Hneq]. split; [exact Hin|]. intros _ ->.
      rewrite (proj2 (Listener_eqb_eq l l) eq_refl) in Hneq. discriminate.
    + intros [Hin Hneq]. split; [exact Hin|].
      destruct (Listener_eqb l' l) eqn:E; [|reflexivity].
      apply Listener_eqb_eq in E. now destruct (Hneq eq_refl).
  - tauto.
Qed.

Lemma listeners_listener (w w' : nat) (l l' : Listener) (data : option PythonWorker.Reply) (st : Main) :
  In l' (listeners (port w' (listener w l data st)))
  <-> In l' (listeners (port w' st)) /\ (w' = w -> answers data l = true -> l' <> l).
Proof.
  destruct (answers data l) eqn:E.
  - destruct data as [r|]; [|discriminate E].
    rewrite (listener_answers w l r st E), port_resolve, listeners_removeEventListener.
    tauto.
  - rewrite (listener_ignores w l data st E). intuition congruence.
Qed.

Lemma promises_made_listener (w : nat) (l : Listener) (data : option PythonWorker.Reply) (st : Main) :
  promises_made (listener w l data st) = promises_made st.
Proof.
  destruct (answers data l) eqn:E.
  - destruct data as [r|]; [|discriminate E].
    now rewrite (listener_answers w l r st E), promises_made_resolve.
  - now rewrite (listener_ignores w l data st E).
Qed.

Lemma promises_listener (w h : nat) (l : Listener) (data : option PythonWorker.Reply) (st : Main) :
  promises (listener w l data st) !! h =
    match promises st !! h with
    | Some r' => Some r'
    | None => if answers data l && Nat.eqb h (resolves l) then data else None
    end.
Proof.
  destruct (answers data l) eqn:E.
  - destruct data as [r|]; [|discriminate E].
    rewrite (listener_answers w l r st E), promises_resolve. reflexivity.
  - rewrite (listener_ignores w l data st E). now destruct (promises st !! h).
Qed.

(** The dispatch of one event over a snapshot [ls] of the listeners. *)
Lemma dispatch_listeners (w w' : nat) (data : option PythonWorker.Reply) (l' : Listener)
      (ls : list Listener) (st : Main) :
  In l' (listeners (port w' (fold_left (fun s l => listener w l data s) ls st)))
  <-> In l' (listeners (port w' st))
      /\ (w' = w -> answers data l' = true -> ~ In l' ls).
Proof.
  revert st. induction ls as [|l0 ls IH]; intros st; cbn [fold_left].
  - cbn. tauto.
  - rewrite IH, listeners_listener. cbn [In].
    split.
    + intros [[Hin H0] Hls]. split; [exact Hin|].
      intros Hw Ha [->|Hin']; [now apply (H0 Hw Ha)|now apply (Hls Hw Ha)].
    + intros [Hin H]. split; [split; [exact Hin|]|].
      * intros Hw Ha ->. apply (H Hw Ha). now left.
      * intros Hw Ha Hin'. apply (H Hw Ha). now right.
Qed.

Lemma dispatch_promises_made (w : nat) (data : option PythonWorker.Reply)
      (ls : list Listener) (st : Main) :
  promises_made (fold_left (fun s l => listener w l data s) ls st) = promises_made st.
Proof.
  revert st. induction ls as [|l0 ls IH]; intros st; cbn [fold_left]; [reflexivity|].
  now rewrite IH, promises_made_listener.
Qed.

Lemma dispatch_promises (w h : nat) (data : option PythonWorker.Reply)
      (ls : list Listener) (st : Main) :
  promises (fold_left (fun s l => listener w l data s) ls st) !! h =
    match promises st !! h with
    | Some r' => Some r'
    | None =>
        if existsb (fun l => answers data l && Nat.eqb h (resolves l)) ls
        then data else None
    end.
Proof.
  revert st. induction ls as [|l0 ls IH]; intros st; cbn [fold_left existsb].
  - now destruct (promises st !! h).
  - rewrite IH, promises_listener.
    destruct (promises st !! h) as [r'|]; [reflexivity|].
    destruct (answers data l0 && Nat.eqb h (resolves l0)) eqn:E; cbn [orb].
    + destruct data as [r|]; [reflexivity|].
      now destruct (existsb _ ls).
    + reflexivity.
Qed.

(** One event, in closed form. *)
Lemma listeners_deliver (w w' : nat) (data : option PythonWorker.Reply) (l' : Listener) (st : Main) :
  In l' (listeners (port w' (deliver w data st)))
  <-> In l' (listeners (port w' st)) /\ (w' = w -> answers data l' = false).
Proof.
  unfold deliver. rewrite dispatch_listeners. split.
  - intros [Hin H]. split; [exact Hin|]. intros ->.
    destruct (answers data l'); [now destruct (H eq_refl eq_refl)|reflexivity].
  - intros [Hin H]. split; [exact Hin|]. intros Hw Ha.
    rewrite (H Hw) in Ha. discriminate.
Qed.

Lemma promises_deliver (w h : nat) (data : option PythonWorker.Reply) (st : Main) :
  promises (deliver w data st) !! h =
    match promises st !! h with
    | Some r' => Some r'
    | None =>
        if existsb (fun l => answers data l && Nat.eqb h (resolves l)) (listeners (port w st))
        then data else None
    end.
Proof. apply dispatch_promises. Qed.

Lemma promises_made_deliver (w : nat) (data : option PythonWorker.Reply) (st : Main) :
  promises_made (deliver w data st) = promises_made st.
Proof. apply dispatch_promises_made. Qed.

(** One call, field by field. *)
Lemma callWorker_returns (w : nat) (msg : Request) (st : Main) :
  snd (callWorker env w msg st) = Returned (promises_made st).
Proof. reflexivity. Qed.

Lemma promises_callWorker (w : nat) (msg : Request) (st : Main) :
  promises (fst (callWorker env w msg st)) = promises st.
Proof. reflexivity. Qed.

Lemma promises_made_callWorker (w : nat) (msg : Request) (st : Main) :
  promises_made (fst (callWorker env w msg st)) = S (promises_made st).
Proof. reflexivity. Qed.

Lemma port_callWorker (w w' : nat) (msg : Request) (st : Main) :
  let id := randomUUID_value env (uuids_drawn st) in
  port w' (fst (callWorker env w msg st)) =
    if Nat.eqb w' w
    then {| listeners := listeners (port w st)
                           ++ [{| listens_for := id; resolves := promises_made st |}];
            outbox := outbox (port w st) ++ [outbound id msg];
            terminated := terminated (port w st) |}
    else port w' st.
Proof.
  cbv zeta. unfold callWorker, new_Promise, randomUUID, JS.bind, JS.modify, JS.ret.
  cbn [fst snd]. unfold postMessage at 1. rewrite !port_set_port.
  destruct (Nat.eqb_spec w' w) as [->|Hne].
  - unfold port at 1 2 3. unfold addEventListener. cbn.
    rewrite lookup_insert_eq. cbn. reflexivity.
  - unfold addEventListener. rewrite port_set_port.
    destruct (Nat.eqb_spec w' w); [contradiction|]. reflexivity.
Qed.

Lemma strict_eq_string (v : value) (s : string) :
  strict_eq v (VString s) = true -> v = VString s.
Proof.
  destruct v; cbn; try discriminate.
  intros H. apply String.eqb_eq in H. now subst.
Qed.

Lemma first_match_snoc (l : Listener) (ds : list (option PythonWorker.Reply))
      (d : option PythonWorker.Reply) :
  first_match (listens_for l) (ds ++ [d]) =
    match first_match (listens_for l) ds with
    | Some r => Some r
    | None => if answers d l then d else None
    end.
Proof.
  unfold first_match, answers.
  induction ds as [|a ds IH]; cbn.
  - destruct d as [r|]; cbn; [|reflexivity].
    now destruct (strict_eq _ _).
  - destruct a as [r|]; cbn; [|exact IH].
    destruct (strict_eq (PythonWorker.id r) (VString (listens_for l))); [reflexivity|exact IH].
Qed.

Lemma first_match_answers (id : string) (ds : list (option PythonWorker.Reply))
      (r : PythonWorker.Reply) :
  first_match id ds = Some r -> PythonWorker.id r = VString id /\ In (Some r) ds.
Proof.
  unfold first_match.
  destruct (List.find _ ds) as [[r'|]|] eqn:E; cbn; try discriminate.
  intros [= ->]. apply List.find_some in E as [Hin Ha].
  split; [now apply strict_eq_string|exact Hin].
Qed.

Lemma exists_answering (data : option PythonWorker.Reply) (h : nat) (ls : list Listener) :
  existsb (fun l => answers data l && Nat.eqb h (resolves l)) ls = true
  <-> exists l, In l ls /\ answers data l = true /\ resolves l = h.
Proof.
  rewrite existsb_exists. split; intros (l & Hin & H).
  - apply andb_prop in H as [Ha Hh]. apply Nat.eqb_eq in Hh. eauto.
  - exists l. destruct H as [Ha <-]. now rewrite Ha, Nat.eqb_refl.
Qed.

Lemma handles_made_start : handles_made start.
Proof.
  split.
  - intros w l. unfold port, start; cbn. rewrite lookup_empty. cbn. tauto.
  - intros h r. unfold start; cbn. rewrite lookup_empty. discriminate.
Qed.

Lemma handles_made_step (a : Action) (st : Main) :
  handles_made st -> handles_made (step env a st).
Proof.
  intros [Hl Hp]. destruct a as [w msg|w data]; cbn [step]; split.
  - intros w' l. rewrite port_callWorker, promises_made_callWorker.
    destruct (Nat.eqb w' w); cbn.
    + rewrite in_app_iff. intros [Hin|[<-|[]]]; cbn; [|lia].
      specialize (Hl _ _ Hin). lia.
    + intros Hin. specialize (Hl _ _ Hin). lia.
  - intros h r. rewrite promises_callWorker, promises_made_callWorker.
    intros H. specialize (Hp _ _ H). lia.
  - intros w' l. rewrite listeners_deliver, promises_made_deliver.
    intros [Hin _]. now apply (Hl w').
  - intros h r. rewrite promises_deliver, promises_made_deliver.
    destruct (promises st !! h) as [r'|] eqn:E; [intros _; now apply (Hp h r')|].
    destruct (existsb _ _) eqn:Ex; [|discriminate].
    apply exists_answering in Ex as (l & Hin & _ & <-). intros _. now apply (Hl w).
Qed.

Lemma handles_made_run (actions : list Action) (st : Main) :
  handles_made st -> handles_made (run env actions st).
Proof.
  revert st. induction actions as [|a actions IH]; intros st H; [exact H|].
  apply IH. now apply handles_made_step.
Qed.

(** The call is tracked from the moment [callWorker] returns. *)
Lemma tracked_after_call (w : nat) (msg : Request) (st : Main) :
  handles_made st ->
  tracked w {| listens_for := randomUUID_value env (uuids_drawn st);
               resolves := promises_made st |} []
          (fst (callWorker env w msg st)).
Proof.
  intros H. pose proof (handles_made_step (Call w msg) st H) as H'.
  destruct H as [Hl Hp]. unfold tracked. cbn [resolves listens_for].
  split_ands.
  - exact H'.
  - rewrite promises_made_callWorker. lia.
  - intros w' l'. rewrite port_callWorker.
    destruct (Nat.eqb_spec w' w) as [->|Hne]; cbn.
    + rewrite in_app_iff. intros [Hin|[<-|[]]] Hh; [|auto].
      specialize (Hl _ _ Hin). lia.
    + intros Hin Hh. specialize (Hl _ _ Hin). lia.
  - rewrite promises_callWorker. cbn.
    destruct (promises st !! promises_made st) as [r|] eqn:E; [|reflexivity].
    specialize (Hp _ _ E). lia.
  - rewrite port_callWorker, Nat.eqb_refl. cbn. rewrite in_app_iff. cbn. tauto.
Qed.

Lemma delivered_call (w w' : nat) (msg : Request) : delivered w [Call w' msg] = [].
Proof. reflexivity. Qed.

Lemma delivered_event (w w' : nat) (data : option PythonWorker.Reply) :
  delivered w [Deliver w' data] = if Nat.eqb w' w then [data] else [].
Proof. unfold delivered; cbn. now destruct (Nat.eqb w' w). Qed.

Lemma delivered_cons (w : nat) (a : Action) (actions : list Action) :
  delivered w (a :: actions) = (delivered w [a] ++ delivered w actions)%list.
Proof. unfold delivered. now rewrite <- omap_app. Qed.

Lemma tracked_step (w : nat) (l : Listener) (ds : list (option PythonWorker.Reply))
      (a : Action) (st : Main) :
  tracked w l ds st -> tracked w l (ds ++ delivered w [a]) (step env a st).
Proof.
  intros (Hm & Hlt & Hu & Hp & Hin).
  pose proof (handles_made_step a st Hm) as Hm'.
  destruct Hm as [Hl Hs].
  destruct a as [w' msg|w' data]; cbn [step].
  - (* another call *)
    rewrite delivered_call, app_nil_r. unfold tracked. split_ands.
    + exact Hm'.
    + rewrite promises_made_callWorker. lia.
    + intros w'' l'. rewrite port_callWorker.
      destruct (Nat.eqb_spec w'' w') as [->|Hne]; cbn.
      * rewrite in_app_iff. intros [Hin'|[<-|[]]] Hh; [now apply Hu|].
        cbn in Hh. lia.
      * apply Hu.
    + now rewrite promises_callWorker.
    + rewrite <- Hin, port_callWorker.
      destruct (Nat.eqb_spec w w') as [->|Hne]; cbn; [|tauto].
      rewrite in_app_iff. cbn. split; [|tauto].
      intros [Hin'|[<-|[]]]; [exact Hin'|]. cbn in Hlt. lia.
  - (* an event *)
    rewrite delivered_event. unfold tracked. split_ands.
    + exact Hm'.
    + now rewrite promises_made_deliver.
    + intros w'' l'. rewrite listeners_deliver. intros [Hin' _]. now apply Hu.
    + rewrite promises_deliver, Hp.
      destruct (Nat.eqb_spec w' w) as [->|Hne]; cbn.
      * rewrite first_match_snoc.
        destruct (first_match (listens_for l) ds) as [r|] eqn:Hf; [reflexivity|].
        destruct (answers data l) eqn:Ha.
        -- assert (Ex : existsb (fun l0 => answers data l0 && Nat.eqb (resolves l) (resolves l0))
                                (listeners (port w st)) = true).
           { apply exists_answering. exists l. split_ands; [now apply Hin|exact Ha|reflexivity]. }
           now rewrite Ex.
        -- destruct (existsb _ _) eqn:Ex; [|reflexivity].
           apply exists_answering in Ex as (l0 & Hin0 & Ha0 & Hh0).
           destruct (Hu _ _ Hin0 Hh0) as [_ ->]. congruence.
      * rewrite app_nil_r.
        destruct (first_match (listens_for l) ds) as [r|] eqn:Hf; [reflexivity|].
        destruct (existsb _ _) eqn:Ex; [|reflexivity].
        apply exists_answering in Ex as (l0 & Hin0 & _ & Hh0).
        destruct (Hu _ _ Hin0 Hh0) as [Hw _]. congruence.
    + rewrite listeners_deliver.
      destruct (Nat.eqb_spec w' w) as [->|Hne]; cbn.
      * rewrite first_match_snoc, Hin.
        destruct (first_match (listens_for l) ds) as [r|]; [intuition discriminate|].
        destruct (answers data l) eqn:Ha.
        -- destruct data as [r|]; [|discriminate Ha].
           split; [intros [_ H]; now specialize (H eq_refl)|discriminate].
        -- tauto.
      * rewrite app_nil_r, Hin. intuition congruence.
Qed.

Lemma tracked_run (w : nat) (l : Listener) (actions : list Action)
      (ds : list (option PythonWorker.Reply)) (st : Main) :
  tracked w l ds st -> tracked w l (ds ++ delivered w actions) (run env actions st).
Proof.
  revert ds st. induction actions as [|a actions IH]; intros ds st H.
  - cbn. now rewrite app_nil_r.
  - change (run env (a :: actions) st) with (run env actions (step env a st)).
    rewrite delivered_cons, app_assoc. apply IH. now apply tracked_step.
Qed.

(** What a run never takes back: the UUIDs drawn and the promises made only
    grow, by one with every call. *)
Lemma uuids_drawn_resolve (h : nat) (r : PythonWorker.Reply) (st : Main) :
  uuids_drawn (resolve h r st) = uuids_drawn st.
Proof. unfold resolve. now destruct (promises st !! h). Qed.

Lemma uuids_drawn_listener (w : nat) (l : Listener) (data : option PythonWorker.Reply) (st : Main) :
  uuids_drawn (listener w l data st) = uuids_drawn st.
Proof.
  destruct (answers data l) eqn:E.
  - destruct data as [r|]; [|discriminate E].
    now rewrite (listener_answers w l r st E), uuids_drawn_resolve.
  - now rewrite (listener_ignores w l data st E).
Qed.

Lemma uuids_drawn_deliver (w : nat) (data : option PythonWorker.Reply) (st : Main) :
  uuids_drawn (deliver w data st) = uuids_drawn st.
Proof.
  unfold deliver. generalize (listeners (port w st)). intros ls.
  revert st. induction ls as [|l0 ls IH]; intros st; cbn [fold_left]; [reflexivity|].
  now rewrite IH, uuids_drawn_listener.
Qed.

Lemma uuids_drawn_callWorker (w : nat) (msg : Request) (st : Main) :
  uuids_drawn (fst (callWorker env w msg st)) = S (uuids_drawn st).
Proof. reflexivity. Qed.

Lemma counters_grow (actions : list Action) (st : Main) :
  uuids_drawn st <= uuids_drawn (run env actions st)
  /\ promises_made st <= promises_made (run env actions st).
Proof.
  revert st. induction actions as [|a actions IH]; intros st; [cbn; lia|].
  change (run env (a :: actions) st) with (run env actions (step env a st)).
  destruct (IH (step env a st)) as [Hu Hp].
  destruct a as [w msg|w data]; cbn [step] in *.
  - rewrite uuids_drawn_callWorker in Hu. rewrite promises_made_callWorker in Hp. lia.
  - rewrite uuids_drawn_deliver in Hu. rewrite promises_made_deliver in Hp. lia.
Qed.

Lemma run_app (a b : list Action) (st : Main) :
  run env (a ++ b) st = run env b (run env a st).
Proof. apply fold_left_app. Qed.

Lemma delivered_app (w : nat) (a b : list Action) :
  delivered w (a ++ b) = (delivered w a ++ delivered w b)%list.
Proof. apply omap_app. Qed.

(** A message answers the listeners of one correlation id only. *)
Lemma answers_one_id (data : option PythonWorker.Reply) (l l' : Listener) :
  listens_for l <> listens_for l' -> answers data l = true -> answers data l' = false.
Proof.
  unfold answers. destruct data as [r|]; [|discriminate].
  intros Hne H. apply strict_eq_string in H. rewrite H. cbn.
  now apply String.eqb_neq.
Qed.

(** A message that does not answer a tracked call settles nothing for it,
    on whichever worker it is delivered. *)
Lemma tracked_unanswered (w v : nat) (l : Listener) (ds : list (option PythonWorker.Reply))
      (data : option PythonWorker.Reply) (st : Main) :
  tracked w l ds st -> answers data l = false ->
  promises (deliver v data st) !! resolves l = promises st !! resolves l.
Proof.
  intros (_ & _ & Hu & _ & _) Ha. rewrite promises_deliver.
  destruct (promises st !! resolves l) as [r|]; [reflexivity|].
  destruct (existsb _ _) eqn:Ex; [|reflexivity].
  apply exists_answering in Ex as (l0 & Hin0 & Ha0 & Hh0).
  destruct (Hu _ _ Hin0 Hh0) as [_ ->]. congruence.
Qed.

(** C1: the promise of a [callWorker] call resolves with the first message
    delivered on the worker after the call whose id is the correlation id
    drawn for that call; a message with another id, with no id, or with no
    data is ignored: it settles nothing for this call and leaves its
    listener registered; the listener is registered exactly until the first
    match, and no other listener resolves the promise. Among any number of
    calls, whatever is called and delivered before, between and after them:
    when the UUID source never repeats itself, any two calls draw different
    ids and own different promises, each promise holds the first message
    that carries its own call's id, no message answers both calls, the two
    responses differ, and a message that answers one call settles nothing
    for the other, on whichever worker it arrives. *)
Theorem callWorker_resolves_with_first_match :
  forall (before after : list Action) (w : nat) (msg : Request),
    let st1 := run env before start in
    let id := randomUUID_value env (uuids_drawn st1) in
    let h := promises_made st1 in
    let l := {| listens_for := id; resolves := h |} in
    let st2 := fst (callWorker env w msg st1) in
    let st3 := run env after st2 in
    snd (callWorker env w msg st1) = Returned h
    /\ last (outbox (port w st2)) = Some (outbound id msg)
    /\ PythonWorker.msg_id (outbound id msg) = VString id
    /\ promises st3 !! h = first_match id (delivered w after)
    /\ (forall r, promises st3 !! h = Some r ->
                  PythonWorker.id r = VString id /\ In (Some r) (delivered w after))
    /\ (In l (listeners (port w st3)) <-> first_match id (delivered w after) = None)
    /\ (forall w' l', In l' (listeners (port w' st3)) -> resolves l' = h ->
                      w' = w /\ l' = l)
    /\ (forall data,
          answers data l = false ->
          promises (deliver w data st3) !! h = promises st3 !! h
          /\ (In l (listeners (port w (deliver w data st3)))
              <-> In l (listeners (port w st3))))
    /\ ((forall m n, randomUUID_value env m = randomUUID_value env n -> m = n) ->
        forall (between later : list Action) (w' : nat) (msg' : Request),
          after = (between ++ Call w' msg' :: later)%list ->
          let st1' := run env between st2 in
          let id' := randomUUID_value env (uuids_drawn st1') in
          let h' := promises_made st1' in
          let l' := {| listens_for := id'; resolves := h' |} in
          snd (callWorker env w' msg' st1') = Returned h'
          /\ id' <> id
          /\ h' <> h
          /\ promises st3 !! h' = first_match id' (delivered w' later)
          /\ (forall data, answers data l = true -> answers data l' = false)
          /\ (forall r r',
                promises st3 !! h = Some r -> promises st3 !! h' = Some r' ->
                PythonWorker.id r = VString id /\ PythonWorker.id r' = VString id'
                /\ r <> r')
          /\ (forall v data,
                answers data l' = true ->
                promises (deliver v data st3) !! h = promises st3 !! h)
          /\ (forall v data,
                answers data l = true ->
                promises (deliver v data st3) !! h' = promises st3 !! h')).
Proof.
  intros before after w msg st1 id h l st2 st3.
  assert (Hm : handles_made st1) by apply handles_made_run, handles_made_start.
  pose proof (tracked_run w l after [] st2 (tracked_after_call w msg st1 Hm)) as Ht.
  rewrite app_nil_l in Ht. fold st3 in Ht.
  pose proof Ht as (Hm3 & Hlt & Hu & Hp & Hin).
  change (resolves l) with h in *. change (listens_for l) with id in *.
  split_ands.
  - reflexivity.
  - subst st2. rewrite port_callWorker, Nat.eqb_refl. cbn [outbox].
    now rewrite last_snoc.
  - now destruct msg.
  - exact Hp.
  - intros r Hr. rewrite Hp in Hr. now apply first_match_answers.
  - exact Hin.
  - exact Hu.
  - intros data Ha.
    pose proof (tracked_step w l _ (Deliver w data) _ Ht) as Ht'.
    rewrite delivered_event, Nat.eqb_refl in Ht'. cbn [step] in Ht'.
    destruct Ht' as (_ & _ & _ & Hp' & Hin').
    rewrite first_match_snoc, Ha in Hp', Hin'.
    change (resolves l) with h in *. change (listens_for l) with id in *.
    split.
    + rewrite Hp', Hp. now destruct (first_match id (delivered w after)).
    + rewrite Hin', Hin. now destruct (first_match id (delivered w after)).
  - intros Hfresh between later w' msg' Hafter st1' id' h' l'.
    assert (Hm2 : handles_made st2)
      by apply (handles_made_step (Call w msg) st1 Hm).
    assert (Hm1' : handles_made st1') by now apply handles_made_run.
    pose proof (tracked_run w' l' later [] _ (tracked_after_call w' msg' st1' Hm1')) as Ht'.
    rewrite app_nil_l in Ht'.
    assert (Hst3 : run env later (fst (callWorker env w' msg' st1')) = st3).
    { subst st3 st1'. rewrite Hafter, run_app. reflexivity. }
    rewrite Hst3 in Ht'.
    pose proof Ht' as (_ & _ & _ & Hp' & _).
    change (resolves l') with h' in *. change (listens_for l') with id' in *.
    destruct (counters_grow between st2) as [Hgu Hgp]. fold st1' in Hgu, Hgp.
    assert (Hid : id' <> id).
    { intros E. apply Hfresh in E.
      subst st2. rewrite uuids_drawn_callWorker in Hgu. lia. }
    assert (Hh : h' <> h).
    { subst h' h st2. rewrite promises_made_callWorker in Hgp. lia. }
    assert (Hll' : listens_for l <> listens_for l') by (cbn; congruence).
    assert (Hl'l : listens_for l' <> listens_for l) by (cbn; congruence).
    split_ands.
    + reflexivity.
    + exact Hid.
    + exact Hh.
    + exact Hp'.
    + intros data. now apply answers_one_id.
    + intros r r' Hr Hr'.
      rewrite Hp in Hr. rewrite Hp' in Hr'.
      apply first_match_answers in Hr as [Hr _].
      apply first_match_answers in Hr' as [Hr' _].
      split_ands; [exact Hr|exact Hr'|].
      intros ->. rewrite Hr in Hr'. injection Hr' as E. now apply Hid.
    + intros v data Ha.
      apply (tracked_unanswered w v l _ data st3 Ht).
      now apply (answers_one_id data l' l).
    + intros v data Ha.
      apply (tracked_unanswered w' v l' _ data st3 Ht').
      now apply (answers_one_id data l l').
Qed.

End CallWorkerFacts.

Section CallWorkerExamples.

Import Provider ProviderSamples.

Example replies_are_not_cross_delivered :
  let st := run stubborn [Deliver 0 (answer "1" "second"); Deliver 0 None;
                          Deliver 0 (answer "0" "first")] two_calls in
  promises st !! 0 = answer "0" "first"
  /\ promises st !! 1 = answer "1" "second"
  /\ listeners (port 0 st) = [].
Proof. vm_compute. repeat split. Qed.

(** Two calls outstanding on worker 0, answered in the reverse order: the
    second call draws another id than the first and resolves with the
    message that carries it. *)
Lemma callWorker_resolves_with_first_match_witness :
  let later := [Deliver 0 (answer "1" "second"); Deliver 0 None;
                Deliver 0 (answer "0" "first")] in
  let st := run stubborn (Call 0 (RunCode "1+1") :: later)
              (fst (callWorker stubborn 0 (Init None) start)) in
  pretty 1 <> pretty 0
  /\ 1 <> 0
  /\ promises st !! 1 = first_match (pretty 1) (delivered 0 later).
Proof.
  intros later st.
  destruct (proj2 (proj2 (proj2 (proj2 (proj2 (proj2 (proj2 (proj2
              (callWorker_resolves_with_first_match stubborn []
                 (Call 0 (RunCode "1+1") :: later) 0 (Init None)))))))))
              (fun m n H => pretty_nat_inj m n H)
              [] later 0 (RunCode "1+1") eq_refl)
    as (_ & Hid & Hh & Hp & _).
  split; [exact Hid|]. split; [exact Hh|exact Hp].
Defined.

End CallWorkerExamples.


(** ** More on the provider: awaiting a reply, create and runCode *)

Section ProviderFacts.

Import Provider ProviderApi.

Variable env : Env.

Lemma untouched_refl (st : Main) : untouched st st.
Proof. unfold untouched. auto. Qed.

Lemma untouched_trans (a b c : Main) : untouched a b -> untouched b c -> untouched a c.
Proof.
  intros (H1 & H2 & H3 & H4) (K1 & K2 & K3 & K4). unfold untouched. split_ands.
  - congruence.
  - congruence.
  - congruence.
  - intros w. destruct (H4 w), (K4 w). split; congruence.
Qed.

Lemma untouched_listener (w : nat) (l : Listener) (data : option PythonWorker.Reply) (st : Main) :
  untouched st (listener w l data st).
Proof.
  unfold listener. destruct data as [r|]; [|apply untouched_refl].
  destruct (negb _); [apply untouched_refl|].
  unfold untouched, resolve, removeEventListener.
  destruct (promises (set_port w _ st) !! resolves l); cbn; split_ands; try reflexivity;
    intros w'; rewrite ?port_set_port;
    try (change (port w' (set_port w ?p st)) with (port w' (set_port w p st)));
    unfold port; cbn; destruct (Nat.eqb_spec w' w) as [->|Hne];
    rewrite ?lookup_insert_eq, ?lookup_insert_ne by congruence; cbn; auto.
Qed.

Lemma untouched_deliver (w : nat) (data : option PythonWorker.Reply) (st : Main) :
  untouched st (deliver w data st).
Proof.
  unfold deliver. generalize (listeners (port w st)) as ls. intros ls. revert st.
  induction ls as [|l ls IH]; intros st; cbn [fold_left]; [apply untouched_refl|].
  eapply untouched_trans; [apply untouched_listener|apply IH].
Qed.

Lemma untouched_await (w h : nat) (incoming : list (option PythonWorker.Reply)) (st : Main) :
  untouched st (fst (await w h incoming st)).
Proof.
  revert st. induction incoming as [|d rest IH]; intros st; cbn [await].
  - destruct (promises st !! h); apply untouched_refl.
  - destruct (promises st !! h); [apply untouched_refl|].
    eapply untouched_trans; [apply untouched_deliver|apply IH].
Qed.

Lemma await_never_throws (w h : nat) (incoming : list (option PythonWorker.Reply)) (st : Main)
      (e : fault) :
  snd (await w h incoming st) <> Threw e.
Proof.
  revert st. induction incoming as [|d rest IH]; intros st; cbn [await].
  - destruct (promises st !! h); discriminate.
  - destruct (promises st !! h); [discriminate|apply IH].
Qed.

Lemma first_match_app (id : string) (a b : list (option PythonWorker.Reply)) :
  first_match id (a ++ b) =
    match first_match id a with
    | Some r => Some r
    | None => first_match id b
    end.
Proof.
  unfold first_match. induction a as [|d a IH]; cbn; [reflexivity|].
  destruct d as [r|]; cbn; [|exact IH].
  destruct (strict_eq (PythonWorker.id r) (VString id)); [reflexivity|exact IH].
Qed.

(** Waiting for a tracked call ends with its first answer, or never. *)
Lemma await_tracked (w : nat) (l : Listener) (rest ds : list (option PythonWorker.Reply))
      (st : Main) :
  tracked w l ds st ->
  snd (await w (resolves l) rest st) =
    match first_match (listens_for l) (ds ++ rest) with
    | Some r => Returned r
    | None => Suspended
    end.
Proof.
  revert ds st. induction rest as [|d rest IH]; intros ds st Ht; cbn [await].
  - destruct Ht as (_ & _ & _ & Hp & _). rewrite Hp, app_nil_r.
    now destruct (first_match (listens_for l) ds).
  - pose proof Ht as (_ & _ & _ & Hp & _). rewrite Hp, first_match_app.
    destruct (first_match (listens_for l) ds) as [r|] eqn:Hf; [reflexivity|].
    apply (tracked_step env w l ds (Deliver w d)) in Ht.
    rewrite delivered_event, Nat.eqb_refl in Ht. cbn [step] in Ht.
    rewrite (IH _ _ Ht), <- app_assoc, first_match_app, Hf. reflexivity.
Qed.

Lemma handles_made_static (st st' : Main) :
  ports st' = ports st -> promises st' = promises st ->
  promises_made st' = promises_made st ->
  handles_made st -> handles_made st'.
Proof.
  intros Hports Hp Hm [Hl Hs]. split.
  - intros w l. unfold port. rewrite Hports, Hm. apply Hl.
  - intros h r. rewrite Hp, Hm. apply Hs.
Qed.

Lemma runCode_python_eq (sandbox : BrowserSandbox) (code : string) (st : Main) :
  runtime sandbox = "python" ->
  runCode env sandbox code st =
    match await (worker sandbox) (promises_made st) (worker_messages env (worker sandbox))
                (fst (callWorker env (worker sandbox) (RunCode code) st)) with
    | (s, Returned r) =>
        (s, Returned (makeExecutionResult (id sandbox) (PythonWorker.body r)))
    | (s, Threw e) => (s, Threw e)
    | (s, Suspended) => (s, Suspended)
    end.
Proof.
  intros Hpy. unfold runCode. rewrite Hpy. reflexivity.
Qed.

(** [runCode] on a python sandbox, in full. *)
Lemma runCode_python (sandbox : BrowserSandbox) (code : string) (st : Main) :
  handles_made st ->
  runtime sandbox = "python" ->
  let call_id := randomUUID_value env (uuids_drawn st) in
  let st' := fst (runCode env sandbox code st) in
  snd (runCode env sandbox code st) =
    match first_match call_id (worker_messages env (worker sandbox)) with
    | Some r => Returned (makeExecutionResult (id sandbox) (PythonWorker.body r))
    | None => Suspended
    end
  /\ registry st' = registry st
  /\ spawned st' = spawned st
  /\ outbox (port (worker sandbox) st') =
       (outbox (port (worker sandbox) st) ++ [outbound call_id (RunCode code)])%list.
Proof.
  intros Hm Hpy call_id st'. subst st'.
  pose proof (tracked_after_call env (worker sandbox) (RunCode code) st Hm) as Ht.
  apply (await_tracked _ _ (worker_messages env (worker sandbox))) in Ht.
  cbn [resolves listens_for app] in Ht.
  pose proof (untouched_await (worker sandbox) (promises_made st)
                (worker_messages env (worker sandbox))
                (fst (callWorker env (worker sandbox) (RunCode code) st)))
    as (Hr & Hs & _ & Hports).
  destruct (Hports (worker sandbox)) as [Hout _].
  rewrite port_callWorker, Nat.eqb_refl in Hout. cbn [outbox] in Hout.
  rewrite (runCode_python_eq sandbox code st Hpy).
  destruct (await (worker sandbox) (promises_made st) _ _) as [st3 o]; cbn [fst snd] in *.
  subst o. fold call_id.
  destruct (first_match call_id _) as [r|]; cbn [fst snd]; auto.
Qed.

Lemma create_python_eq (config : BrowserConfig) (options : option CreateSandboxOptions)
      (st : Main) :
  requested_runtime config options = "python" ->
  create env config options st =
    match await (spawned st) (promises_made st) (worker_messages env (spawned st))
                (fst (callWorker env (spawned st) (Init (pyodideIndexURL config))
                        (before_init env options st))) with
    | (s, Returned _) =>
        (set_registry (<[created_id env options st := created_sandbox env options st]>
                         (registry s)) s,
         Returned (created_sandbox env options st, created_id env options st))
    | (s, Threw e) => (s, Threw e)
    | (s, Suspended) => (s, Suspended)
    end.
Proof.
  intros Hpy. unfold create, before_init, created_sandbox, created_id.
  rewrite Hpy. destruct (options ≫= options_sandboxId); reflexivity.
Qed.

Lemma before_init_facts (options : option CreateSandboxOptions) (st : Main) :
  let st1 := before_init env options st in
  ports st1 = ports st /\ promises st1 = promises st
  /\ promises_made st1 = promises_made st
  /\ registry st1 = registry st /\ spawned st1 = S (spawned st)
  /\ randomUUID_value env (uuids_drawn st1) = init_call_id env options st.
Proof.
  unfold before_init, init_call_id.
  destruct (options ≫= options_sandboxId); cbn; auto 10.
Qed.

(** X1: [create] for the python runtime spawns one worker, sends it init
    and waits for the first message that carries the init call's id. When
    one comes, whatever it reports, the sandbox (python, on the worker just
    spawned) is returned and registered under the caller's id or a fresh
    browser-sb- one; when none comes, [create] never returns and registers
    nothing. No worker is terminated, also when the id was taken. *)
Theorem create_registers_on_first_answer :
  forall (config : BrowserConfig) (options : option CreateSandboxOptions) (st : Main),
    handles_made st ->
    requested_runtime config options = "python" ->
    let k := created_id env options st in
    let sb := created_sandbox env options st in
    let answer := first_match (init_call_id env options st)
                              (worker_messages env (spawned st)) in
    let st' := fst (create env config options st) in
    snd (create env config options st) =
      match answer with Some _ => Returned (sb, k) | None => Suspended end
    /\ registry st' =
         match answer with Some _ => <[k := sb]> (registry st) | None => registry st end
    /\ spawned st' = S (spawned st)
    /\ (forall w, terminated (port w st') = terminated (port w st))
    /\ last (outbox (port (spawned st) st'))
       = Some (outbound (init_call_id env options st) (Init (pyodideIndexURL config))).
Proof.
  intros config options st Hm Hpy k sb answer st'. subst st'.
  destruct (before_init_facts options st) as (Hports & Hp & Hpm & Hreg & Hsp & Hid).
  set (st1 := before_init env options st) in *.
  assert (Hm1 : handles_made st1) by now apply (handles_made_static st).
  pose proof (tracked_after_call env (spawned st) (Init (pyodideIndexURL config)) st1 Hm1) as Ht.
  apply (await_tracked _ _ (worker_messages env (spawned st))) in Ht.
  cbn [resolves listens_for app] in Ht. rewrite Hpm, Hid in Ht.
  pose proof (untouched_await (spawned st) (promises_made st)
                (worker_messages env (spawned st))
                (fst (callWorker env (spawned st) (Init (pyodideIndexURL config)) st1)))
    as (Hr & Hs & _ & Hq).
  assert (Hout : forall w,
             terminated (port w (fst (callWorker env (spawned st)
                                        (Init (pyodideIndexURL config)) st1)))
             = terminated (port w st)).
  { intros w. rewrite port_callWorker.
    assert (Hpw : port w st1 = port w st) by (unfold port; now rewrite Hports).
    destruct (Nat.eqb_spec w (spawned st)) as [->|Hne]; cbn; now rewrite <- Hpw. }
  assert (Hlast : last (outbox (port (spawned st)
                                  (fst (callWorker env (spawned st)
                                          (Init (pyodideIndexURL config)) st1))))
                  = Some (outbound (init_call_id env options st)
                            (Init (pyodideIndexURL config)))).
  { rewrite port_callWorker, Nat.eqb_refl. cbn [outbox]. now rewrite last_snoc, Hid. }
  rewrite (create_python_eq config options st Hpy). fold st1.
  destruct (await (spawned st) (promises_made st) _ _) as [st3 o]; cbn [fst snd] in *.
  subst o. fold answer.
  assert (Hterm : forall w, terminated (port w st3) = terminated (port w st)).
  { intros w. destruct (Hq w) as [_ Hw]. now rewrite Hw. }
  assert (Hob : last (outbox (port (spawned st) st3))
                = Some (outbound (init_call_id env options st)
                          (Init (pyodideIndexURL config)))).
  { destruct (Hq (spawned st)) as [Hw _]. now rewrite Hw. }
  assert (Hr' : registry st3 = registry st) by (rewrite Hr; exact Hreg).
  assert (Hs' : spawned st3 = S (spawned st)) by (rewrite Hs; exact Hsp).
  destruct answer as [r|]; cbn [fst snd]; split_ands; auto.
  cbn. now rewrite Hr'.
Qed.

(** [create] in every case, with no assumption on the main thread. *)
Lemma create_shape (config : BrowserConfig) (options : option CreateSandboxOptions)
      (st : Main) :
  let st' := fst (create env config options st) in
  (requested_runtime config options <> "python"
   /\ (exists e, create env config options st = (st, Threw e)))
  \/ (requested_runtime config options = "python"
      /\ spawned st' = S (spawned st)
      /\ ((snd (create env config options st) = Suspended /\ registry st' = registry st)
          \/ (snd (create env config options st)
                = Returned (created_sandbox env options st, created_id env options st)
              /\ registry st'
                 = <[created_id env options st := created_sandbox env options st]>
                     (registry st)))).
Proof.
  cbv zeta.
  destruct (String.eqb_spec (requested_runtime config options) "python") as [Hpy|Hne].
  - right. split; [exact Hpy|].
    destruct (before_init_facts options st) as (_ & _ & _ & Hreg & Hsp & _).
    pose proof (untouched_await (spawned st) (promises_made st)
                  (worker_messages env (spawned st))
                  (fst (callWorker env (spawned st) (Init (pyodideIndexURL config))
                          (before_init env options st))))
      as (Hr & Hs & _ & _).
    pose proof (await_never_throws (spawned st) (promises_made st)
                  (worker_messages env (spawned st))
                  (fst (callWorker env (spawned st) (Init (pyodideIndexURL config))
                          (before_init env options st)))) as Hnt.
    rewrite (create_python_eq config options st Hpy).
    destruct (await (spawned st) (promises_made st) _ _) as [s [r|e|]]; cbn [fst snd] in *.
    + assert (Hr' : registry s = registry st) by (rewrite Hr; exact Hreg).
      split; [cbn; rewrite Hs; exact Hsp|]. right. split; [reflexivity|].
      cbn. now rewrite Hr'.
    + now destruct (Hnt e).
    + split; [rewrite Hs; exact Hsp|]. left. split; [reflexivity|].
      rewrite Hr. exact Hreg.
  - left. split; [exact Hne|].
    apply String.eqb_neq in Hne. unfold create. rewrite Hne. cbn.
    eexists. reflexivity.
Qed.

Lemma untouched_runCode (sandbox : BrowserSandbox) (code : string) (st : Main) :
  registry (fst (runCode env sandbox code st)) = registry st
  /\ spawned (fst (runCode env sandbox code st)) = spawned st.
Proof.
  destruct (String.eqb_spec (runtime sandbox) "python") as [Hpy|Hne].
  - pose proof (untouched_await (worker sandbox) (promises_made st)
                  (worker_messages env (worker sandbox))
                  (fst (callWorker env (worker sandbox) (RunCode code) st)))
      as (Hr & Hs & _ & _).
    rewrite (runCode_python_eq sandbox code st Hpy).
    destruct (await (worker sandbox) (promises_made st) _ _) as [s [r|e|]];
      cbn [fst snd] in *; split; first [exact Hr|exact Hs].
  - apply String.eqb_neq in Hne. unfold runCode. rewrite Hne. cbn. auto.
Qed.

Lemma spawned_destroy (sandboxId : string) (st : Main) :
  spawned (fst (destroy env sandboxId st)) = spawned st.
Proof.
  unfold destroy, JS.bind, JS.get, JS.try_finally, JS.modify, JS.ret, terminate, JS.throw.
  destruct (registry st !! sandboxId) as [sb|]; [|reflexivity].
  destruct (terminate_throws env (worker sb)); reflexivity.
Qed.

Lemma well_kept_insert_fresh (st : Main) (r : gmap string BrowserSandbox) (n : nat)
      (k : string) :
  well_kept st -> n = S (spawned st) ->
  well_kept {| registry := <[k := {| id := k; runtime := "python"; worker := spawned st |}]>
                             (registry st);
               ports := ports st; spawned := n; promises := promises st;
               promises_made := promises_made st; uuids_drawn := uuids_drawn st |}.
Proof.
  intros [Hk Hinj] ->. split; cbn.
  - intros k' sb. rewrite lookup_insert.
    destruct (decide (k = k')) as [<-|Hne].
    + intros [= <-]. cbn. auto.
    + intros H. destruct (Hk _ _ H) as (? & ? & ?). auto.
  - intros k1 k2 sb1 sb2. rewrite !lookup_insert.
    destruct (decide (k = k1)) as [<-|H1], (decide (k = k2)) as [<-|H2]; try reflexivity.
    + intros [= <-] H Hw. destruct (Hk _ _ H) as (_ & _ & Hlt). cbn in Hw. lia.
    + intros H [= <-] Hw. destruct (Hk _ _ H) as (_ & _ & Hlt). cbn in Hw. lia.
    + apply Hinj.
Qed.

Lemma well_kept_registry (st st' : Main) :
  well_kept st ->
  spawned st <= spawned st' ->
  (forall k sb, registry st' !! k = Some sb -> registry st !! k = Some sb) ->
  well_kept st'.
Proof.
  intros [Hk Hinj] Hsp Hsub. split.
  - intros k sb H. destruct (Hk _ _ (Hsub _ _ H)) as (? & ? & ?). split_ands; auto. lia.
  - intros k1 k2 sb1 sb2 H1 H2. apply (Hinj _ _ _ _ (Hsub _ _ H1) (Hsub _ _ H2)).
Qed.

Lemma well_kept_apply (op : Operation) (st : Main) :
  well_kept st -> well_kept (apply env op st).
Proof.
  intros H. destruct op as [config options|k|sb code|sb command]; cbn [apply].
  - destruct (create_shape config options st) as [[_ [e He]]|(_ & Hsp & [[_ Hr]|[_ Hr]])].
    + now rewrite He.
    + apply (well_kept_registry st); [exact H|lia|]. intros k sb. now rewrite Hr.
    + pose proof (well_kept_insert_fresh st (registry st) _ (created_id env options st)
                    H Hsp) as Hw.
      destruct Hw as [Hk Hinj]; cbn in Hk, Hinj.
      split.
      * intros k sb. rewrite Hr. intros Hl.
        apply (Hk _ _ Hl).
      * intros k1 k2 sb1 sb2. rewrite !Hr. apply Hinj.
  - apply (well_kept_registry st); [exact H|now rewrite spawned_destroy|].
    intros k' sb. rewrite destroy_registry, lookup_delete.
    destruct (decide (k = k')); [discriminate|auto].
  - destruct (untouched_runCode sb code st) as [Hr Hs].
    apply (well_kept_registry st); [exact H|now rewrite Hs|].
    intros k' sb'. now rewrite Hr.
  - exact H.
Qed.

Lemma well_kept_start : well_kept start.
Proof.
  split; intros *; unfold start; cbn; rewrite lookup_empty; discriminate.
Qed.

(** X2: whatever creates, destroys, runs and commands a host issues, every
    registered sandbox is filed under its own id, has the python runtime and
    a worker that was spawned, and no two registered sandboxes share a
    worker. *)
Theorem registry_is_well_kept :
  forall (ops : list Operation),
    let st := apply_all env ops start in
    (forall k sb, registry st !! k = Some sb ->
                  id sb = k /\ runtime sb = "python" /\ worker sb < spawned st)
    /\ (forall k1 k2 sb1 sb2,
          registry st !! k1 = Some sb1 -> registry st !! k2 = Some sb2 ->
          worker sb1 = worker sb2 -> k1 = k2).
Proof.
  intros ops. cbv zeta. change (well_kept (apply_all env ops start)).
  unfold apply_all. generalize well_kept_start. generalize start as st.
  induction ops as [|op ops IH]; intros st H; [exact H|].
  cbn [fold_left]. apply IH. now apply well_kept_apply.
Qed.

Lemma create_returned (config : BrowserConfig) (options : option CreateSandboxOptions)
      (st st' : Main) (sb : BrowserSandbox) (k : string) :
  create env config options st = (st', Returned (sb, k)) ->
  sb = created_sandbox env options st
  /\ k = created_id env options st
  /\ registry st' = <[k := sb]> (registry st).
Proof.
  intros H.
  destruct (create_shape config options st) as [[_ [e He]]|(_ & _ & [[Hs _]|[Hs Hr]])];
    rewrite H in *; cbn [fst snd] in *; try discriminate.
  injection Hs as -> ->. auto.
Qed.

(** X3: a sandbox that [create] returns has the registered id as its own
    and the python runtime; [getById] finds it under that id and [getInfo]
    reports it running; [destroy] of the id terminates its worker (when
    terminating does not throw) and [getById] then finds nothing; no other
    id of the registry changes on the way. *)
Theorem create_getById_destroy :
  forall (config : BrowserConfig) (options : option CreateSandboxOptions)
         (st st' : Main) (sb : BrowserSandbox) (k : string) (now : Z),
    create env config options st = (st', Returned (sb, k)) ->
    let st'' := fst (destroy env k st') in
    id sb = k /\ runtime sb = "python"
    /\ getById k st' = (st', Returned (Some (sb, k)))
    /\ snd (getInfo now sb st')
       = Returned {| info_id := k; info_provider := "@computesdk/browser";
                     info_runtime := "python"; status := "running";
                     createdAt := Some now; timeout := Some 0%Z |}
    /\ getById k st'' = (st'', Returned None)
    /\ (terminate_throws env (worker sb) = None ->
        terminated (port (worker sb) st'') = true)
    /\ (forall k', k' <> k ->
                   registry st' !! k' = registry st !! k'
                   /\ registry st'' !! k' = registry st !! k').
Proof.
  intros config options st st' sb k now H st''. subst st''.
  destruct (create_returned _ _ _ _ _ _ H) as (Hsb & Hk & Hr).
  assert (Hl : registry st' !! k = Some sb) by (rewrite Hr; apply lookup_insert_eq).
  split_ands.
  - now rewrite Hsb, Hk.
  - now rewrite Hsb.
  - unfold getById, JS.bind, JS.get. now rewrite Hl.
  - cbn. rewrite Hsb at 1 2. cbn. now rewrite <- Hk.
  - unfold getById, JS.bind, JS.get.
    now rewrite destroy_registry, lookup_delete_eq.
  - intros Ht. unfold destroy, JS.bind, JS.get, JS.try_finally, JS.modify, terminate.
    rewrite Hl, Ht. cbn. change (port (worker sb) (set_registry ?r ?s)) with (port (worker sb) s).
    now rewrite port_set_port, Nat.eqb_refl.
  - intros k' Hne. rewrite destroy_registry, lookup_delete_ne by congruence.
    rewrite Hr, lookup_insert_ne by congruence. auto.
Qed.

(** X5: [list] leaves the main thread as it is and returns exactly one pair
    per registered id, each sandbox with the id it is registered under. *)
Theorem list_enumerates_registry :
  forall (st : Main),
    exists l,
      list_sandboxes st = (st, Returned l)
      /\ (forall sb k, In (sb, k) l <-> registry st !! k = Some sb)
      /\ length l = size (registry st)
      /\ NoDup (map snd l).
Proof.
  intros st. eexists. split; [reflexivity|]. split_ands.
  - intros sb k. rewrite <- list_elem_of_In, list_elem_of_fmap. split.
    + intros ([k' sb'] & [= -> ->] & Hin). now apply elem_of_map_to_list in Hin.
    + intros H. exists (k, sb). split; [reflexivity|now apply elem_of_map_to_list].
  - now rewrite length_map, length_map_to_list.
  - rewrite map_map. cbn. apply NoDup_fst_map_to_list.
Qed.

(** X18: [destroy] settles no pending call and removes no listener: a
    [runCode] still waiting on the worker of the destroyed sandbox is left
    waiting. A second [destroy] of the same id does nothing and returns. *)
Theorem destroy_settles_nothing :
  forall (k : string) (st : Main),
    let st' := fst (destroy env k st) in
    promises st' = promises st
    /\ promises_made st' = promises_made st
    /\ (forall w, listeners (port w st') = listeners (port w st))
    /\ destroy env k st' = (st', Returned tt).
Proof.
  intros k st. cbv zeta. split_ands.
  - unfold destroy, JS.bind, JS.get, JS.try_finally, JS.modify, JS.ret, terminate, JS.throw.
    destruct (registry st !! k) as [sb|]; [|reflexivity].
    destruct (terminate_throws env (worker sb)); reflexivity.
  - unfold destroy, JS.bind, JS.get, JS.try_finally, JS.modify, JS.ret, terminate, JS.throw.
    destruct (registry st !! k) as [sb|]; [|reflexivity].
    destruct (terminate_throws env (worker sb)); reflexivity.
  - intros w.
    unfold destroy, JS.bind, JS.get, JS.try_finally, JS.modify, JS.ret, terminate, JS.throw.
    destruct (registry st !! k) as [sb|]; [|reflexivity].
    destruct (terminate_throws env (worker sb)); cbn; [reflexivity|].
    change (port w (set_registry ?r ?s)) with (port w s).
    rewrite port_set_port. now destruct (Nat.eqb_spec w (worker sb)) as [->|].
  - assert (Hn : registry (fst (destroy env k st)) !! k = None)
      by (rewrite destroy_registry; apply lookup_delete_eq).
    unfold destroy at 1. unfold JS.bind, JS.get. now rewrite Hn.
Qed.




(** What the worker posts for a message: nothing, or one reply that echoes
    the id. *)
Lemma replies_shape (wenv : PythonWorker.Env) (data : option PythonWorker.Msg)
      (wst : PythonWorker.State) :
  PythonWorker.replies wenv data wst = []
  \/ exists b, PythonWorker.replies wenv data wst
               = [{| PythonWorker.id := PythonWorker.reply_id data; PythonWorker.body := b |}].
Proof.
  rewrite replies_cases.
  destruct data as [m|]; [|right; eexists; reflexivity].
  destruct (PythonWorker.needs_runtime m); [|right; eexists; reflexivity].
  destruct (PythonWorker.ensurePyodide wenv _ wst) as [st1 [p|e|]];
    [|right; eexists; reflexivity|now left].
  destruct (PythonWorker.loadPyodide_settles wenv p) as [py|e|];
    [|right; eexists; reflexivity|now left].
  destruct (PythonWorker.captured _); [right; eexists; reflexivity|now left].
Qed.

(** X7: [runCode] against the worker itself, with an interpreter whose
    exit codes are safe integers (what comes over as a number). When the
    messages the main thread receives are the ones the worker posts for the
    request, the call resolves with the worker's reply (its id always
    matches) or waits when the worker posts none; a run that ends with exit
    code [c] and the captured texts [o] and [e] comes back as exactly that
    exit code, stdout and stderr. *)
Theorem runCode_round_trip_through_worker :
  forall (wenv : PythonWorker.Env) (wst : PythonWorker.State)
         (sandbox : BrowserSandbox) (code : string) (st : Main),
    WorkerTrace.exits_with_numbers wenv ->
    handles_made st ->
    runtime sandbox = "python" ->
    let request := outbound (randomUUID_value env (uuids_drawn st)) (RunCode code) in
    worker_messages env (worker sandbox)
      = map Some (PythonWorker.replies wenv (Some request) wst) ->
    snd (runCode env sandbox code st) =
      match PythonWorker.replies wenv (Some request) wst with
      | r :: _ => Returned (makeExecutionResult (id sandbox) (PythonWorker.body r))
      | [] => Suspended
      end
    /\ (forall wst1 p py c o e,
          PythonWorker.ensurePyodide wenv None wst = (wst1, Returned p) ->
          PythonWorker.loadPyodide_settles wenv p = Returned py ->
          PythonWorker.runPythonAsync_settles wenv (PythonWorker.trace wst1) py (Some code)
            = Returned (c, o, e) ->
          WorkerTrace.safe_integer c
          /\ snd (runCode env sandbox code st) =
               Returned {| exitCode := c; stdout := o; stderr := e;
                           sandboxId := Some (id sandbox);
                           provider := Some "@computesdk/browser";
                           executionTime := Some 0%Z |}).
Proof.
  intros wenv wst sandbox code st Hsafe Hm Hpy request Hlink.
  destruct (runCode_python sandbox code st Hm Hpy) as (Ho & _).
  rewrite Hlink in Ho.
  assert (Hgen : snd (runCode env sandbox code st) =
                 match PythonWorker.replies wenv (Some request) wst with
                 | r :: _ => Returned (makeExecutionResult (id sandbox) (PythonWorker.body r))
                 | [] => Suspended
                 end).
  { rewrite Ho.
    destruct (replies_shape wenv (Some request) wst) as [->|[b ->]]; [reflexivity|].
    unfold first_match; cbn. now rewrite String.eqb_refl. }
  split; [exact Hgen|].
  intros wst1 p py c o e He Hl Hrun.
  split; [exact (Hsafe _ _ _ _ _ _ Hrun)|].
  rewrite Hgen, replies_cases.
  change (PythonWorker.needs_runtime request) with true. cbn match.
  change (PythonWorker.ensure_argument request) with (@None string).
  rewrite He, Hl.
  change (PythonWorker.source_of request) with (Some code).
  rewrite Hrun. reflexivity.
Qed.

End ProviderFacts.

Section ProviderExamples.

Import Provider ProviderApi ProviderSamples MoreSamples.

Lemma create_registers_on_first_answer_witness :
  snd (create failing_probe {| config_runtime := None; pyodideIndexURL := None |} None start)
  = Returned ({| id := "browser-sb-" ++ pretty 0; runtime := "python"; worker := 0 |},
              "browser-sb-" ++ pretty 0).
Proof.
  apply (create_registers_on_first_answer failing_probe
           {| config_runtime := None; pyodideIndexURL := None |} None start
           handles_made_start eq_refl).
Defined.

Lemma create_getById_destroy_witness :
  getById "browser-sb-0"
    (fst (create failing_probe {| config_runtime := None; pyodideIndexURL := None |}
            None start))
  = (fst (create failing_probe {| config_runtime := None; pyodideIndexURL := None |}
            None start),
     Returned (Some ({| id := "browser-sb-0"; runtime := "python"; worker := 0 |},
                     "browser-sb-0"))).
Proof.
  apply (create_getById_destroy failing_probe
           {| config_runtime := None; pyodideIndexURL := None |} None start _ _ _ 0%Z).
  vm_compute. reflexivity.
Defined.


Lemma runCode_round_trip_through_worker_witness :
  snd (runCode (linked "print(1)") {| id := "sb-1"; runtime := "python"; worker := 0 |}
         "print(1)" start)
  = Returned {| exitCode := 0; stdout := "pyodide ready"; stderr := "";
                sandboxId := Some "sb-1"; provider := Some "@computesdk/browser";
                executionTime := Some 0%Z |}.
Proof.
  assert (Hsafe : WorkerTrace.exits_with_numbers Samples.online).
  { intros tr py source c o e [= <- _ _]. unfold WorkerTrace.safe_integer. cbn. lia. }
  apply (proj1 (runCode_round_trip_through_worker (linked "print(1)") Samples.online
                  PythonWorker.initial
                  {| id := "sb-1"; runtime := "python"; worker := 0 |} "print(1)" start
                  Hsafe handles_made_start eq_refl eq_refl)).
Defined.

End ProviderExamples.


(** ** The provider on a platform that may refuse *)

Section ProviderPlatformFacts.

Import Provider ProviderApi ProviderPlatform.

Variable platform : Platform.
Variable env : Env.

Lemma await_rejected (w h : nat) (incoming : list (option PythonWorker.Reply))
      (t : Thread) (e : fault) :
  rejected t !! h = Some e ->
  ProviderPlatform.await w h incoming t = (t, Threw e).
Proof. intros H. destruct incoming; cbn; now rewrite H. Qed.

(** A promise that was not rejected is awaited as in [Provider]. *)
Lemma await_unrejected (w h : nat) (incoming : list (option PythonWorker.Reply)) (t : Thread) :
  rejected t !! h = None ->
  ProviderPlatform.await w h incoming t =
    ({| main := fst (Provider.await w h incoming (main t)); rejected := rejected t |},
     snd (Provider.await w h incoming (main t))).
Proof.
  revert t. induction incoming as [|d rest IH]; intros [m rj] H; cbn in *; rewrite H.
  - now destruct (promises m !! h).
  - destruct (promises m !! h); [reflexivity|].
    now rewrite (IH {| main := deliver w d m; rejected := rj |} H).
Qed.

(** One call and the wait for it. *)
Lemma callWorker_then_await (w : nat) (msg : Request)
      (incoming : list (option PythonWorker.Reply)) (t : Thread) :
  rejected t !! promises_made (main t) = None ->
  let h := promises_made (main t) in
  let n := uuids_drawn (main t) in
  let l := {| listens_for := randomUUID_value env n; resolves := h |} in
  let called := fst (ProviderPlatform.callWorker platform env w msg t) in
  let waited := ProviderPlatform.await w h incoming called in
  snd (ProviderPlatform.callWorker platform env w msg t) = Returned h
  /\ match randomUUID_throws platform n with
     | Some e =>
         waited = (called, Threw e)
         /\ main called = fst (new_Promise (main t))
     | None =>
         match postMessage_throws platform w (outbound (randomUUID_value env n) msg) with
         | Some e =>
             waited = (called, Threw e)
             /\ main called
                = addEventListener w l (fst (Provider.randomUUID env (fst (new_Promise (main t)))))
         | None =>
             main called = fst (Provider.callWorker env w msg (main t))
             /\ rejected called = rejected t
             /\ main (fst waited)
                = fst (Provider.await w h incoming (fst (Provider.callWorker env w msg (main t))))
             /\ rejected (fst waited) = rejected t
             /\ snd waited
                = snd (Provider.await w h incoming (fst (Provider.callWorker env w msg (main t))))
         end
     end.
Proof.
  destruct t as [m rj]. cbn [main rejected]. intros Hfresh. cbv zeta.
  unfold ProviderPlatform.callWorker, ProviderPlatform.randomUUID,
    ProviderPlatform.postMessage, on_main, reject, new_Promise,
    JS.bind, JS.try_catch, JS.ret, JS.throw, JS.modify.
  cbn [main rejected fst snd uuids_drawn promises_made].
  destruct (randomUUID_throws platform (uuids_drawn m)) as [e|]; cbn [fst snd main rejected].
  - split; [reflexivity|]. split; [|reflexivity].
    apply await_rejected. apply lookup_insert_eq.
  - cbn [Provider.randomUUID fst snd main rejected uuids_drawn].
    destruct (postMessage_throws platform w _) as [e|]; cbn [fst snd main rejected].
    + split; [reflexivity|]. split; [|reflexivity].
      apply await_rejected. apply lookup_insert_eq.
    + split; [reflexivity|].
      rewrite await_unrejected by exact Hfresh. cbn [fst snd main rejected].
      split_ands; reflexivity.
Qed.

(** [create] for the python runtime, step by step. *)
Lemma create_platform_eq (config : BrowserConfig) (options : option CreateSandboxOptions)
      (t : Thread) :
  requested_runtime config options = "python" ->
  ProviderPlatform.create platform env config options t =
    match new_Worker_throws platform (spawned (main t)) with
    | Some e => (t, Threw e)
    | None =>
        match sandboxId_fault platform options (main t) with
        | Some e =>
            ({| main := fst (Provider.spawnPythonWorker (main t)); rejected := rejected t |},
             Threw e)
        | None =>
            let w := spawned (main t) in
            let called :=
              fst (ProviderPlatform.callWorker platform env w (Init (pyodideIndexURL config))
                     {| main := before_init env options (main t); rejected := rejected t |}) in
            match ProviderPlatform.await w (promises_made (main t))
                    (worker_messages env w) called with
            | (s, Returned _) =>
                ({| main :=
                      set_registry
                        (<[created_id env options (main t)
                           := created_sandbox env options (main t)]> (registry (main s)))
                        (main s);
                    rejected := rejected s |},
                 Returned (created_sandbox env options (main t),
                           created_id env options (main t)))
            | (s, Threw e) => (s, Threw e)
            | (s, Suspended) => (s, Suspended)
            end
        end
    end.
Proof.
  intros Hpy. destruct t as [m rj]. cbn [main rejected].
  unfold ProviderPlatform.create. rewrite Hpy, String.eqb_refl. cbn [negb].
  unfold sandboxId_fault, before_init, created_sandbox, created_id.
  unfold ProviderPlatform.spawnPythonWorker, JS.bind at 1. cbn [main rejected].
  destruct (new_Worker_throws platform (spawned m)) as [e0|]; [reflexivity|].
  unfold on_main at 1. cbn [Provider.spawnPythonWorker fst snd main rejected].
  unfold JS.bind at 1.
  destruct (options ≫= options_sandboxId) as [sid|] eqn:Hsid.
  - unfold JS.ret at 1. cbn [fst snd]. unfold JS.bind at 1.
    unfold ProviderPlatform.callWorker, ProviderPlatform.randomUUID,
      ProviderPlatform.postMessage, on_main, reject, new_Promise,
      JS.bind, JS.try_catch, JS.ret, JS.throw, JS.modify.
    cbn [main rejected fst snd uuids_drawn promises_made spawned].
    destruct (randomUUID_throws platform (uuids_drawn m)) as [e|];
      cbn [fst snd main rejected Provider.randomUUID uuids_drawn];
      [|destruct (postMessage_throws platform (spawned m) _) as [e|];
        cbn [fst snd main rejected]];
      match goal with
      | |- context [ProviderPlatform.await ?a ?b ?c ?d] =>
          destruct (ProviderPlatform.await a b c d) as [s [r|e'|]]
      end; reflexivity.
  - unfold ProviderPlatform.randomUUID at 1, JS.bind at 1. cbn [main rejected uuids_drawn].
    destruct (randomUUID_throws platform (uuids_drawn m)) as [e|]; [reflexivity|].
    unfold on_main at 1. cbn [Provider.randomUUID fst snd main rejected].
    unfold JS.ret at 1. unfold JS.bind at 1.
    unfold ProviderPlatform.callWorker, ProviderPlatform.randomUUID,
      ProviderPlatform.postMessage, on_main, reject, new_Promise,
      JS.bind, JS.try_catch, JS.ret, JS.throw, JS.modify.
    cbn [main rejected fst snd uuids_drawn promises_made spawned].
    destruct (randomUUID_throws platform (S (uuids_drawn m))) as [e|];
      cbn [fst snd main rejected Provider.randomUUID uuids_drawn];
      [|destruct (postMessage_throws platform (spawned m) _) as [e|];
        cbn [fst snd main rejected]];
      match goal with
      | |- context [ProviderPlatform.await ?a ?b ?c ?d] =>
          destruct (ProviderPlatform.await a b c d) as [s [r|e'|]]
      end; reflexivity.
Qed.

(** X4: [create] throws its validation fault, with nothing touched, exactly
    for the runtimes [getSupportedRuntimes] does not list. For a listed
    runtime the only faults are the platform's, passed on unchanged: that of
    [new Worker], with nothing touched; that of [crypto.randomUUID], drawn
    for the sandbox id or for the init call, or that of [postMessage], which
    rejects the call's promise: these three leave a worker spawned that is
    not registered, the last with its listener still on. When the platform
    refuses nothing, [create] is [Provider.create] and does not throw. *)
Theorem create_faults_are_validation_or_platform :
  forall (config : BrowserConfig) (options : option CreateSandboxOptions) (t : Thread),
    well_settled t ->
    let st := main t in
    let w := spawned st in
    let result := ProviderPlatform.create platform env config options t in
    let st' := main (fst result) in
    let n := uuids_drawn (before_init env options st) in
    let call_id := randomUUID_value env n in
    let init := outbound call_id (Init (pyodideIndexURL config)) in
    (~ In (requested_runtime config options) getSupportedRuntimes ->
     result =
       (t, Threw (ErrorObject "Error"
                    ("Unsupported runtime " ++ dquote ++ requested_runtime config options
                       ++ dquote ++ ". Only " ++ dquote ++ "python" ++ dquote
                       ++ " is supported."))))
    /\ (In (requested_runtime config options) getSupportedRuntimes ->
        (forall e, new_Worker_throws platform w = Some e -> result = (t, Threw e))
        /\ (new_Worker_throws platform w = None ->
            (forall e,
               sandboxId_fault platform options st = Some e ->
               snd result = Threw e
               /\ registry st' = registry st /\ spawned st' = S w)
            /\ (sandboxId_fault platform options st = None ->
                (forall e,
                   randomUUID_throws platform n = Some e ->
                   snd result = Threw e
                   /\ registry st' = registry st /\ spawned st' = S w
                   /\ listeners (port w st') = listeners (port w st))
                /\ (randomUUID_throws platform n = None ->
                    (forall e,
                       postMessage_throws platform w init = Some e ->
                       snd result = Threw e
                       /\ registry st' = registry st /\ spawned st' = S w
                       /\ In {| listens_for := call_id; resolves := promises_made st |}
                             (listeners (port w st')))
                    /\ (postMessage_throws platform w init = None ->
                        st' = fst (Provider.create env config options st)
                        /\ snd result = snd (Provider.create env config options st)
                        /\ rejected (fst result) = rejected t
                        /\ forall e, snd result <> Threw e))))).
Proof.
  intros config options [m rj] [Hm Hrj]. cbn [main rejected] in *. cbv zeta.
  assert (Hfresh : rj !! promises_made m = None).
  { destruct (rj !! promises_made m) as [e|] eqn:E; [|reflexivity].
    apply Hrj in E. lia. }
  unfold getSupportedRuntimes. cbn [In].
  destruct (String.eqb_spec (requested_runtime config options) "python") as [Hpy|Hne].
  2: { split.
       - intros _. unfold ProviderPlatform.create.
         apply String.eqb_neq in Hne. rewrite Hne. reflexivity.
       - intros [H|[]]. now destruct Hne. }
  split; [intros H; destruct H; now left|]. intros _.
  rewrite (create_platform_eq config options _ Hpy). cbn [main rejected].
  destruct (new_Worker_throws platform (spawned m)) as [e0|].
  { split; [intros e [= ->]; reflexivity|discriminate]. }
  split; [discriminate|]. intros _.
  destruct (sandboxId_fault platform options m) as [e0|].
  { split; [|discriminate]. intros e [= ->]. cbn. split_ands; reflexivity. }
  split; [discriminate|]. intros _. cbv zeta.
  destruct (before_init_facts env options m) as (Hports & _ & Hpm & Hreg & Hsp & _).
  pose proof (callWorker_then_await (spawned m) (Init (pyodideIndexURL config))
                (worker_messages env (spawned m))
                {| main := before_init env options m; rejected := rj |}) as Hc.
  cbn [main rejected] in Hc. rewrite Hpm in Hc. destruct (Hc Hfresh) as [_ Hw]. clear Hc.
  cbv zeta in Hw.
  set (t2 := {| main := before_init env options m; rejected := rj |}) in *.
  set (called := fst (ProviderPlatform.callWorker platform env (spawned m)
                        (Init (pyodideIndexURL config)) t2)) in *.
  destruct (randomUUID_throws platform (uuids_drawn (before_init env options m))) as [e0|].
  { split; [|discriminate]. intros e [= ->]. destruct Hw as [-> Hmain].
    cbn [fst snd]. rewrite Hmain. cbn. split_ands; auto.
    unfold port. cbn. now rewrite Hports. }
  split; [discriminate|]. intros _.
  destruct (postMessage_throws platform (spawned m) _) as [e0|].
  { split; [|discriminate]. intros e [= ->]. destruct Hw as [-> Hmain].
    cbn [fst snd]. rewrite Hmain. cbn. split_ands; auto.
    unfold addEventListener. rewrite port_set_port, Nat.eqb_refl. cbn.
    rewrite in_app_iff. right. now left. }
  split; [discriminate|]. intros _.
  destruct Hw as (_ & _ & Hmain & Hrej & Hout).
  rewrite (create_python_eq env config options m Hpy).
  pose proof (await_never_throws (spawned m) (promises_made m)
                (worker_messages env (spawned m))
                (fst (Provider.callWorker env (spawned m) (Init (pyodideIndexURL config))
                        (before_init env options m)))) as Hnt.
  destruct (ProviderPlatform.await (spawned m) (promises_made m) _ called) as [s o].
  destruct (Provider.await (spawned m) (promises_made m) _ _) as [s0 o0].
  cbn [fst snd] in *. subst o s0.
  destruct o0 as [r|e|]; cbn [fst snd main rejected].
  - split_ands; auto; discriminate.
  - now destruct (Hnt e).
  - split_ands; auto; discriminate.
Qed.

End ProviderPlatformFacts.

Section ProviderPlatformExamples.

Import Provider ProviderApi ProviderPlatform ProviderSamples MoreSamples.

Lemma well_settled_fresh_thread : well_settled fresh_thread.
Proof.
  split; [apply handles_made_start|].
  intros h e H. unfold fresh_thread in H; cbn in H. rewrite lookup_empty in H. discriminate H.
Qed.

Example create_without_workers :
  ProviderPlatform.create no_workers stubborn
    {| config_runtime := None; pyodideIndexURL := None |} None fresh_thread
  = (fresh_thread, Threw (ErrorObject "SecurityError" "worker script blocked")).
Proof. reflexivity. Qed.

(** The init request cannot be posted: [create] throws the fault of
    [postMessage], and leaves behind a worker that is spawned but not
    registered, with the listener of the call still on. *)
Lemma create_faults_are_validation_or_platform_witness :
  let result := ProviderPlatform.create no_posting stubborn
                  {| config_runtime := None; pyodideIndexURL := None |} None fresh_thread in
  snd result = Threw (ErrorObject "DataCloneError" "could not be cloned")
  /\ registry (main (fst result)) = registry start
  /\ spawned (main (fst result)) = 1
  /\ In {| listens_for := pretty 1; resolves := 0 |}
        (listeners (port 0 (main (fst result)))).
Proof.
  intros result.
  destruct (create_faults_are_validation_or_platform no_posting stubborn
              {| config_runtime := None; pyodideIndexURL := None |} None fresh_thread
              well_settled_fresh_thread) as [_ Hlisted].
  destruct (Hlisted (or_introl eq_refl)) as [_ Hspawned].
  destruct (Hspawned eq_refl) as [_ Hid].
  destruct (Hid eq_refl) as [_ Hdrawn].
  destruct (Hdrawn eq_refl) as [Hpost _].
  exact (Hpost (ErrorObject "DataCloneError" "could not be cloned") eq_refl).
Defined.

End ProviderPlatformExamples.


(** ** More on the worker: what a message may and may not do *)

Section WorkerTraceFacts.

Import PythonWorker WorkerTrace.

Variable env : Env.

(** X8: a payload that is neither init nor runCode (a null payload
    included) is answered at once with one reply and has no other effect:
    nothing is imported, loaded or run, and the module variables stay as
    they are. The reply echoes the id, fails with exit code 1 and has no
    stdout. For an unknown type it has no stderr and its error names the
    type (as [String] prints it); for a null payload error and stderr are
    the message and the text of the TypeError the engine throws. *)
Theorem other_messages_only_reply :
  forall (data : option Msg) (st : State),
    match data with Some m => needs_runtime m = false | None => True end ->
    exists r,
      onmessage env data st =
        ({| pyPromise := pyPromise st; PYODIDE_INDEX_URL := PYODIDE_INDEX_URL st;
            trace := trace st ++ [PostMessage r] |},
         Returned tt)
      /\ id r = reply_id data
      /\ ok (body r) = false
      /\ exitCode (body r) = Some 1%Z
      /\ stdout (body r) = None
      /\ match data with
         | Some m =>
             stderr (body r) = None
             /\ (exists text, error (body r) = Some ("Unknown message type: " ++ text))
             /\ (prints_exactly (type m) ->
                 error (body r) = Some ("Unknown message type: " ++ to_string (type m)))
         | None =>
             exists text,
               error (body r) = Some text
               /\ stderr (body r) = Some ("TypeError: " ++ text)
         end.
Proof.
  intros [m|] st H.
  - unfold needs_runtime in H. apply orb_false_elim in H as [Hi Hr].
    exists (unknown_reply (reply_id (Some m)) (type m)).
    unfold onmessage. rewrite Hi, Hr. cbn. split_ands; eauto.
  - exists (fault_reply (VString "") null_dereference).
    cbn. split_ands; eauto.
Qed.

Lemma loads_cons (ev : Event) (tr : list Event) :
  loads (ev :: tr) = (match ev with LoadPyodide _ => 1 | _ => 0 end) + loads tr.
Proof. unfold loads. now destruct ev. Qed.

Lemma runs_follow_load_app (b : bool) (l k : list Event) :
  runs_follow_load b (l ++ k)
  = runs_follow_load b l && runs_follow_load (b || negb (Nat.eqb (loads l) 0)) k.
Proof.
  revert b. induction l as [|ev l IH]; intros b; cbn [app runs_follow_load].
  - change (loads []) with 0. cbn. now rewrite orb_false_r.
  - rewrite loads_cons. destruct ev; cbn [Nat.add]; rewrite IH; cbn.
    + reflexivity.
    + now rewrite orb_true_r.
    + now rewrite andb_assoc.
    + reflexivity.
Qed.

(** [ensurePyodide] never runs the interpreter. *)
Lemma ensurePyodide_runs_nothing (a : option string) (st : State) :
  exists evs,
    trace (fst (ensurePyodide env a st)) = (trace st ++ evs)%list
    /\ forall b, runs_follow_load b evs = true.
Proof.
  destruct (pyPromise st) as [p|] eqn:Hp.
  - rewrite (ensurePyodide_stored env a st p Hp). exists []. cbn.
    now rewrite app_nil_r.
  - rewrite (ensurePyodide_first env a st Hp).
    destruct (importScripts_throws env (trace st) _);
      [destruct (importScripts_throws env (trace st ++ _) _)|];
      cbn; eexists; split; reflexivity.
Qed.

Lemma after_ensure_runs_nothing (data : option Msg) (st : State) :
  exists evs,
    trace (after_ensure env data st) = (trace st ++ evs)%list
    /\ forall b, runs_follow_load b evs = true.
Proof.
  unfold after_ensure. destruct data as [m|].
  - destruct (needs_runtime m); [apply ensurePyodide_runs_nothing|].
    exists []. now rewrite app_nil_r.
  - exists []. now rewrite app_nil_r.
Qed.

(** After [ensurePyodide], the dispatcher runs the interpreter only with a
    load behind it. *)
Lemma onmessage_tail (data : option Msg) (st : State) :
  consistent st ->
  exists tail,
    trace (fst (onmessage env data st)) = (trace (after_ensure env data st) ++ tail)%list
    /\ runs_follow_load (negb (Nat.eqb (loads (trace (after_ensure env data st))) 0)) tail
       = true.
Proof.
  intros Hc.
  destruct data as [m|]; [|eexists; split; reflexivity].
  unfold onmessage, after_ensure, needs_runtime, ensure_argument.
  destruct (strict_eq (type m) (VString "init")) eqn:Hi;
    [|destruct (strict_eq (type m) (VString "runCode")) eqn:Hr].
  1,2: match goal with
       | |- context [ensurePyodide _ ?a ?s] =>
           pose proof (ensurePyodide_consistent env a s Hc) as Hc1;
           destruct (ensurePyodide_effects env a s) as (evs & _ & _ & _ & Hst);
           unfold JS.try_catch, JS.bind; cbv beta;
           destruct (ensurePyodide env a s) as [st1 [p|e|]]
       end.
  all: cbn [orb fst snd from_option] in *.
  1,4: specialize (Hst p eq_refl); unfold consistent in Hc1; rewrite Hst in Hc1;
       rewrite Hc1.
  all: unfold execWithCapture, runPythonAsync, postMessage, emit, JS.try_catch, JS.bind,
         JS.ret, JS.throw, JS.get, JS.modify, JS.settle; cbn.
  all: try match goal with
           | |- context [loadPyodide_settles _ ?q] =>
               destruct (loadPyodide_settles env q) as [py|e|]; cbn;
               [ match goal with
                 | |- context [runPythonAsync_settles _ ?t ?y ?c] =>
                     destruct (runPythonAsync_settles env t y c) as [[[c' o'] e']|e'|]
                 end | | ]; cbn
           end.
  all: first [ exists []; rewrite app_nil_r; split; reflexivity
             | eexists; rewrite <- ?app_assoc; split; reflexivity ].
Qed.

Lemma onmessage_follows_load (data : option Msg) (st : State) :
  consistent st ->
  runs_follow_load false (trace st) = true ->
  runs_follow_load false (trace (fst (onmessage env data st))) = true.
Proof.
  intros Hc Hf.
  destruct (onmessage_tail data st Hc) as (tail & Ht & Htail).
  destruct (after_ensure_runs_nothing data st) as (evs & He & Hevs).
  rewrite Ht, runs_follow_load_app. cbn [orb]. rewrite Htail, andb_true_r.
  now rewrite He, runs_follow_load_app, Hf, Hevs.
Qed.

(** X9: in the trace of any sequence of messages, every interpreter run
    comes after a [loadPyodide] call: no code is run on a runtime that was
    not asked to load. *)
Theorem interpreter_runs_follow_load :
  forall (inbox : list (option Msg)),
    runs_follow_load false (trace (handle_all env inbox initial)) = true.
Proof.
  intros inbox.
  assert (H : consistent initial /\ runs_follow_load false (trace initial) = true)
    by (split; reflexivity).
  revert H. generalize initial as st.
  induction inbox as [|data inbox IH]; intros st [Hc Hf]; [exact Hf|].
  rewrite handle_all_cons. apply IH. split.
  - now apply onmessage_consistent.
  - now apply onmessage_follows_load.
Qed.

End WorkerTraceFacts.

Section WorkerUrlFacts.

Import PythonWorker WorkerTrace.

Variable env : Env.

Lemma length_append_slash (u : string) : String.length (u ++ "/") = S (String.length u).
Proof. induction u as [|c u IH]; simpl; [reflexivity|now f_equal]. Qed.

Lemma substring_last_slash (u : string) : substring (String.length u) 1 (u ++ "/") = "/".
Proof. induction u as [|c u IH]; simpl; [reflexivity|exact IH]. Qed.

Lemma endsWith_append_slash (u : string) : endsWith (u ++ "/") "/" = true.
Proof.
  unfold endsWith. rewrite length_append_slash. cbn [String.length Nat.leb Nat.sub].
  rewrite Nat.sub_0_r, substring_last_slash. reflexivity.
Qed.

Lemma chosen_indexURL_ends_with_slash (a : option string) (current : string) :
  endsWith current "/" = true -> endsWith (chosen_indexURL a current) "/" = true.
Proof.
  intros H. unfold chosen_indexURL. destruct a as [u|]; [|exact H].
  destruct (String.eqb u ""); [exact H|].
  destruct (endsWith u "/") eqn:E; [exact E|apply endsWith_append_slash].
Qed.

Lemma imported_app (l k : list Event) : imported (l ++ k) = (imported l ++ imported k)%list.
Proof. apply omap_app. Qed.

Lemma imported_nil_of_imports (l : list Event) : imports l = 0 -> imported l = [].
Proof.
  unfold imports, imported. induction l as [|ev l IH]; [reflexivity|].
  destruct ev; cbn; try exact IH. discriminate.
Qed.

Lemma ensurePyodide_urls (a : option string) (st : State) :
  urls_well_formed st -> urls_well_formed (fst (ensurePyodide env a st)).
Proof.
  intros [Hu Hi].
  destruct (pyPromise st) as [p|] eqn:Hp.
  - rewrite (ensurePyodide_stored env a st p Hp). now split.
  - pose proof (chosen_indexURL_ends_with_slash a _ Hu) as Hc.
    assert (H1 : script_of_index (chosen_indexURL a (PYODIDE_INDEX_URL st) ++ "pyodide.js"))
      by (eexists; eauto).
    assert (H2 : script_of_index
                   (chosen_indexURL a (PYODIDE_INDEX_URL st) ++ "full/pyodide.js"))
      by (eexists; eauto).
    rewrite (ensurePyodide_first env a st Hp).
    destruct (importScripts_throws env (trace st) _);
      [destruct (importScripts_throws env (trace st ++ _) _)|];
      unfold urls_well_formed; cbn [fst trace PYODIDE_INDEX_URL];
      (split; [exact Hc|]); rewrite imported_app; apply Forall_app; split; auto;
      cbn; repeat constructor; assumption.
Qed.

Lemma after_ensure_urls (data : option Msg) (st : State) :
  urls_well_formed st -> urls_well_formed (after_ensure env data st).
Proof.
  intros H. unfold after_ensure. destruct data as [m|]; [|exact H].
  destruct (needs_runtime m); [now apply ensurePyodide_urls|exact H].
Qed.

Lemma onmessage_urls (data : option Msg) (st : State) :
  consistent st -> urls_well_formed st -> urls_well_formed (fst (onmessage env data st)).
Proof.
  intros Hc H. apply (after_ensure_urls data) in H. destruct H as [Hu Hi].
  destruct (onmessage_variables env data st) as (_ & Hurl & _ & Himp).
  destruct (onmessage_tail env data st Hc) as (tail & Ht & _).
  cbv zeta in *. split; [now rewrite Hurl|].
  rewrite Ht, imports_app in Himp. rewrite Ht, imported_app.
  rewrite (imported_nil_of_imports tail) by lia. now rewrite app_nil_r.
Qed.

(** X10: over any sequence of messages the index URL ends with a slash, and
    every script the worker imported is that of an index URL ending with a
    slash followed by pyodide.js or full/pyodide.js: a caller's index URL
    without the final slash is never glued to the file name. *)
Theorem script_urls_are_well_formed :
  forall (inbox : list (option Msg)),
    let st := handle_all env inbox initial in
    endsWith (PYODIDE_INDEX_URL st) "/" = true
    /\ Forall script_of_index (imported (trace st)).
Proof.
  intros inbox. cbv zeta. change (urls_well_formed (handle_all env inbox initial)).
  assert (H : consistent initial /\ urls_well_formed initial).
  { split; [reflexivity|]. split; [reflexivity|constructor]. }
  revert H. generalize initial as st.
  induction inbox as [|data inbox IH]; intros st [Hc Hu]; [exact Hu|].
  rewrite handle_all_cons. apply IH. split.
  - now apply onmessage_consistent.
  - now apply onmessage_urls.
Qed.

End WorkerUrlFacts.

Section WorkerTraceExamples.

Import PythonWorker WorkerTrace Samples.

(** A ping, which the dispatcher does not know, on a worker that has
    loaded nothing. *)
Lemma other_messages_only_reply_witness :
  let ping := {| msg_id := VString "9"; type := VString "ping";
                 indexURL := None; code := Some "1+1" |} in
  exists r,
    onmessage online (Some ping) initial =
      ({| pyPromise := None;
          PYODIDE_INDEX_URL := "https://cdn.jsdelivr.net/pyodide/v0.29.0/";
          trace := [PostMessage r] |},
       Returned tt)
    /\ id r = VString "9"
    /\ ok (body r) = false
    /\ error (body r) = Some "Unknown message type: ping".
Proof.
  intros ping.
  destruct (other_messages_only_reply online (Some ping) initial eq_refl)
    as (r & Hrun & Hid & Hok & _ & _ & _ & _ & Herr).
  exists r. split_ands; [exact Hrun|exact Hid|exact Hok|exact (Herr I)].
Defined.

Example init_without_slash_imports_with_slash :
  imported (trace (handle_all offline [Some (init_msg "1" (Some "http://host/py"))] initial))
  = ["http://host/py/pyodide.js"; "http://host/py/full/pyodide.js"].
Proof. reflexivity. Qed.

End WorkerTraceExamples.


(** ** More on the filesystem facade *)

Section FacadeFacts.

Import Filesystem FilesystemBytes.

Variable service : OPFSService.

(** [getFS] keeps the calls made so far. *)
Lemma calls_after_getFS (st : State) :
  calls match __fs st with
        | Some _ => st
        | None => {| __fs := Some (ROOT, NAMESPACE); calls := calls st |}
        end = calls st.
Proof. now destruct (__fs st). Qed.

Ltac facade :=
  unfold readFile, writeFile, mkdir, readdir, exists_, remove, readFileBytes,
    writeFileBytes, sandbox_readFile, sandbox_writeFile, invoke, getFS,
    JS.try_catch, JS.bind, JS.modify, JS.ret;
  cbn; rewrite ?calls_after_getFS.


(** X12: a file written through one sandbox under one spelling of a path is
    read back through any sandbox under any spelling that normalises to the
    same path, on a service that accepts the write and then answers a read
    at that path with the data written: sandboxes share one filesystem, and
    foo.txt and /foo.txt are one file. *)
Theorem write_then_read_across_sandboxes :
  forall (a b : Provider.BrowserSandbox) (p p' content : string) (st : State),
    normalizePath p = normalizePath p' ->
    writeFile_ends service (calls st) (normalizePath p) (Text content) = Returned tt ->
    readFile_ends service (calls st ++ [WriteFile (normalizePath p) (Text content)])
                  (normalizePath p) "utf8" = Returned (Text content) ->
    snd (sandbox_readFile service b p' (fst (sandbox_writeFile service a p content st)))
    = Returned content.
Proof.
  intros a b p p' content [[h|] cs] Hn Hw Hr; cbn in *; facade; cbn;
    rewrite <- Hn, Hr; reflexivity.
Qed.


(** X15: every event the watch handler passes to the callback is canonical:
    a rename with non-empty from and to and no path, or a create, modify or
    remove with a non-empty path and neither from nor to; and one message
    event makes at most one call. *)
Theorem handler_emits_canonical_events :
  forall (onChange : bool) (data : option WatchMsg),
    Forall (fun e => canonical e = true) (handler onChange data)
    /\ length (handler onChange data) <= 1.
Proof.
  intros onChange [m|]; [|split; [constructor|cbn; lia]].
  destruct onChange; [|split; [constructor|cbn; lia]].
  destruct m as [[t|] p f o]; [|split; [constructor|cbn; lia]].
  unfold handler, canonical; cbn.
  destruct (String.eqb_spec t "rename") as [->|Hr]; cbn.
  { destruct (truthy f) eqn:Hf, (truthy o) eqn:Ho; cbn;
      split; try constructor; cbn; try lia; try constructor.
    now rewrite Hf, Ho. }
  destruct (String.eqb_spec t "create") as [->|Hc]; cbn.
  { destruct (truthy p) eqn:Hp; cbn; split; try constructor; cbn; try lia;
      try constructor. now rewrite Hp. }
  destruct (String.eqb_spec t "modify") as [->|Hm]; cbn.
  { destruct (truthy p) eqn:Hp; cbn; split; try constructor; cbn; try lia;
      try constructor. now rewrite Hp. }
  destruct (String.eqb_spec t "remove") as [->|Hv]; cbn;
    [|split; [constructor|lia]].
  destruct (truthy p) eqn:Hp; cbn; split; try constructor; cbn; try lia;
    try constructor. now rewrite Hp.
Qed.



End FacadeFacts.

Section FacadeExamples.

Import Filesystem FilesystemBytes MoreSamples ProviderSamples.

Lemma write_then_read_across_sandboxes_witness :
  snd (sandbox_readFile memory_disk
         {| Provider.id := "sb-2"; Provider.runtime := "python"; Provider.worker := 1 |}
         "/foo.txt"
         (fst (sandbox_writeFile memory_disk
                 {| Provider.id := "sb-1"; Provider.runtime := "python";
                    Provider.worker := 0 |}
                 "foo.txt" "hello" unset)))
  = Returned "hello".
Proof.
  apply (write_then_read_across_sandboxes memory_disk); reflexivity.
Defined.

Example readFile_after_remove_faults :
  snd (readFile memory_disk "a.txt"
         (fst (remove memory_disk "/a.txt" (fst (writeFile memory_disk "a.txt" "x" unset)))))
  = Threw (ErrorObject "NotFoundError" "no such file").
Proof. reflexivity. Qed.

End FacadeExamples.

(** ** The facade on the platform: listings and the watcher *)

Section PlatformFacts.

Import Filesystem FilesystemPlatform.

Variable service : OPFSService.

Lemma notifications_of_app (i : nat) (a b : list (nat * ChangeEvent)) :
  notifications_of i (a ++ b) = (notifications_of i a ++ notifications_of i b)%list.
Proof. apply omap_app. Qed.

Lemma notifications_of_channel (i j : nat) (evs : list ChangeEvent) :
  notifications_of j (map (pair i) evs) = if Nat.eqb i j then evs else [].
Proof.
  unfold notifications_of.
  induction evs as [|e evs IH]; cbn; [now destruct (Nat.eqb i j)|].
  rewrite IH. now destruct (Nat.eqb i j).
Qed.

(** Of one message event, the listener of channel [j] hears what its own
    channel passes on. *)
Lemma notifications_heard_from (cs : list Channel) (i j : nat) (name : string)
      (data : option WatchMsg) :
  notifications_of j (heard_from i cs name data) =
    match (if Nat.leb i j then cs !! (j - i) else None) with
    | Some c => passed_on c name data
    | None => []
    end.
Proof.
  revert i. induction cs as [|c cs IH]; intros i; cbn [heard_from].
  - cbn. now destruct (Nat.leb i j).
  - rewrite notifications_of_app, notifications_of_channel, IH.
    destruct (Nat.eqb_spec i j) as [->|Hne].
    + rewrite Nat.leb_refl, Nat.sub_diag. cbn [lookup list_lookup].
      destruct (Nat.leb_spec (S j) j); [lia|]. now rewrite app_nil_r.
    + destruct (Nat.leb_spec i j) as [Hle|Hgt].
      * destruct (Nat.leb_spec (S i) j); [|lia].
        replace (j - i) with (S (j - S i)) by lia. reflexivity.
      * destruct (Nat.leb_spec (S i) j); [lia|]. reflexivity.
Qed.

Lemma notified_message (j : nat) (name : string) (data : option WatchMsg) (pg : Page) :
  notifications_of j (notified (message name data pg)) =
    (notifications_of j (notified pg)
       ++ match channels pg !! j with
          | Some c => passed_on c name data
          | None => []
          end)%list.
Proof.
  unfold message; cbn [notified]. rewrite notifications_of_app, notifications_heard_from.
  cbn [Nat.leb]. now rewrite Nat.sub_0_r.
Qed.

Lemma broadcasts_cons (name : string) (a : Action) (actions : list Action) :
  broadcasts name (a :: actions) =
    (match a with
     | Message n d => if String.eqb n name then [d] else []
     | _ => []
     end ++ broadcasts name actions)%list.
Proof.
  unfold broadcasts. destruct a as [n d| |]; cbn; [|reflexivity|reflexivity].
  now destruct (String.eqb n name).
Qed.

(** What one [watchFS] call does to the page. *)
Lemma watchFS_cases (boot : option fault) (path : option string) (onChange : bool) (pg : Page) :
  let p := normalizePath (default "/" path) in
  let h := {| closure := length (channels pg); onChange_given := onChange |} in
  let made := {| channel_name := NAMESPACE; channel_listeners := [h]; closed := false |} in
  let pg' := fst (watchFS boot service path onChange pg) in
  notified pg' = notified pg
  /\ match snd (watchFS boot service path onChange pg) with
     | Returned u =>
         u = {| bc := length (channels pg); registered := h |}
         /\ channels pg' = (channels pg ++ [made])%list
         /\ calls (fs pg') = (calls (fs pg) ++ [Watch p true])%list
         /\ watch_ends service (calls (fs pg)) p true = Returned tt
     | Threw e =>
         channels pg' = channels pg
         /\ ((__fs (fs pg) = None /\ boot = Some e /\ fs pg' = fs pg)
             \/ ((__fs (fs pg) <> None \/ boot = None)
                 /\ watch_ends service (calls (fs pg)) p true = Threw e
                 /\ calls (fs pg') = (calls (fs pg) ++ [Watch p true])%list))
     | Suspended =>
         channels pg' = channels pg
         /\ watch_ends service (calls (fs pg)) p true = Suspended
     end.
Proof.
  cbv zeta.
  unfold watchFS, on_fs, getFS, createWorker, invoke, new_BroadcastChannel,
    addEventListener, update_channel,
    JS.bind, JS.modify, JS.get, JS.ret, JS.throw.
  destruct pg as [[[fh|] cs] chans log]; cbn [fs __fs calls channels notified fst snd].
  - destruct (watch_ends service cs _ true) as [[]|e|] eqn:E; cbn.
    + split; [reflexivity|]. split_ands; try reflexivity.
      rewrite <- (Nat.add_0_r (length chans)) at 1. rewrite alter_app_r. reflexivity.
    + split; [reflexivity|]. split; [reflexivity|]. right.
      split_ands; auto; left; discriminate.
    + auto.
  - destruct boot as [e0|]; cbn.
    + split; [reflexivity|]. split; [reflexivity|]. left. auto.
    + destruct (watch_ends service cs _ true) as [[]|e|] eqn:E; cbn.
      * split; [reflexivity|]. split_ands; try reflexivity.
        rewrite <- (Nat.add_0_r (length chans)) at 1. rewrite alter_app_r. reflexivity.
      * split; [reflexivity|]. split; [reflexivity|]. right.
        split_ands; auto.
      * auto.
Qed.

(** Whatever its outcome, a [watchFS] call leaves the channels there are as
    they are. *)
Lemma watchFS_keeps_channels (boot : option fault) (path : option string) (onChange : bool)
      (pg : Page) (j : nat) (c : Channel) :
  channels pg !! j = Some c ->
  channels (fst (watchFS boot service path onChange pg)) !! j = Some c.
Proof.
  intros Hj.
  destruct (watchFS_cases boot path onChange pg) as [_ H].
  destruct (snd (watchFS boot service path onChange pg)) as [u|e|].
  - destruct H as (_ & -> & _). rewrite lookup_app_l; [exact Hj|].
    now apply lookup_lt_Some in Hj.
  - destruct H as [-> _]. exact Hj.
  - destruct H as [-> _]. exact Hj.
Qed.

Lemma unsubscribe_cases (u : Unsubscribe) (pg : Page) :
  let pg' := fst (unsubscribe u pg) in
  unsubscribe u pg = (pg', Returned tt)
  /\ fs pg' = fs pg
  /\ notified pg' = notified pg
  /\ (forall j, j <> bc u -> channels pg' !! j = channels pg !! j)
  /\ channels pg' !! bc u =
       (fun c => {| channel_name := channel_name c;
                    channel_listeners :=
                      List.filter (fun h' => negb (Handler_eqb h' (registered u)))
                                  (channel_listeners c);
                    closed := true |}) <$> channels pg !! bc u.
Proof.
  cbv zeta.
  unfold unsubscribe, removeEventListener, close, update_channel, JS.bind, JS.modify.
  cbn [fst snd fs notified channels]. split_ands; try reflexivity.
  - intros j Hne. now rewrite !list_lookup_alter_ne by congruence.
  - rewrite !list_lookup_alter_eq. now destruct (channels pg !! bc u).
Qed.

Lemma Handler_eqb_refl (h : Handler) : Handler_eqb h h = true.
Proof. unfold Handler_eqb. now rewrite Nat.eqb_refl, Bool.eqb_reflx. Qed.

(** While the returned function is not called, the channel stays open with
    its one listener, and the listener passes on what the handler forwards
    of every message for the namespace. *)
Lemma subscribed_run (i : nat) (h : Handler) (actions : list Action) (pg : Page) :
  let made := {| channel_name := NAMESPACE; channel_listeners := [h]; closed := false |} in
  channels pg !! i = Some made ->
  keeps_subscribed i actions ->
  channels (run service actions pg) !! i = Some made
  /\ notifications_of i (notified (run service actions pg)) =
       (notifications_of i (notified pg)
          ++ flat_map (handler (onChange_given h)) (broadcasts NAMESPACE actions))%list.
Proof.
  cbv zeta. revert pg. induction actions as [|a actions IH]; intros pg Hi Hk.
  - cbn. now rewrite app_nil_r.
  - change (run service (a :: actions) pg) with (run service actions (step service a pg)).
    assert (Hk' : keeps_subscribed i actions).
    { intros u Hin. apply Hk. now right. }
    destruct a as [name data|boot path onChange|u]; cbn [step].
    + destruct (IH (message name data pg) Hi Hk') as [Hc Hn].
      split; [exact Hc|]. rewrite Hn, notified_message, Hi, broadcasts_cons.
      unfold passed_on. cbn [channel_name closed channel_listeners negb].
      rewrite andb_true_r, String.eqb_sym.
      destruct (String.eqb name NAMESPACE); cbn [flat_map app];
        rewrite <- ?app_assoc, ?app_nil_r; reflexivity.
    + destruct (IH (fst (watchFS boot service path onChange pg))
                  (watchFS_keeps_channels boot path onChange pg i _ Hi) Hk') as [Hc Hn].
      split; [exact Hc|]. rewrite Hn.
      destruct (watchFS_cases boot path onChange pg) as [-> _]. reflexivity.
    + assert (Hne : i <> bc u).
      { intros ->. apply (Hk u); [now left|reflexivity]. }
      destruct (unsubscribe_cases u pg) as (_ & _ & Hlog & Hothers & _).
      rewrite <- (Hothers i Hne) in Hi.
      destruct (IH (fst (unsubscribe u pg)) Hi Hk') as [Hc Hn].
      split; [exact Hc|]. now rewrite Hn, Hlog.
Qed.

(** A closed channel stays closed and passes nothing on, whatever happens
    on the page afterwards. *)
Lemma closed_run (i : nat) (actions : list Action) (pg : Page) :
  (exists c, channels pg !! i = Some c /\ closed c = true /\ channel_listeners c = []) ->
  (exists c, channels (run service actions pg) !! i = Some c
             /\ closed c = true /\ channel_listeners c = [])
  /\ notifications_of i (notified (run service actions pg))
     = notifications_of i (notified pg).
Proof.
  revert pg. induction actions as [|a actions IH]; intros pg Hi; [auto|].
  change (run service (a :: actions) pg) with (run service actions (step service a pg)).
  destruct Hi as (c & Hc & Hclosed & Hnone).
  destruct a as [name data|boot path onChange|u]; cbn [step].
  - destruct (IH (message name data pg)) as [Hc' Hn]; [eauto|].
    split; [exact Hc'|]. rewrite Hn, notified_message, Hc.
    unfold passed_on. rewrite Hclosed, andb_false_r. now rewrite app_nil_r.
  - destruct (IH (fst (watchFS boot service path onChange pg))) as [Hc' Hn].
    { exists c. split; [|auto]. now apply watchFS_keeps_channels. }
    split; [exact Hc'|]. rewrite Hn.
    destruct (watchFS_cases boot path onChange pg) as [-> _]. reflexivity.
  - destruct (unsubscribe_cases u pg) as (_ & _ & Hlog & Hothers & Hself).
    destruct (IH (fst (unsubscribe u pg))) as [Hc' Hn].
    { destruct (Nat.eq_dec i (bc u)) as [->|Hne].
      - rewrite Hself, Hc. cbn. eexists. split; [reflexivity|].
        cbn. rewrite Hnone. auto.
      - rewrite (Hothers i Hne). eauto. }
    split; [exact Hc'|]. now rewrite Hn, Hlog.
Qed.

(** X16: a [watchFS] call that returns has asked the service once to watch
    the normalised path (the root when none is given), recursively, and has
    made one broadcast channel for the namespace with one listener. Whatever
    else happens on the page (messages on any channel, other watchers made
    or unsubscribed), until the returned function is called the callback
    gets exactly what the handler forwards of each message for the
    namespace, in order; once it is called the channel is closed and the
    callback gets nothing more, whatever happens afterwards, a second call
    of the function included. A fault of the service's watch is passed on
    with no channel made. *)
Theorem watchFS_forwards_until_unsubscribed :
  forall (createWorker_throws : option fault) (path : option string) (onChange : bool)
         (pg : Page),
    (forall e,
       (__fs (fs pg) <> None \/ createWorker_throws = None) ->
       watch_ends service (calls (fs pg)) (normalizePath (default "/" path)) true = Threw e ->
       snd (watchFS createWorker_throws service path onChange pg) = Threw e
       /\ channels (fst (watchFS createWorker_throws service path onChange pg))
          = channels pg)
    /\ forall (pg1 : Page) (u : Unsubscribe),
    watchFS createWorker_throws service path onChange pg = (pg1, Returned u) ->
    calls (fs pg1)
    = (calls (fs pg) ++ [Watch (normalizePath (default "/" path)) true])%list
    /\ bc u = length (channels pg)
    /\ channels pg1 =
         (channels pg ++ [{| channel_name := NAMESPACE;
                             channel_listeners := [registered u];
                             closed := false |}])%list
    /\ (forall before,
          keeps_subscribed (bc u) before ->
          let pg2 := run service before pg1 in
          notifications_of (bc u) (notified pg2) =
            (notifications_of (bc u) (notified pg)
               ++ flat_map (handler onChange) (broadcasts NAMESPACE before))%list
          /\ forall after,
               let pg3 := run service after (fst (unsubscribe u pg2)) in
               notifications_of (bc u) (notified pg3)
               = notifications_of (bc u) (notified pg2)
               /\ exists c, channels pg3 !! bc u = Some c
                            /\ closed c = true /\ channel_listeners c = []).
Proof.
  intros boot path onChange pg. split.
  { intros e Hfs Hw.
    destruct (watchFS_cases boot path onChange pg) as [_ Hret].
    destruct (snd (watchFS boot service path onChange pg)) as [u|e'|].
    - destruct Hret as (_ & _ & _ & Hw'). congruence.
    - destruct Hret as [Hch [(Hn & Hb & _)|(_ & Hw' & _)]].
      + destruct Hfs; congruence.
      + split; [congruence|exact Hch].
    - destruct Hret as [_ Hw']. congruence. }
  intros pg1 u H.
  destruct (watchFS_cases boot path onChange pg) as [Hlog Hret].
  rewrite H in Hlog, Hret. cbn [fst snd] in Hlog, Hret.
  destruct Hret as (-> & Hch & Hcalls & _). cbn [bc registered].
  split_ands; [exact Hcalls|reflexivity|exact Hch|].
  intros before Hk. set (pg2 := run service before pg1).
  assert (Hopen : channels pg1 !! length (channels pg)
                  = Some {| channel_name := NAMESPACE;
                            channel_listeners :=
                              [{| closure := length (channels pg);
                                  onChange_given := onChange |}];
                            closed := false |}).
  { rewrite Hch. apply list_lookup_middle. reflexivity. }
  destruct (subscribed_run _ _ before pg1 Hopen Hk) as [Hc2 Hn2]. fold pg2 in Hc2, Hn2.
  split; [now rewrite Hn2, Hlog|].
  intros after.
  set (u := {| bc := length (channels pg);
               registered := {| closure := length (channels pg);
                                onChange_given := onChange |} |}) in *.
  set (pg3 := run service after (fst (unsubscribe u pg2))).
  destruct (unsubscribe_cases u pg2) as (_ & _ & Hlog3 & _ & Hself).
  cbn [bc registered u] in Hself. rewrite Hc2 in Hself. cbn in Hself.
  rewrite Handler_eqb_refl in Hself. cbn in Hself.
  destruct (closed_run (length (channels pg)) after (fst (unsubscribe u pg2)))
    as [(c & Hc & Hclosed & Hnone) Hn3]; [eauto|].
  fold pg3 in Hc, Hn3. split; [now rewrite Hn3, Hlog3|].
  exists c. split_ands; auto.
Qed.


(** X13: [readdir] returns one entry per record of the service, in order.
    An explicit [isDirectory] flag decides; without one the entry is a
    directory only if it is not flagged a file and its kind is directory;
    a missing path becomes the normalised name, which begins with a slash;
    a missing name and size become the empty string and 0. The date is made
    from the record's time, or from the clock as it reads while that record
    is converted when the record has none, and is an Invalid Date exactly
    when that time lies more than 8.64e15 ms from the epoch. *)
Theorem readdir_coerces_records :
  forall (createWorker_throws : option fault) (clock : nat -> Z) (p : string)
         (st : State) (items : list DirRecord),
    (__fs st <> None \/ createWorker_throws = None) ->
    readDir_ends service (calls st) (normalizePath p) = Returned items ->
    exists entries,
      snd (readdir createWorker_throws service clock p st) = Returned entries
      /\ length entries = length items
      /\ forall i d,
           items !! i = Some d ->
           exists e,
             entries !! i = Some e
             /\ name e = default "" (rec_name d)
             /\ (forall b, rec_isDirectory d = Some b -> isDirectory e = b)
             /\ (rec_isDirectory d = None ->
                 (isDirectory e = true
                  <-> rec_isFile d <> Some true /\ rec_kind d = Some "directory"))
             /\ (rec_path d = None ->
                 path e = normalizePath (name e) /\ startsWith (path e) "/" = true)
             /\ (forall q, rec_path d = Some q -> path e = q)
             /\ size e = default 0%Z (rec_size d)
             /\ (let t := default (clock i) (rec_mtime d) in
                 (lastModified e = Some t
                  <-> (-8640000000000000 <= t <= 8640000000000000)%Z)
                 /\ (lastModified e = None
                     <-> (t < -8640000000000000 \/ 8640000000000000 < t)%Z)).
Proof.
  intros boot clock p st items Hfs H.
  exists (imap (fun i d => toFileEntry (clock i) d) items). split_ands.
  - unfold readdir, getFS, createWorker, invoke, JS.bind, JS.get, JS.modify, JS.ret, JS.throw.
    destruct st as [[fh|] cs]; cbn [__fs calls] in *.
    + now rewrite H.
    + destruct boot as [e0|]; [destruct Hfs; congruence|]. cbn. now rewrite H.
  - apply length_imap.
  - intros i d Hi. exists (toFileEntry (clock i) d).
    split; [now rewrite list_lookup_imap, Hi|].
    destruct d as [n q f dir k s t]; unfold toFileEntry; cbn. split_ands.
    + reflexivity.
    + intros b ->. reflexivity.
    + intros ->. cbn. rewrite andb_true_iff, negb_true_iff. split.
      * intros [Hf Hk]. split; [intros ->; discriminate Hf|].
        destruct k as [k|]; cbn in Hk; [|discriminate Hk].
        apply String.eqb_eq in Hk. now subst.
      * intros [Hf ->]. split; [|reflexivity].
        destruct f as [[|]|]; [congruence|reflexivity|reflexivity].
    + intros ->. cbn.
      split; [reflexivity|apply normalizePath_startsWith].
    + intros q' ->. reflexivity.
    + reflexivity.
    + unfold new_Date.
      destruct (Z.leb_spec (Z.abs (default (clock i) t)) 8640000000000000);
        split; intros; first [congruence | lia | exfalso; lia].
    + unfold new_Date.
      destruct (Z.leb_spec (Z.abs (default (clock i) t)) 8640000000000000);
        split; intros; first [congruence | lia | exfalso; lia].
Qed.

End PlatformFacts.

Section PlatformExamples.

Import Filesystem FilesystemPlatform MoreSamples.

Example readdir_on_listing_disk :
  snd (readdir None listing_disk (fun i => (1700000000000 + Z.of_nat i)%Z) "" unset)
  = Returned [{| name := "a.txt"; path := "/a.txt"; isDirectory := false; size := 5;
                 lastModified := Some 1000%Z |};
              {| name := "src"; path := "/src"; isDirectory := true; size := 0;
                 lastModified := Some 1700000000001%Z |};
              {| name := ""; path := "/"; isDirectory := false; size := 0;
                 lastModified := None |}].
Proof. reflexivity. Qed.

(** The second record of the listing has neither flag, path, size nor time:
    it is a directory by its kind, filed under the normalised name, and
    dated by the clock. *)
Lemma readdir_coerces_records_witness :
  exists entries e,
    snd (readdir None listing_disk (fun i => (1700000000000 + Z.of_nat i)%Z) "" unset)
    = Returned entries
    /\ length entries = 3
    /\ entries !! 1 = Some e
    /\ name e = "src"
    /\ isDirectory e = true
    /\ path e = normalizePath (name e)
    /\ lastModified e = Some 1700000000001%Z.
Proof.
  destruct (readdir_coerces_records listing_disk None
              (fun i => (1700000000000 + Z.of_nat i)%Z) "" unset _
              (or_intror eq_refl) eq_refl)
    as (entries & Hr & Hlen & Hall).
  destruct (Hall 1 _ eq_refl) as (e & He & Hname & _ & Hdir & Hpath & _ & _ & Hdate & _).
  exists entries, e. split_ands; auto.
  - apply (Hdir eq_refl). split; [discriminate|reflexivity].
  - apply (Hpath eq_refl).
  - apply Hdate. cbn. lia.
Defined.

Example closed_channel_hears_nothing :
  let u := {| bc := 0; registered := {| closure := 0; onChange_given := true |} |} in
  notified (run listing_disk
              [CallWatchFS None None true; Message NAMESPACE (created "/a");
               CallUnsubscribe u; Message NAMESPACE (created "/b")]
              fresh_page)
  = [(0, {| event := "create"; event_path := Some "/a";
            event_from := None; event_to := None |})].
Proof. reflexivity. Qed.

(** A watcher on a fresh page, a second watcher made while it listens, a
    message on another channel and a malformed record: the first watcher's
    callback gets the one well-formed record for the namespace, and nothing
    once its function was called. *)
Lemma watchFS_forwards_until_unsubscribed_witness :
  let u := {| bc := 0; registered := {| closure := 0; onChange_given := true |} |} in
  let pg1 := fst (watchFS None listing_disk (Some "src") true fresh_page) in
  let before := [Message NAMESPACE (created "/src/a"); CallWatchFS None None true;
                 Message "other" (created "/src/b"); Message NAMESPACE (half_rename "/src/a")] in
  let after := [Message NAMESPACE (created "/src/c"); CallUnsubscribe u] in
  notifications_of 0 (notified (run listing_disk before pg1))
  = [{| event := "create"; event_path := Some "/src/a";
        event_from := None; event_to := None |}]
  /\ notifications_of 0
       (notified (run listing_disk after (fst (unsubscribe u (run listing_disk before pg1)))))
     = notifications_of 0 (notified (run listing_disk before pg1)).
Proof.
  intros u pg1 before after.
  destruct (proj2 (watchFS_forwards_until_unsubscribed listing_disk None (Some "src") true
                     fresh_page) pg1 u eq_refl)
    as (_ & _ & _ & Huntil).
  assert (Hk : keeps_subscribed (bc u) before).
  { intros u' [H|[H|[H|[H|[]]]]]; discriminate H. }
  destruct (Huntil before Hk) as [Hheard Hsilent].
  split; [exact Hheard|]. apply (Hsilent after).
Defined.

End PlatformExamples.
